(** * Credit-Score-Classification-Project

    A shallow embedding of [generate_data.py] (the synthetic record
    generator and the script that assembles and saves the dataset) and of
    the web layer of [app.py] (the form, [prepare_input_data],
    [make_prediction], [api_predict], [load_model_artifacts] and
    [create_app] with the classes of [config.py]), with the properties
    of the specification stated and proved over it.

    Conventions of the embedding.
    - Python [int] and numpy integer scalars are [Z]; a loop index of
      [range] is a [nat].
    - Python [float] is modelled by the exact rationals [Q]: the shape of
      every formula is kept, binary64 rounding is not modelled, and the
      infinities and NaN are not values of the model; [float] of an int
      beyond the binary64 range raises, as in Python.
    - An exception that the code logs carries what [str] shows of it:
      its message, or the key of a KeyError.
    - A raised exception is the left injection of [result]; code that
      threads the random generators is written in the state-and-exception
      monad [M].
    - numpy's and Faker's generators are an interface ([Runtime]); what
      their documentation promises about the draws is [RuntimeLaws]. *)

From Stdlib Require Import ZArith QArith Qround Qabs Qpower List String Ascii Lia Lqa Bool.
From Stdlib Require Import DecimalString HexadecimalString DecimalNat HexadecimalNat.
From stdpp Require Import gmap strings.
Import ListNotations.

(** ** Python values, exceptions and the monad *)

Inductive pyval :=
| VInt (z : Z)
| VFloat (q : Q)
| VStr (s : string)
| VNone.

Inductive exn :=
| ValueError (msg : string)
| ZeroDivisionError
| IndexError (msg : string)
| KeyError (key : string)
| TypeError (msg : string)
| OverflowError (msg : string)
| FileNotFoundError
| FileExistsError
| NotADirectoryError
| IsADirectoryError
| PermissionError
| OtherError (name msg : string).

Definition result (A : Type) : Type := (exn + A)%type.

Definition M (S A : Type) : Type := S -> result (A * S).

Definition ret {S A} (a : A) : M S A := fun s => inr (a, s).

Definition raise {S A} (e : exn) : M S A := fun _ => inl e.

Definition bind {S A B} (m : M S A) (k : A -> M S B) : M S B :=
  fun s => match m s with
           | inl e => inl e
           | inr (a, s') => k a s'
           end.

Definition lift {S A} (r : result A) : M S A :=
  fun s => match r with
           | inl e => inl e
           | inr a => inr (a, s)
           end.

Declare Scope py_scope.
Delimit Scope py_scope with py.
Notation "'let!' x ':=' m 'in' k" := (bind m (fun x => k))
  (at level 10, x name, m at level 100, k at level 200) : py_scope.

(** ** Float operations (over [Q]) *)

Definition Qlt_bool (x y : Q) : bool := negb (Qle_bool y x).

(** Python's [x / y] on ints and floats: true division, raising on a zero
    divisor. *)
Definition py_div (x y : Q) : result Q :=
  if Qeq_bool y 0 then inl ZeroDivisionError else inr (x / y)%Q.

(** numpy's [/] on a numpy scalar: no exception is raised.  The only use
    divides by the literal 60. *)
Definition np_true_divide (x y : Q) : Q := (x / y)%Q.

(** The builtin [sum]: starts from the int 0 and adds from the left. *)
Definition py_sum (l : list Q) : Q := fold_left Qplus l 0%Q.

(** Round half to even, to an integer. *)
Definition round_half_even (q : Q) : Z :=
  let f := Qfloor q in
  let r := (q - inject_Z f)%Q in
  if Qlt_bool (1 # 2) r then (f + 1)%Z
  else if Qlt_bool r (1 # 2) then f
  else if Z.even f then f else (f + 1)%Z.

(** [round(x, 2)]. *)
Definition py_round2 (x : Q) : Q := (round_half_even (x * 100) # 100)%Q.

(** ** String formatting *)

Definition zfill (width : nat) (s : string) : string :=
  String.append (string_of_list_ascii (repeat "0"%char (width - String.length s))) s.

(** [f'{n:06x}'] and [f'{n:08d}'] for a non-negative [n]: the digits in the
    base, padded on the left with zeros up to the minimum width. *)
Definition hex_digits (n : nat) : string :=
  HexadecimalString.NilZero.string_of_uint (Nat.to_hex_uint n).

Definition dec_digits (n : nat) : string :=
  DecimalString.NilZero.string_of_uint (Nat.to_uint n).

Definition format_06x (n : nat) : string := zfill 6 (hex_digits n).
Definition format_08d (n : nat) : string := zfill 8 (dec_digits n).

(** [str] of an int. *)
Definition str_of_Z (z : Z) : string :=
  DecimalString.NilZero.string_of_int (Z.to_int z).

Definition hex_digit (n : nat) : ascii :=
  nth n (list_ascii_of_string "0123456789abcdef") "0"%char.

(** One character inside [repr] of a str whose quote is [quote]: the
    backslash and the quote are escaped, tab, newline and carriage return
    have their letters, the other control characters are written in
    hexadecimal.  A byte from 128 on belongs to a character outside ASCII
    and is kept. *)
Definition repr_char (quote c : ascii) : string :=
  let n := nat_of_ascii c in
  if Ascii.eqb c "092" then String "092" (String "092" EmptyString)
  else if Ascii.eqb c quote then String "092" (String quote EmptyString)
  else if (n =? 9)%nat then String "092" "t"
  else if (n =? 10)%nat then String "092" "n"
  else if (n =? 13)%nat then String "092" "r"
  else if ((n <? 32) || (n =? 127))%nat
  then String "092" (String "x" (String (hex_digit (n / 16))
                                   (String (hex_digit (n mod 16)) EmptyString)))
  else String c EmptyString.

(** [repr] of a str: between single quotes, or between double quotes when
    the text has a single quote and no double quote. *)
Definition py_repr (s : string) : string :=
  let chars := list_ascii_of_string s in
  let quote := if (existsb (Ascii.eqb "'") chars
                   && negb (existsb (Ascii.eqb "034") chars))%bool
               then "034"%char else "'"%char in
  String quote
    (String.append
       (fold_right String.append EmptyString (map (repr_char quote) chars))
       (String quote EmptyString)).

(** ** The random sources *)

Record Runtime := {
  np_state : Type;
  py_state : Type;
  fk_state : Type;
  np_seed : Z -> np_state;
  py_seed : Z -> py_state;
  fk_seed : Z -> fk_state;
  draw_randint : Z -> Z -> np_state -> Z * np_state;
  draw_lognormal : Q -> Q -> np_state -> Q * np_state;
  draw_uniform : Q -> Q -> np_state -> Q * np_state;
  draw_index : nat -> option (list Q) -> np_state -> nat * np_state;
  draw_poisson : Q -> np_state -> Z * np_state;
  draw_normal : Q -> Q -> np_state -> Q * np_state;
  draw_random : np_state -> Q * np_state;
  np_exp : Q -> Q;
  fk_name : fk_state -> string * fk_state;
  fk_ssn : fk_state -> string * fk_state
}.

(** What the libraries document about the draws. *)
Record RuntimeLaws (R : Runtime) : Prop := {
  randint_range : forall lo hi s, (lo < hi)%Z ->
    (lo <= fst (draw_randint R lo hi s) < hi)%Z;
  uniform_range : forall lo hi s, (lo <= hi)%Q ->
    (lo <= fst (draw_uniform R lo hi s) <= hi)%Q;
  index_range : forall n p s, (0 < n)%nat ->
    (fst (draw_index R n p s) < n)%nat;
  exp_pos : forall x, (0 < np_exp R x)%Q
}.

(** The generators of one interpreter process. *)
Record process (R : Runtime) := {
  np_rs : np_state R;
  py_rs : py_state R;
  fk_rs : fk_state R
}.
Arguments np_rs {R} _.
Arguments py_rs {R} _.
Arguments fk_rs {R} _.

Section Numpy.
Context {R : Runtime}.
Local Open Scope py_scope.

Definition via_np {A} (f : np_state R -> A * np_state R) : M (process R) A :=
  fun p => let (a, s') := f (np_rs p) in
           inr (a, {| np_rs := s'; py_rs := py_rs p; fk_rs := fk_rs p |}).

Definition via_fk {A} (f : fk_state R -> A * fk_state R) : M (process R) A :=
  fun p => let (a, s') := f (fk_rs p) in
           inr (a, {| np_rs := np_rs p; py_rs := py_rs p; fk_rs := s' |}).

Definition np_randint (low high : Z) : M (process R) Z :=
  if (low <? high)%Z then via_np (draw_randint R low high)
  else raise (ValueError "low >= high").

Definition np_lognormal (mean sigma : Q) : M (process R) Q :=
  if Qlt_bool sigma 0 then raise (ValueError "sigma < 0")
  else via_np (draw_lognormal R mean sigma).

Definition np_uniform (low high : Q) : M (process R) Q :=
  via_np (draw_uniform R low high).

Definition np_poisson (lam : Q) : M (process R) Z :=
  if Qlt_bool lam 0 then raise (ValueError "lam < 0")
  else via_np (draw_poisson R lam).

Definition np_normal (loc scale : Q) : M (process R) Q :=
  if Qlt_bool scale 0 then raise (ValueError "scale < 0")
  else via_np (draw_normal R loc scale).

Definition np_random : M (process R) Q := via_np (draw_random R).

(** Tolerance of [choice] on the sum of [p]: the square root of the
    binary64 machine epsilon. *)
Definition atol : Q := (1 # 67108864)%Q.

Definition valid_p (pop_size : nat) (p : list Q) : result unit :=
  if negb (length p =? pop_size)%nat
  then inl (ValueError "a and p must have same size")
  else if existsb (fun x => Qlt_bool x 0) p
  then inl (ValueError "probabilities are not non-negative")
  else if Qlt_bool atol (Qabs (fold_left Qplus p 0 - 1))%Q
  then inl (ValueError "probabilities do not sum to 1")
  else inr tt.

(** [np.random.choice(a, p=p)] for one sample: the arguments are checked,
    an index is drawn, the element at the index is returned. *)
Definition np_choice {A} (a : list A) (p : option (list Q)) : M (process R) A :=
  if (length a =? 0)%nat
  then raise (ValueError "a cannot be empty unless no samples are taken")
  else
    let! _ := lift (match p with
                    | Some pv => valid_p (length a) pv
                    | None => inr tt
                    end) in
    let! idx := via_np (draw_index R (length a) p) in
    match nth_error a idx with
    | Some x => ret x
    | None =>
        raise (IndexError
                 (String.append "index "
                    (String.append (str_of_Z (Z.of_nat idx))
                       (String.append " is out of bounds for axis 0 with size "
                          (str_of_Z (Z.of_nat (length a)))))))
    end.

Definition fake_name : M (process R) string := via_fk (fk_name R).
Definition fake_ssn : M (process R) string := via_fk (fk_ssn R).

End Numpy.

(** ** Errors without state *)

Definition rbind {A B} (r : result A) (k : A -> result B) : result B :=
  match r with
  | inl e => inl e
  | inr a => k a
  end.

Notation "'let?' x ':=' r 'in' k" := (rbind r (fun x => k))
  (at level 10, x name, r at level 100, k at level 200) : py_scope.

(** ** Dictionaries with insertion order, and the DataFrame built from them *)

Definition record : Type := list (string * pyval).

Definition dict_get (key : string) (d : record) : option pyval :=
  match find (fun kv => String.eqb (fst kv) key) d with
  | Some kv => Some (snd kv)
  | None => None
  end.

Record DataFrame := {
  columns : list string;
  rows : list (list (option pyval))
}.

(** The keys of the dictionaries in order of first appearance: the column
    index pandas builds from a list of dicts. *)
Fixpoint add_unseen (seen keys : list string) : list string :=
  match keys with
  | [] => seen
  | k :: keys' =>
      add_unseen (if existsb (String.eqb k) seen then seen else seen ++ [k]) keys'
  end.

Definition unique_keys (data : list record) : list string :=
  fold_left (fun seen d => add_unseen seen (map fst d)) data [].

(** [pd.DataFrame(data)] for a list of dicts: one row per dict, a missing
    key gives a missing cell; an empty list gives a frame without columns. *)
Definition pd_DataFrame (data : list record) : DataFrame :=
  let cols := unique_keys data in
  {| columns := cols;
     rows := map (fun d => map (fun c => dict_get c d) cols) data |}.

Fixpoint index_of (c : string) (cols : list string) : option nat :=
  match cols with
  | [] => None
  | c' :: cols' =>
      if String.eqb c' c then Some 0%nat
      else match index_of c cols' with
           | Some k => Some (S k)
           | None => None
           end
  end.

(** The cell of row [i] under column [c]. *)
Definition cell (df : DataFrame) (i : nat) (c : string) : option pyval :=
  match index_of c (columns df), nth_error (rows df) i with
  | Some k, Some r =>
      match nth_error r k with
      | Some v => v
      | None => None
      end
  | _, _ => None
  end.

(** [df[c]]: the column, or KeyError. *)
Definition df_getitem (df : DataFrame) (c : string) : result (list (option pyval)) :=
  match index_of c (columns df) with
  | Some k => inr (map (fun r => match nth_error r k with
                                 | Some v => v
                                 | None => None
                                 end) (rows df))
  | None => inl (KeyError c)
  end.

(** ** generate_data.py *)

(** The local variables of one iteration, lines 33 to 75. *)
Record profile := {
  age : Z;
  annual_income : Q;
  num_bank_accounts : Z;
  num_credit_cards : Z;
  credit_history_age : Z;
  monthly_inhand_salary : Q;
  interest_rate : Q;
  num_of_loans : Z;
  delay_from_due_date : Z;
  num_delayed_payments : Z;
  outstanding_debt : Q;
  monthly_balance : Q;
  occupation : string;
  credit_mix : string;
  payment_of_min_amount : string;
  payment_behaviour : string
}.

Definition occupations : list string :=
  ["Engineer"; "Teacher"; "Doctor"; "Lawyer"; "Manager"; "Sales";
   "Student"; "Artist"; "Entrepreneur"; "Accountant"; "Nurse"; "Other"]%string.

Definition payment_behaviours : list string :=
  ["High_spent_Small_value_payments";
   "Low_spent_Large_value_payments";
   "High_spent_Medium_value_payments";
   "Low_spent_Medium_value_payments";
   "High_spent_Large_value_payments";
   "Low_spent_Small_value_payments"]%string.

Definition months : list string :=
  ["January"; "February"; "March"; "April"; "May"; "June";
   "July"; "August"; "September"; "October"; "November"; "December"]%string.

Definition loan_types : list string :=
  ["Auto Loan"; "Credit-Builder Loan"; "Personal Loan";
   "Home Equity Loan"; "Mortgage Loan"; "Student Loan";
   "Debt Consolidation Loan"; "Payday Loan"]%string.

Definition score_labels : list string := ["Good"; "Standard"; "Poor"]%string.

(** [range(0, 60)] and [np.arange(60)]. *)
Definition range60 : list Z := map Z.of_nat (seq 0 60).

(** Lines 92 to 97. *)
Definition categorize (credit_score_numeric : Q) : string :=
  if Qle_bool 70 credit_score_numeric then "Good"%string
  else if Qle_bool 40 credit_score_numeric then "Standard"%string
  else "Poor"%string.

(** Line 81, the debt ratio: the division is evaluated only when the
    condition holds. *)
Definition debt_ratio_factor (outstanding_debt annual_income : Q) : result Q :=
  (if Qlt_bool 0 annual_income
   then let? ratio := py_div outstanding_debt annual_income in
        inr ((1 - ratio) * 0.2)%Q
   else inr 0%Q)%py.

(** Line 82, the balance ratio. *)
Definition balance_ratio_factor (monthly_balance monthly_inhand_salary : Q)
  : result Q :=
  (if Qlt_bool 0 monthly_inhand_salary
   then let? ratio := py_div monthly_balance monthly_inhand_salary in
        inr (ratio * 0.15)%Q
   else inr 0%Q)%py.

(** Lines 78 to 84. *)
Definition credit_score_factors (p : profile) : result (list Q) :=
  (let? history := py_div (inject_Z (credit_history_age p)) 300 in
   let f1 := (history * 0.3)%Q in
   let f2 := ((1 - np_true_divide (inject_Z (delay_from_due_date p)) 60) * 0.25)%Q in
   let? f3 := debt_ratio_factor (outstanding_debt p) (annual_income p) in
   let? f4 := balance_ratio_factor (monthly_balance p) (monthly_inhand_salary p) in
   let? late := py_div (inject_Z (num_delayed_payments p)) 10 in
   let f5 := ((1 - late) * 0.1)%Q in
   inr [f1; f2; f3; f4; f5])%py.

Section Generator.
Context {R : Runtime}.
Local Open Scope py_scope.

(** Lines 49 and 50. *)
Definition delay_probs : list Q :=
  let w := map (fun k => np_exp R ((- inject_Z k) * 0.1)%Q) range60 in
  let total := fold_left Qplus w 0%Q in
  map (fun x => (x / total)%Q) w.

(** Lines 33 to 75. *)
Definition draw_profile : M (process R) profile :=
  let! age := np_randint 18 80 in
  let! annual_income := np_lognormal 10 1 in
  let! num_bank_accounts :=
    np_choice [1; 2; 3; 4; 5]%Z (Some [0.3; 0.3; 0.2; 0.15; 0.05]%Q) in
  let! num_credit_cards :=
    np_choice [0; 1; 2; 3; 4; 5]%Z (Some [0.1; 0.25; 0.3; 0.2; 0.1; 0.05]%Q) in
  let! credit_history_age := np_randint 6 300 in
  let! monthly := lift (py_div annual_income 12) in
  let! u := np_uniform 0.8 1.2 in
  let monthly_inhand_salary := (monthly * u)%Q in
  let! interest_rate := np_uniform 5 25 in
  let! num_of_loans :=
    np_choice [0; 1; 2; 3; 4]%Z (Some [0.4; 0.3; 0.2; 0.08; 0.02]%Q) in
  let! delay_from_due_date := np_choice range60 (Some delay_probs) in
  let! num_delayed_payments := np_poisson 2 in
  let! u := np_uniform 0 2 in
  let outstanding_debt := (annual_income * u)%Q in
  let! u := np_uniform (-0.5) 0.5 in
  let monthly_balance := (monthly_inhand_salary * u)%Q in
  let! occupation := np_choice occupations None in
  let! credit_mix :=
    np_choice ["Good"; "Standard"; "Bad"]%string (Some [0.3; 0.5; 0.2]%Q) in
  let! payment_of_min_amount :=
    np_choice ["Yes"; "No"]%string (Some [0.7; 0.3]%Q) in
  let! payment_behaviour := np_choice payment_behaviours None in
  ret {| age := age;
         annual_income := annual_income;
         num_bank_accounts := num_bank_accounts;
         num_credit_cards := num_credit_cards;
         credit_history_age := credit_history_age;
         monthly_inhand_salary := monthly_inhand_salary;
         interest_rate := interest_rate;
         num_of_loans := num_of_loans;
         delay_from_due_date := delay_from_due_date;
         num_delayed_payments := num_delayed_payments;
         outstanding_debt := outstanding_debt;
         monthly_balance := monthly_balance;
         occupation := occupation;
         credit_mix := credit_mix;
         payment_of_min_amount := payment_of_min_amount;
         payment_behaviour := payment_behaviour |}.

(** Lines 86 to 89. *)
Definition credit_score_numeric (p : profile) : M (process R) Q :=
  let! factors := lift (credit_score_factors p) in
  let base := (py_sum factors * 100)%Q in
  let! noise := np_normal 0 10 in
  ret (base + noise)%Q.

(** Lines 100 and 101. *)
Definition label_noise (credit_score : string) : M (process R) string :=
  let! u := np_random in
  if Qlt_bool u 0.1 then np_choice score_labels None
  else ret credit_score.

(** Lines 104 to 136: the dict display, its values evaluated in order. *)
Definition make_record (i : nat) (p : profile) (credit_score : string)
  : M (process R) record :=
  let id := String.append "CUS_0x" (format_06x (i + 1)) in
  let customer_id := String.append "CUS_" (format_08d (i + 1)) in
  let! month := np_choice months None in
  let! name := fake_name in
  let! ssn := fake_ssn in
  let! type_of_loan := np_choice loan_types None in
  let! changed_credit_limit := np_uniform (-50) 100 in
  let! num_credit_inquiries := np_randint 0 10 in
  let! u := np_uniform 0 100 in
  let credit_utilization_ratio := py_round2 u in
  let! u := np_uniform 0 0.6 in
  let total_emi := py_round2 (monthly_inhand_salary p * u) in
  let! u := np_uniform 0 0.3 in
  let amount_invested := py_round2 (monthly_inhand_salary p * u) in
  ret [("ID", VStr id);
       ("Customer_ID", VStr customer_id);
       ("Month", VStr month);
       ("Name", VStr name);
       ("Age", VInt (age p));
       ("SSN", VStr ssn);
       ("Occupation", VStr (occupation p));
       ("Annual_Income", VFloat (py_round2 (annual_income p)));
       ("Monthly_Inhand_Salary", VFloat (py_round2 (monthly_inhand_salary p)));
       ("Num_Bank_Accounts", VInt (num_bank_accounts p));
       ("Num_Credit_Card", VInt (num_credit_cards p));
       ("Interest_Rate", VFloat (py_round2 (interest_rate p)));
       ("Num_of_Loan", VInt (num_of_loans p));
       ("Type_of_Loan", VStr type_of_loan);
       ("Delay_from_due_date", VInt (delay_from_due_date p));
       ("Num_of_Delayed_Payment", VInt (num_delayed_payments p));
       ("Changed_Credit_Limit", VFloat changed_credit_limit);
       ("Num_Credit_Inquiries", VInt num_credit_inquiries);
       ("Credit_Mix", VStr (credit_mix p));
       ("Outstanding_Debt", VFloat (py_round2 (outstanding_debt p)));
       ("Credit_Utilization_Ratio", VFloat credit_utilization_ratio);
       ("Credit_History_Age", VInt (credit_history_age p));
       ("Payment_of_Min_Amount", VStr (payment_of_min_amount p));
       ("Total_EMI_per_month", VFloat total_emi);
       ("Amount_invested_monthly", VFloat amount_invested);
       ("Payment_Behaviour", VStr (payment_behaviour p));
       ("Monthly_Balance", VFloat (py_round2 (monthly_balance p)));
       ("Credit_Score", VStr credit_score)]%string.

(** The body of the loop, lines 32 to 136. *)
Definition gen_record (i : nat) : M (process R) record :=
  let! p := draw_profile in
  let! score := credit_score_numeric p in
  let credit_score := categorize score in
  let! credit_score := label_noise credit_score in
  make_record i p credit_score.

(** [for i in range(start, start + count)]: the record of each index is
    appended to [data]. *)
Fixpoint gen_loop (count start : nat) (data : list record)
  : M (process R) (list record) :=
  match count with
  | O => ret data
  | S count' =>
      let! r := gen_record start in
      gen_loop count' (S start) (data ++ [r])
  end.

(** [generate_credit_score_data(n_samples)]; [range] of a negative number
    is empty. *)
Definition generate_credit_score_data (n_samples : Z) : M (process R) DataFrame :=
  let! data := gen_loop (Z.to_nat n_samples) 0 [] in
  ret (pd_DataFrame data).

(** Lines 13 to 16, run when the module is loaded: whatever state the
    generators of the new process had, the three are seeded.  The source
    passes 42. *)
Definition seed_all (seed : Z) (fresh : process R) : process R :=
  {| np_rs := np_seed R seed; py_rs := py_seed R seed; fk_rs := fk_seed R seed |}.

End Generator.

(** The keys of the dict display of [make_record], in order. *)
Definition record_columns : list string :=
  ["ID"; "Customer_ID"; "Month"; "Name"; "Age"; "SSN"; "Occupation";
   "Annual_Income"; "Monthly_Inhand_Salary"; "Num_Bank_Accounts";
   "Num_Credit_Card"; "Interest_Rate"; "Num_of_Loan"; "Type_of_Loan";
   "Delay_from_due_date"; "Num_of_Delayed_Payment"; "Changed_Credit_Limit";
   "Num_Credit_Inquiries"; "Credit_Mix"; "Outstanding_Debt";
   "Credit_Utilization_Ratio"; "Credit_History_Age"; "Payment_of_Min_Amount";
   "Total_EMI_per_month"; "Amount_invested_monthly"; "Payment_Behaviour";
   "Monthly_Balance"; "Credit_Score"]%string.

(** ** The file system seen by the script *)

(** A relative path as its components, the last one first: the parent of
    a path is its tail and the current directory is the empty path. *)
Definition path : Type := list string.

Definition parent (p : path) : path := tail p.

(** [p / name]. *)
Definition joinpath (p : path) (name : string) : path := name :: p.

(** A directory, in which the process may or may not create entries, or
    a file holding a table, which the process may or may not write. *)
Inductive node :=
| Dir (writable : bool)
| File (writable : bool) (table : DataFrame).

Record filesystem := {
  cwd_writable : bool;
  entries : gmap (list string) node
}.

Definition fs_lookup (p : path) (fs : filesystem) : option node :=
  match p with
  | [] => Some (Dir (cwd_writable fs))
  | _ => entries fs !! p
  end.

Definition fs_insert (p : path) (n : node) (fs : filesystem) : filesystem :=
  {| cwd_writable := cwd_writable fs; entries := <[p := n]> (entries fs) |}.

Definition is_dir (p : path) (fs : filesystem) : bool :=
  match fs_lookup p fs with
  | Some (Dir _) => true
  | _ => false
  end.

(** [os.mkdir(p)]. *)
Definition os_mkdir (p : path) (fs : filesystem) : result filesystem :=
  match fs_lookup p fs with
  | Some _ => inl FileExistsError
  | None =>
      match fs_lookup (parent p) fs with
      | None => inl FileNotFoundError
      | Some (File _ _) => inl NotADirectoryError
      | Some (Dir false) => inl PermissionError
      | Some (Dir true) => inr (fs_insert p (Dir true) fs)
      end
  end.

(** [Path.mkdir(parents=False, exist_ok=exist_ok)]: a missing parent is
    raised; any other error of [os.mkdir] is dropped when [exist_ok] is
    set and the path is a directory. *)
Definition mkdir_single (exist_ok : bool) (p : path) (fs : filesystem)
  : result filesystem :=
  match os_mkdir p fs with
  | inr fs' => inr fs'
  | inl FileNotFoundError => inl FileNotFoundError
  | inl e => if negb exist_ok || negb (is_dir p fs) then inl e else inr fs
  end.

(** [Path.mkdir(parents=True, exist_ok=exist_ok)]: on a missing parent the
    parent is made first (with its own parents) and the directory is then
    made without [parents]. *)
Fixpoint mkdir_parents (exist_ok : bool) (p : path) (fs : filesystem)
  : result filesystem :=
  match os_mkdir p fs with
  | inr fs' => inr fs'
  | inl FileNotFoundError =>
      match p with
      | [] => inl FileNotFoundError
      | _ :: up =>
          match mkdir_parents true up fs with
          | inl e => inl e
          | inr fs1 => mkdir_single exist_ok p fs1
          end
      end
  | inl e => if negb exist_ok || negb (is_dir p fs) then inl e else inr fs
  end.

Definition path_mkdir (parents exist_ok : bool) (p : path) (fs : filesystem)
  : result filesystem :=
  if parents then mkdir_parents exist_ok p fs else mkdir_single exist_ok p fs.

(** [df.to_csv(p, index=False)]: the file is opened for writing and the
    table (its header and its rows) becomes its content.  A file that is
    there is truncated when the process may write it, and keeps its
    mode; a file that is not there is created when the process may write
    the directory, and is then writable. *)
Definition to_csv (df : DataFrame) (p : path) (fs : filesystem)
  : result filesystem :=
  match fs_lookup (parent p) fs with
  | None => inl FileNotFoundError
  | Some (File _ _) => inl NotADirectoryError
  | Some (Dir w) =>
      match fs_lookup p fs with
      | Some (Dir _) => inl IsADirectoryError
      | Some (File true _) => inr (fs_insert p (File true df) fs)
      | Some (File false _) => inl PermissionError
      | None => if w then inr (fs_insert p (File true df) fs) else inl PermissionError
      end
  end.

(** [Path("data/raw")] and the file under it. *)
Definition output_dir : path := ["raw"; "data"]%string.
Definition output_path : path := joinpath output_dir "credit_score_data.csv".

Record world (R : Runtime) := {
  proc : process R;
  disk : filesystem
}.
Arguments proc {R} _.
Arguments disk {R} _.

Section Script.
Context {R : Runtime}.
Local Open Scope py_scope.

Definition on_proc {A} (m : M (process R) A) : M (world R) A :=
  fun w => match m (proc w) with
           | inl e => inl e
           | inr (a, p') => inr (a, {| proc := p'; disk := disk w |})
           end.

Definition on_disk (f : filesystem -> result filesystem) : M (world R) unit :=
  fun w => match f (disk w) with
           | inl e => inl e
           | inr fs' => inr (tt, {| proc := proc w; disk := fs' |})
           end.

(** The [__main__] block with the literal 10000 as [n_samples].  What is
    printed is left out; the column read for the printed distribution is
    kept, since it raises on a frame without that column. *)
Definition script (n_samples : Z) : M (world R) DataFrame :=
  let! df := on_proc (generate_credit_score_data n_samples) in
  let! _ := on_disk (path_mkdir true true output_dir) in
  let! _ := on_disk (to_csv df output_path) in
  let! _ := lift (df_getitem df "Credit_Score") in
  ret df.

Definition main : M (world R) DataFrame := script 10000.

(** A run of the script file in a new interpreter: the module is loaded
    (the generators are seeded), then the [__main__] block runs. *)
Definition run_script (seed n_samples : Z) (fresh : process R) (fs : filesystem)
  : result (DataFrame * world R) :=
  script n_samples {| proc := seed_all seed fresh; disk := fs |}.

(** One call of the generator in a new interpreter that has loaded the
    module. *)
Definition run_generate (seed n_samples : Z) (fresh : process R)
  : result (DataFrame * process R) :=
  generate_credit_score_data n_samples (seed_all seed fresh).


End Script.

(** ** app.py: [prepare_input_data] *)

(** An object stored in [preprocessors]: the name of its type, and
    [transform], present or not ([hasattr]); applied to the values of the selected columns of the
    one-row frame it returns an array or raises. *)
Record pyobject := {
  type_name : string;
  transform : option (list pyval -> result (list pyval))
}.

Definition dict_set (key : string) (v : pyval) (d : record) : record :=
  if existsb (fun kv => String.eqb (fst kv) key) d
  then map (fun kv => if String.eqb (fst kv) key then (fst kv, v) else kv) d
  else d ++ [(key, v)].

(** [input_df[col] = values] on a frame of one row: an array of another
    length is refused. *)
Definition assign_column (col : string) (values : list pyval) (input_df : record)
  : result record :=
  match values with
  | [v] => inr (dict_set col v input_df)
  | _ => inl (ValueError
                (String.append "Length of values ("
                   (String.append (str_of_Z (Z.of_nat (length values)))
                      ") does not match length of index (1)")))
  end.

Fixpoint assign_columns (cols : list string) (values : list pyval) (input_df : record)
  : result record :=
  match cols, values with
  | [], [] => inr input_df
  | c :: cols', v :: values' => assign_columns cols' values' (dict_set c v input_df)
  | _, _ => inl (ValueError "Columns must be same length as key")
  end.

Definition is_number (v : pyval) : bool :=
  match v with
  | VInt _ | VFloat _ => true
  | _ => false
  end.

Definition categorical_columns : list string :=
  ["Occupation"; "Credit_Mix"; "Payment_of_Min_Amount"; "Payment_Behaviour"]%string.

(** [str(e)]: the message the exception was raised with; for KeyError,
    which keeps the key, [repr] of the key.  The errors of the disk are
    raised by the script only, which logs nothing: they are given the
    text of the system without the file name. *)
Definition exn_str (e : exn) : string :=
  match e with
  | ValueError msg => msg
  | IndexError msg => msg
  | TypeError msg => msg
  | OverflowError msg => msg
  | OtherError _ msg => msg
  | KeyError key => py_repr key
  | ZeroDivisionError => "division by zero"
  | FileNotFoundError => "[Errno 2] No such file or directory"
  | FileExistsError => "[Errno 17] File exists"
  | NotADirectoryError => "[Errno 20] Not a directory"
  | IsADirectoryError => "[Errno 21] Is a directory"
  | PermissionError => "[Errno 13] Permission denied"
  end.

Section App.
(** [float(s)] and [int(s)] on a string. *)
Variable float_of_string : string -> option Q.
Variable int_of_string : string -> option Z.
Local Open Scope py_scope.

Definition form_getitem (form_data : gmap string pyval) (key : string) : result pyval :=
  match form_data !! key with
  | Some v => inr v
  | None => inl (KeyError key)
  end.

(** [float(v)].  An int converts when it rounds to a binary64 number:
    from [2^1024 - 2^970] on, in absolute value, it does not. *)
Definition py_float (v : pyval) : result Q :=
  match v with
  | VInt z =>
      if (2 ^ 1024 - 2 ^ 970 <=? Z.abs z)%Z
      then inl (OverflowError "int too large to convert to float")
      else inr (inject_Z z)
  | VFloat q => inr q
  | VStr s =>
      match float_of_string s with
      | Some q => inr q
      | None => inl (ValueError (String.append "could not convert string to float: "
                                   (py_repr s)))
      end
  | VNone =>
      inl (TypeError
             "float() argument must be a string or a real number, not 'NoneType'")
  end.

(** [int(v)]: a float is truncated towards zero. *)
Definition py_int (v : pyval) : result Z :=
  match v with
  | VInt z => inr z
  | VFloat q => inr (Z.quot (Qnum q) (Zpos (Qden q)))
  | VStr s =>
      match int_of_string s with
      | Some z => inr z
      | None => inl (ValueError
                       (String.append "invalid literal for int() with base 10: "
                          (py_repr s)))
      end
  | VNone =>
      inl (TypeError
             "int() argument must be a string, a bytes-like object or a real number, not 'NoneType'")
  end.

Definition float_field (form_data : gmap string pyval) (key : string) : result pyval :=
  let? v := form_getitem form_data key in
  let? q := py_float v in
  inr (VFloat q).

Definition int_field (form_data : gmap string pyval) (key : string) : result pyval :=
  let? v := form_getitem form_data key in
  let? z := py_int v in
  inr (VInt z).

(** Lines 271 to 291: the dict display. *)
Definition input_data (form_data : gmap string pyval) : result record :=
  let? age := float_field form_data "age" in
  let? occupation := form_getitem form_data "occupation" in
  let? annual_income := float_field form_data "annual_income" in
  let? monthly_salary := float_field form_data "monthly_salary" in
  let? num_bank_accounts := int_field form_data "num_bank_accounts" in
  let? num_credit_cards := int_field form_data "num_credit_cards" in
  let? interest_rate := float_field form_data "interest_rate" in
  let? num_loans := int_field form_data "num_loans" in
  let? delay_from_due_date := int_field form_data "delay_from_due_date" in
  let? num_delayed_payments := int_field form_data "num_delayed_payments" in
  let? credit_utilization_ratio := float_field form_data "credit_utilization_ratio" in
  let? credit_history_age := int_field form_data "credit_history_age" in
  let? outstanding_debt := float_field form_data "outstanding_debt" in
  let? total_emi_per_month := float_field form_data "total_emi_per_month" in
  let? amount_invested_monthly := float_field form_data "amount_invested_monthly" in
  let? monthly_balance := float_field form_data "monthly_balance" in
  let? credit_mix := form_getitem form_data "credit_mix" in
  let? payment_of_min_amount := form_getitem form_data "payment_of_min_amount" in
  let? payment_behaviour := form_getitem form_data "payment_behaviour" in
  inr [("Age", age);
       ("Occupation", occupation);
       ("Annual_Income", annual_income);
       ("Monthly_Inhand_Salary", monthly_salary);
       ("Num_Bank_Accounts", num_bank_accounts);
       ("Num_Credit_Card", num_credit_cards);
       ("Interest_Rate", interest_rate);
       ("Num_of_Loan", num_loans);
       ("Delay_from_due_date", delay_from_due_date);
       ("Num_of_Delayed_Payment", num_delayed_payments);
       ("Credit_Utilization_Ratio", credit_utilization_ratio);
       ("Credit_History_Age", credit_history_age);
       ("Outstanding_Debt", outstanding_debt);
       ("Total_EMI_per_month", total_emi_per_month);
       ("Amount_invested_monthly", amount_invested_monthly);
       ("Monthly_Balance", monthly_balance);
       ("Credit_Mix", credit_mix);
       ("Payment_of_Min_Amount", payment_of_min_amount);
       ("Payment_Behaviour", payment_behaviour)]%string.

(** Lines 300 to 307: the body of the loop over the categorical columns.
    A ValueError of [transform], or of the assignment of its result, is
    caught and the column is set to 0; any other exception leaves the
    loop. *)
Definition encode_column (preprocessors : gmap string pyobject) (col : string)
  (input_df : record) : result record :=
  match dict_get col input_df, preprocessors !! col with
  | Some v, Some encoder =>
      match transform encoder with
      | Some f =>
          match (let? codes := f [v] in assign_column col codes input_df) with
          | inl (ValueError _) => inr (dict_set col (VInt 0) input_df)
          | outcome => outcome
          end
      | None => inr input_df
      end
  | _, _ => inr input_df
  end.

Fixpoint encode_columns (preprocessors : gmap string pyobject) (cols : list string)
  (input_df : record) : result record :=
  match cols with
  | [] => inr input_df
  | col :: cols' =>
      let? input_df' := encode_column preprocessors col input_df in
      encode_columns preprocessors cols' input_df'
  end.

(** Lines 310 to 313. *)
Definition apply_scaler (preprocessors : gmap string pyobject) (input_df : record)
  : result record :=
  match preprocessors !! "scaler"%string with
  | None => inr input_df
  | Some scaler =>
      let numerical := filter (fun kv => is_number (snd kv)) input_df in
      match transform scaler with
      | None =>
          inl (OtherError "AttributeError"
                 (String.append "'"
                    (String.append (type_name scaler)
                       "' object has no attribute 'transform'")))
      | Some f =>
          let? scaled := f (map snd numerical) in
          assign_columns (map fst numerical) scaled input_df
      end
  end.

(** The body of the [try], lines 270 to 315.  [preprocessors] is the
    module's global: None until the artifacts are loaded. *)
Definition prepare_body (preprocessors : option (gmap string pyobject))
  (form_data : gmap string pyval) : result record :=
  let? input_df := input_data form_data in
  match preprocessors with
  | Some pp =>
      if (size pp =? 0)%nat then inr input_df
      else
        let? input_df := encode_columns pp categorical_columns input_df in
        apply_scaler pp input_df
  | None => inr input_df
  end.

(** [prepare_input_data]: the lines logged with [app.logger.error] and the
    outcome; an exception of the body is logged and raised again. *)
Definition prepare_input_data (preprocessors : option (gmap string pyobject))
  (form_data : gmap string pyval) : list string * result record :=
  match prepare_body preprocessors form_data with
  | inl e => ([String.append "Error preparing input data: " (exn_str e)], inl e)
  | inr input_df => ([], inr input_df)
  end.

End App.

(** ** A small executable runtime

    A linear congruential generator behind the interface, to run the model
    on concrete inputs.  It is not numpy's generator: it keeps to what
    [RuntimeLaws] asks and nothing more. *)

Module Toy.

Definition modulus : Z := 2147483648.

Definition lcg (s : Z) : Z := ((1103515245 * s + 12345) mod modulus)%Z.

(** A rational in [0, 1). *)
Definition unit_draw (s : Z) : Q * Z :=
  let s' := lcg s in (Qred (Qmake s' 2147483648), s').

Definition randint (lo hi : Z) (s : Z) : Z * Z :=
  let s' := lcg s in ((lo + s' mod (hi - lo))%Z, s').

Definition uniform (lo hi : Q) (s : Z) : Q * Z :=
  let (u, s') := unit_draw s in (Qred (lo + (hi - lo) * u), s').

(** The first index at which the running sum of [p] exceeds [u]; the last
    index when there is none. *)
Fixpoint pick (u : Q) (p : list Q) : nat :=
  match p with
  | [] => 0
  | x :: p' =>
      match p' with
      | [] => 0
      | _ => if Qlt_bool u x then 0 else S (pick (u - x) p')
      end
  end.

Definition index (n : nat) (p : option (list Q)) (s : Z) : nat * Z :=
  match p with
  | Some pv => let (u, s') := unit_draw s in (Nat.min (pick u pv) (n - 1), s')
  | None => let s' := lcg s in (Z.to_nat (s' mod Z.of_nat n), s')
  end.

(** A positive step function in place of the exponential. *)
Definition exp (x : Q) : Q := Qred (Qpower 2 (Qfloor x)).

Definition normal (loc scale : Q) (s : Z) : Q * Z :=
  let (u, s') := unit_draw s in (Qred (loc + scale * ((u * 2 - 1) * 3)), s').

Definition lognormal (mean sigma : Q) (s : Z) : Q * Z :=
  let (z, s') := normal mean sigma s in (exp z, s').

Definition poisson (lam : Q) (s : Z) : Z * Z :=
  let s' := lcg s in ((s' mod 7)%Z, s').

Definition name (s : Z) : string * Z :=
  (String.append "Name " (dec_digits (Z.to_nat s)), (s + 1)%Z).

Definition ssn (s : Z) : string * Z :=
  (String.append "SSN " (dec_digits (Z.to_nat s)), (s + 1)%Z).

Definition runtime : Runtime :=
  {| np_state := Z;
     py_state := Z;
     fk_state := Z;
     np_seed := fun seed => seed;
     py_seed := fun seed => seed;
     fk_seed := fun seed => seed;
     draw_randint := randint;
     draw_lognormal := lognormal;
     draw_uniform := uniform;
     draw_index := index;
     draw_poisson := poisson;
     draw_normal := normal;
     draw_random := unit_draw;
     np_exp := exp;
     fk_name := name;
     fk_ssn := ssn |}.

(** A new process: its generators hold whatever the system gave them. *)
Definition fresh (entropy : Z) : process runtime :=
  Build_process runtime entropy (entropy + 1)%Z (entropy + 2)%Z.

Definition seeded : process runtime := seed_all 42 (fresh 0).

(** [int(s)] and [float(s)] for strings of decimal digits. *)
Definition int_of_string (s : string) : option Z :=
  match DecimalString.NilEmpty.uint_of_string s with
  | Some d => match s with
              | EmptyString => None
              | _ => Some (Z.of_nat (Nat.of_uint d))
              end
  | None => None
  end.

Definition float_of_string (s : string) : option Q :=
  match int_of_string s with
  | Some z => Some (inject_Z z)
  | None => None
  end.

(** A disk with a writable current directory and nothing in it. *)
Definition empty_disk : filesystem := {| cwd_writable := true; entries := ∅ |}.

Definition world0 : world runtime := {| proc := seeded; disk := empty_disk |}.

(** A submitted form whose occupation no encoder has seen, and an encoder
    that refuses every value as sklearn's LabelEncoder refuses an unseen
    label. *)
Definition form : gmap string pyval :=
  list_to_map
    [("age", VStr "30"); ("occupation", VStr "Astronaut");
     ("annual_income", VStr "50000"); ("monthly_salary", VStr "4000");
     ("num_bank_accounts", VStr "2"); ("num_credit_cards", VStr "1");
     ("interest_rate", VStr "12"); ("num_loans", VStr "1");
     ("delay_from_due_date", VStr "3"); ("num_delayed_payments", VStr "0");
     ("credit_utilization_ratio", VStr "30"); ("credit_history_age", VStr "48");
     ("outstanding_debt", VStr "1000"); ("total_emi_per_month", VStr "100");
     ("amount_invested_monthly", VStr "50"); ("monthly_balance", VStr "300");
     ("credit_mix", VStr "Good"); ("payment_of_min_amount", VStr "Yes");
     ("payment_behaviour", VStr "Low_spent_Small_value_payments")]%string.

Definition unseen_encoder : pyobject :=
  {| type_name := "LabelEncoder";
     transform :=
       Some (fun _ => inl (ValueError "y contains previously unseen labels")) |}.

Definition preprocessors : gmap string pyobject :=
  {[ "Occupation"%string := unseen_encoder ]}.

End Toy.

(** ** Predicates of the statements *)

(** [m] run from [s] returns, and its value and final state satisfy [P]. *)
Definition returns {S A} (m : M S A) (s : S) (P : A -> S -> Prop) : Prop :=
  match m s with
  | inr (a, s') => P a s'
  | inl _ => False
  end.

(** Whenever [m] run from [s] returns, its value and final state satisfy
    [P]. *)
Definition ensures {S A} (m : M S A) (s : S) (P : A -> S -> Prop) : Prop :=
  match m s with
  | inr (a, s') => P a s'
  | inl _ => True
  end.

(** The ranges of the drawn variables. *)
Definition profile_ok (p : profile) : Prop :=
  (18 <= age p < 80)%Z /\
  In (num_bank_accounts p) [1; 2; 3; 4; 5]%Z /\
  In (num_credit_cards p) [0; 1; 2; 3; 4; 5]%Z /\
  (5 <= interest_rate p <= 25)%Q /\
  In (delay_from_due_date p) range60 /\
  (6 <= credit_history_age p < 300)%Z.

Definition has_columns (r : record) : Prop := map fst r = record_columns.

(** The statements about fields, over a reader of the fields: of a record
    ([dict_get]) or of a row of the frame ([cell]). *)
Definition field_ids (i : nat) (get : string -> option pyval) : Prop :=
  get "ID"%string = Some (VStr (String.append "CUS_0x" (format_06x (i + 1)))) /\
  get "Customer_ID"%string = Some (VStr (String.append "CUS_" (format_08d (i + 1)))).

Definition field_ranges (get : string -> option pyval) : Prop :=
  (exists a, get "Age"%string = Some (VInt a) /\ (18 <= a < 80)%Z) /\
  (exists n, get "Num_Bank_Accounts"%string = Some (VInt n) /\ (1 <= n <= 5)%Z) /\
  (exists n, get "Num_Credit_Card"%string = Some (VInt n) /\ (0 <= n <= 5)%Z) /\
  (exists x, get "Interest_Rate"%string = Some (VFloat x) /\ (5 <= x <= 25)%Q) /\
  (exists d, get "Delay_from_due_date"%string = Some (VInt d) /\ (0 <= d <= 59)%Z) /\
  (exists h, get "Credit_History_Age"%string = Some (VInt h) /\ (6 <= h < 300)%Z).

Definition field_label (get : string -> option pyval) : Prop :=
  exists c, get "Credit_Score"%string = Some (VStr c) /\
            (c = "Poor" \/ c = "Standard" \/ c = "Good")%string.

Definition record_ok (i : nat) (r : record) : Prop :=
  has_columns r /\
  field_ids i (fun c => dict_get c r) /\
  field_ranges (fun c => dict_get c r) /\
  field_label (fun c => dict_get c r).

(** The digits read back: the number written by [format_06x] and
    [format_08d]. *)
Definition read_hex (s : string) : option nat :=
  match HexadecimalString.NilEmpty.uint_of_string s with
  | Some d => Some (Nat.of_hex_uint d)
  | None => None
  end.

Definition read_dec (s : string) : option nat :=
  match DecimalString.NilEmpty.uint_of_string s with
  | Some d => Some (Nat.of_uint d)
  | None => None
  end.


(** The numeric score in the words of the specification: five sub-scores,
    summed, times 100, plus the noise. *)
Definition spec_history (p : profile) : Q :=
  (inject_Z (credit_history_age p) / 300 * 0.3)%Q.

Definition spec_timeliness (p : profile) : Q :=
  ((1 - inject_Z (delay_from_due_date p) / 60) * 0.25)%Q.

Definition spec_debt (p : profile) : Q :=
  if Qlt_bool 0 (annual_income p)
  then ((1 - outstanding_debt p / annual_income p) * 0.2)%Q
  else 0%Q.

Definition spec_balance (p : profile) : Q :=
  if Qlt_bool 0 (monthly_inhand_salary p)
  then (monthly_balance p / monthly_inhand_salary p * 0.15)%Q
  else 0%Q.

Definition spec_delinquency (p : profile) : Q :=
  ((1 - inject_Z (num_delayed_payments p) / 10) * 0.1)%Q.

Definition spec_score (p : profile) (noise : Q) : Q :=
  ((spec_history p + spec_timeliness p + spec_debt p + spec_balance p
    + spec_delinquency p) * 100 + noise)%Q.

(** An encoder whose [transform], when it raises, raises ValueError. *)
Definition raises_only_ValueError (o : pyobject) : Prop :=
  forall f x e, transform o = Some f -> f x = inl e -> exists msg, e = ValueError msg.

(** ** Further statements about the fields of a generated row *)

Definition field_counts (get : string -> option pyval) : Prop :=
  (exists n, get "Num_of_Loan"%string = Some (VInt n) /\ (0 <= n <= 4)%Z) /\
  (exists n, get "Num_Credit_Inquiries"%string = Some (VInt n) /\ (0 <= n <= 9)%Z) /\
  (exists x, get "Credit_Utilization_Ratio"%string = Some (VFloat x) /\
             (0 <= x <= 100)%Q) /\
  (exists x, get "Changed_Credit_Limit"%string = Some (VFloat x) /\
             (- (50) <= x <= 100)%Q).

Definition field_categories (get : string -> option pyval) : Prop :=
  (exists s, get "Occupation"%string = Some (VStr s) /\ In s occupations) /\
  (exists s, get "Credit_Mix"%string = Some (VStr s) /\
             In s ["Good"; "Standard"; "Bad"]%string) /\
  (exists s, get "Payment_of_Min_Amount"%string = Some (VStr s) /\
             In s ["Yes"; "No"]%string) /\
  (exists s, get "Payment_Behaviour"%string = Some (VStr s) /\
             In s payment_behaviours) /\
  (exists s, get "Month"%string = Some (VStr s) /\ In s months) /\
  (exists s, get "Type_of_Loan"%string = Some (VStr s) /\ In s loan_types).

Definition field_money (get : string -> option pyval) : Prop :=
  (exists income, get "Annual_Income"%string = Some (VFloat income) /\
                  (0 <= income)%Q) /\
  (exists debt, get "Outstanding_Debt"%string = Some (VFloat debt) /\
                (0 <= debt)%Q) /\
  (exists k, get "Num_of_Delayed_Payment"%string = Some (VInt k) /\ (0 <= k)%Z) /\
  (exists salary emi invested balance,
      get "Monthly_Inhand_Salary"%string = Some (VFloat salary) /\
      get "Total_EMI_per_month"%string = Some (VFloat emi) /\
      get "Amount_invested_monthly"%string = Some (VFloat invested) /\
      get "Monthly_Balance"%string = Some (VFloat balance) /\
      (0 <= emi <= salary)%Q /\ (0 <= invested <= salary)%Q /\
      (balance <= salary)%Q).

(** What the draws give for the variables of an iteration that the
    record and the score use. *)
Definition profile_categories_ok (p : profile) : Prop :=
  In (num_of_loans p) [0; 1; 2; 3; 4]%Z /\
  In (occupation p) occupations /\
  In (credit_mix p) ["Good"; "Standard"; "Bad"]%string /\
  In (payment_of_min_amount p) ["Yes"; "No"]%string /\
  In (payment_behaviour p) payment_behaviours.

Definition profile_money_ok (p : profile) : Prop :=
  (0 < annual_income p)%Q /\
  (0 < monthly_inhand_salary p)%Q /\
  (0 <= outstanding_debt p <= 2 * annual_income p)%Q /\
  (- (0.5) * monthly_inhand_salary p <= monthly_balance p
   <= 0.5 * monthly_inhand_salary p)%Q /\
  (0 <= num_delayed_payments p)%Z.

(** What numpy documents for the two draws without an upper bound. *)
Definition lognormal_positive (R : Runtime) : Prop :=
  forall mean sigma s, (0 < fst (draw_lognormal R mean sigma s))%Q.

Definition poisson_nonnegative (R : Runtime) : Prop :=
  forall lam s, (0 <= fst (draw_poisson R lam s))%Z.

(** The order of the labels, from the worst to the best. *)
Definition label_rank (c : string) : nat :=
  if String.eqb c "Good" then 2
  else if String.eqb c "Standard" then 1
  else 0.

(** [q] is [p] or one of its ancestors. *)
Fixpoint is_suffix (q p : path) : Prop :=
  q = p \/ match p with
           | [] => False
           | _ :: up => is_suffix q up
           end.

(** ** Statements about [prepare_input_data] *)

(** The keys read from the submitted form, in the order of the dict
    display. *)
Definition form_keys : list string :=
  ["age"; "occupation"; "annual_income"; "monthly_salary";
   "num_bank_accounts"; "num_credit_cards"; "interest_rate"; "num_loans";
   "delay_from_due_date"; "num_delayed_payments"; "credit_utilization_ratio";
   "credit_history_age"; "outstanding_debt"; "total_emi_per_month";
   "amount_invested_monthly"; "monthly_balance"; "credit_mix";
   "payment_of_min_amount"; "payment_behaviour"]%string.

(** The columns of the frame built from the form, in order. *)
Definition input_columns : list string :=
  ["Age"; "Occupation"; "Annual_Income"; "Monthly_Inhand_Salary";
   "Num_Bank_Accounts"; "Num_Credit_Card"; "Interest_Rate"; "Num_of_Loan";
   "Delay_from_due_date"; "Num_of_Delayed_Payment"; "Credit_Utilization_Ratio";
   "Credit_History_Age"; "Outstanding_Debt"; "Total_EMI_per_month";
   "Amount_invested_monthly"; "Monthly_Balance"; "Credit_Mix";
   "Payment_of_Min_Amount"; "Payment_Behaviour"]%string.


(** ** app.py: the model, its metadata and [make_prediction] *)

(** The trained model as the code uses it: [predict], and
    [predict_proba] when the object has it, both applied to the one-row
    frame and returning an array or raising. *)
Record pymodel := {
  predict : record -> result (list pyval);
  predict_proba : option (record -> result (list (list pyval)))
}.

(** The metadata dict, as far as the code reads it: the list under
    [target_classes], when the key is there. *)
Record metadata := {
  target_classes : option (list string)
}.

(** [l[i]] on a list: a negative index counts from the end. *)
Definition list_getitem {A} (l : list A) (i : Z) : result A :=
  let n := Z.of_nat (length l) in
  let j := if (i <? 0)%Z then (i + n)%Z else i in
  if ((j <? 0)%Z || (n <=? j)%Z)%bool then inl (IndexError "list index out of range")
  else match nth_error l (Z.to_nat j) with
       | Some x => inr x
       | None => inl (IndexError "list index out of range")
       end.

(** [a[i]] on the first axis of a numpy array: the same element, and
    numpy's text when the index is out of bounds. *)
Definition ndarray_getitem {A} (a : list A) (i : Z) : result A :=
  match list_getitem a i with
  | inl _ =>
      inl (IndexError
             (String.append "index "
                (String.append (str_of_Z i)
                   (String.append " is out of bounds for axis 0 with size "
                      (str_of_Z (Z.of_nat (length a)))))))
  | inr x => inr x
  end.

(** [model_metadata and 'target_classes' in model_metadata], with the
    list when the test holds. *)
Definition known_classes (model_metadata : option metadata) : option (list string) :=
  match model_metadata with
  | Some md => target_classes md
  | None => None
  end.

(** [classes[prediction]] on the list of the classes: only an integer is
    an index; the prediction is an element of a numpy array, and the
    message names its type. *)
Definition class_of (classes : list string) (prediction : pyval) : result string :=
  match prediction with
  | VInt z => list_getitem classes z
  | VFloat _ =>
      inl (TypeError "list indices must be integers or slices, not numpy.float64")
  | VStr _ =>
      inl (TypeError "list indices must be integers or slices, not numpy.str_")
  | VNone =>
      inl (TypeError "list indices must be integers or slices, not NoneType")
  end.

(** What [make_prediction] returns. *)
Record prediction_result := {
  prediction : string;
  prediction_code : Z;
  probabilities : option record;
  timestamp : string
}.

Section Prediction.
Variable float_of_string : string -> option Q.
Variable int_of_string : string -> option Z.
(** [str] of a float. *)
Variable str_of_float : Q -> string.
Local Open Scope py_scope.

(** [str(v)], as the f-string formats the prediction. *)
Definition py_str (v : pyval) : string :=
  match v with
  | VInt z => str_of_Z z
  | VFloat q => str_of_float q
  | VStr s => s
  | VNone => "None"
  end.

(** The dict comprehension over [zip(classes, proba)]: the shorter of the
    two decides the length, a repeated class keeps its last value. *)
Fixpoint zip_probabilities (classes : list string) (proba : list pyval)
  (acc : record) : result record :=
  match classes, proba with
  | c :: classes', p :: proba' =>
      let? q := py_float float_of_string p in
      zip_probabilities classes' proba' (dict_set c (VFloat q) acc)
  | _, _ => inr acc
  end.

(** Lines 330 to 337: the probabilities, None unless the model has
    [predict_proba] and the metadata name the classes. *)
Definition probabilities_of (m : pymodel) (model_metadata : option metadata)
  (input_df : record) : result (option record) :=
  match predict_proba m with
  | Some proba_of =>
      let? rows := proba_of input_df in
      let? proba := ndarray_getitem rows 0 in
      match known_classes model_metadata with
      | Some classes =>
          let? d := zip_probabilities classes proba [] in
          inr (Some d)
      | None => inr None
      end
  | None => inr None
  end.

(** The body of the [try] of [make_prediction]; [now] is what
    [datetime.now().isoformat()] gives. *)
Definition prediction_body (model : option pymodel)
  (model_metadata : option metadata) (now : string) (input_df : record)
  : result prediction_result :=
  match model with
  | None => inl (ValueError "Model not loaded")
  | Some m =>
      let? predicted := predict m input_df in
      let? code := ndarray_getitem predicted 0 in
      let? probs := probabilities_of m model_metadata input_df in
      let? predicted_class :=
        match known_classes model_metadata with
        | Some classes => class_of classes code
        | None => inr (String.append "Class_" (py_str code))
        end in
      let? as_int := py_int int_of_string code in
      inr {| prediction := predicted_class;
             prediction_code := as_int;
             probabilities := probs;
             timestamp := now |}
  end.

(** [make_prediction]: the logged lines and the outcome. *)
Definition make_prediction (model : option pymodel)
  (model_metadata : option metadata) (now : string) (input_df : record)
  : list string * result prediction_result :=
  match prediction_body model model_metadata now input_df with
  | inl e => ([String.append "Error making prediction: " (exn_str e)], inl e)
  | inr r => ([], inr r)
  end.

(** ** app.py: [api_predict] *)

(** What [request.get_json()] gives: the parsed value.  Of a value that is
    not an object only its kind and its truth value matter. *)
Inductive json :=
| JNull
| JBool (b : bool)
| JInt (z : Z)
| JFloat (q : Q)
| JString (s : string)
| JArray (length : nat)
| JObject (fields : gmap string pyval).

Inductive api_body :=
| NoData
| Failure (error : string)
| Success (result : prediction_result).

Definition json_truthy (data : json) : bool :=
  match data with
  | JNull => false
  | JBool b => b
  | JInt z => negb (z =? 0)%Z
  | JFloat q => negb (Qeq_bool q 0)
  | JString s => negb (String.eqb s "")
  | JArray length => negb (length =? 0)%nat
  | JObject fields => negb (size fields =? 0)%nat
  end.

(** [prepare_input_data(data)] on what the API received: [data['age']]
    on a value that is not an object raises TypeError inside the [try]
    of the function, which logs it and raises it again. *)
Definition prepare_json (preprocessors : option (gmap string pyobject))
  (data : json) : list string * result record :=
  let refuse := fun msg : string =>
    ([String.append "Error preparing input data: " msg], inl (TypeError msg)) in
  match data with
  | JObject fields =>
      prepare_input_data float_of_string int_of_string preprocessors fields
  | JNull => refuse "'NoneType' object is not subscriptable"%string
  | JBool _ => refuse "'bool' object is not subscriptable"%string
  | JInt _ => refuse "'int' object is not subscriptable"%string
  | JFloat _ => refuse "'float' object is not subscriptable"%string
  | JString _ => refuse "string indices must be integers, not 'str'"%string
  | JArray _ => refuse "list indices must be integers or slices, not str"%string
  end.

(** [api_predict]: the logged lines, the status and the body. *)
Definition api_predict (model : option pymodel)
  (model_metadata : option metadata)
  (preprocessors : option (gmap string pyobject)) (now : string)
  (get_json : result json) : list string * (Z * api_body) :=
  match get_json with
  | inl e =>
      ([String.append "API prediction error: " (exn_str e)],
       (500%Z, Failure (exn_str e)))
  | inr data =>
      if negb (json_truthy data) then ([], (400%Z, NoData))
      else
        match prepare_json preprocessors data with
        | (log1, inl e) =>
            (log1 ++ [String.append "API prediction error: " (exn_str e)],
             (500%Z, Failure (exn_str e)))
        | (log1, inr input_df) =>
            match make_prediction model model_metadata now input_df with
            | (log2, inl e) =>
                (log1 ++ log2
                 ++ [String.append "API prediction error: " (exn_str e)],
                 (500%Z, Failure (exn_str e)))
            | (log2, inr r) => (log1 ++ log2, (200%Z, Success r))
            end
        end
  end.

End Prediction.

(** ** app.py: [load_model_artifacts] *)

(** A file under the models directory: absent, or present with what
    [joblib.load] does on it. *)
Inductive artifact (A : Type) :=
| Missing
| Stored (load : result A).
Arguments Missing {A}.
Arguments Stored {A} _.

Record model_store := {
  final_model_file : artifact pymodel;
  model_metadata_file : artifact metadata;
  feature_info_file : artifact pyval;
  preprocessors_file : artifact (gmap string pyobject)
}.

(** The four module globals. *)
Record globals := {
  g_model : option pymodel;
  g_model_metadata : option metadata;
  g_feature_info : option pyval;
  g_preprocessors : option (gmap string pyobject)
}.

(** The state of the module before [load_model_artifacts] runs. *)
Definition initial_globals : globals :=
  {| g_model := None; g_model_metadata := None;
     g_feature_info := None; g_preprocessors := None |}.

Definition default_metadata : metadata :=
  {| target_classes := Some ["Poor"; "Standard"; "Good"]%string |}.

Definition set_model (m : pymodel) (g : globals) : globals :=
  {| g_model := Some m; g_model_metadata := g_model_metadata g;
     g_feature_info := g_feature_info g; g_preprocessors := g_preprocessors g |}.

Definition set_model_metadata (md : metadata) (g : globals) : globals :=
  {| g_model := g_model g; g_model_metadata := Some md;
     g_feature_info := g_feature_info g; g_preprocessors := g_preprocessors g |}.

Definition set_feature_info (v : pyval) (g : globals) : globals :=
  {| g_model := g_model g; g_model_metadata := g_model_metadata g;
     g_feature_info := Some v; g_preprocessors := g_preprocessors g |}.

Definition set_preprocessors (pp : gmap string pyobject) (g : globals) : globals :=
  {| g_model := g_model g; g_model_metadata := g_model_metadata g;
     g_feature_info := g_feature_info g; g_preprocessors := Some pp |}.

(** One statement group of the [try]: the lines it logs, and the globals
    after it or the exception it raises. *)
Definition load_step : Type := globals -> list string * result globals.

(** Lines 61 to 70; [dummy] is the import of sklearn and the construction
    of the unfitted classifier. *)
Definition load_model (dummy : result pymodel) (store : model_store) : load_step :=
  fun g =>
    match final_model_file store with
    | Stored load =>
        match load with
        | inr m => (["INFO Model loaded successfully"%string], inr (set_model m g))
        | inl e => ([], inl e)
        end
    | Missing =>
        (["WARNING Model file not found, using dummy model"%string],
         match dummy with
         | inr m => inr (set_model m g)
         | inl e => inl e
         end)
    end.

(** Lines 72 to 83. *)
Definition load_metadata (store : model_store) : load_step :=
  fun g =>
    match model_metadata_file store with
    | Stored load =>
        match load with
        | inr md => (["INFO Model metadata loaded successfully"%string],
                     inr (set_model_metadata md g))
        | inl e => ([], inl e)
        end
    | Missing => ([], inr (set_model_metadata default_metadata g))
    end.

(** Lines 85 to 89. *)
Definition load_feature_info (store : model_store) : load_step :=
  fun g =>
    match feature_info_file store with
    | Stored load =>
        match load with
        | inr v => (["INFO Feature info loaded successfully"%string],
                    inr (set_feature_info v g))
        | inl e => ([], inl e)
        end
    | Missing => ([], inr g)
    end.

(** Lines 91 to 95. *)
Definition load_preprocessors (store : model_store) : load_step :=
  fun g =>
    match preprocessors_file store with
    | Stored load =>
        match load with
        | inr pp => (["INFO Preprocessors loaded successfully"%string],
                     inr (set_preprocessors pp g))
        | inl e => ([], inl e)
        end
    | Missing => ([], inr g)
    end.

(** The statements of a [try] in order: the globals assigned before an
    exception keep their new values. *)
Fixpoint run_steps (steps : list load_step) (g : globals)
  : list string * globals * option exn :=
  match steps with
  | [] => ([], g, None)
  | step :: steps' =>
      match step g with
      | (log, inl e) => (log, g, Some e)
      | (log, inr g') =>
          match run_steps steps' g' with
          | (log', g'', err) => (log ++ log', g'', err)
          end
      end
  end.

(** [load_model_artifacts]: the logged lines and the globals after it. *)
Definition load_model_artifacts (dummy : result pymodel) (store : model_store)
  (g : globals) : list string * globals :=
  match run_steps [load_model dummy store; load_metadata store;
                   load_feature_info store; load_preprocessors store] g with
  | (log, g', None) => (log, g')
  | (log, g', Some e) =>
      (log ++ [String.append "ERROR Error loading model artifacts: " (exn_str e)],
       set_model_metadata default_metadata g')
  end.

(** ** app.py: [CreditScoreForm] *)

Inductive validator :=
| DataRequired
| NumberRange (min max : Q).

Inductive field_kind :=
| IntegerField
| FloatField
| SelectField (choices : list string).

Record form_field := {
  kind : field_kind;
  validators : list validator
}.

Definition occupation_choices : list string :=
  [""; "Engineer"; "Teacher"; "Doctor"; "Lawyer"; "Manager"; "Sales";
   "Student"; "Artist"; "Entrepreneur"; "Accountant"; "Nurse"; "Other"]%string.

Definition payment_behaviour_choices : list string :=
  [""; "High_spent_Small_value_payments"; "Low_spent_Large_value_payments";
   "High_spent_Medium_value_payments"; "Low_spent_Medium_value_payments";
   "High_spent_Large_value_payments"; "Low_spent_Small_value_payments"]%string.

Definition number_field (k : field_kind) (min max : Q) : option form_field :=
  Some {| kind := k; validators := [DataRequired; NumberRange min max] |}.

Definition select_field (choices : list string) : option form_field :=
  Some {| kind := SelectField choices; validators := [DataRequired] |}.

(** The fields of the form, found by the column that
    [prepare_input_data] fills from each; the values of the choices of a
    select field are listed, the placeholder included.  The submit button
    is left out. *)
Definition CreditScoreForm (column : string) : option form_field :=
  if String.eqb column "Age" then number_field IntegerField 18 100
  else if String.eqb column "Occupation" then select_field occupation_choices
  else if String.eqb column "Annual_Income" then number_field FloatField 0 10000000
  else if String.eqb column "Monthly_Inhand_Salary"
  then number_field FloatField 0 1000000
  else if String.eqb column "Num_Bank_Accounts" then number_field IntegerField 0 20
  else if String.eqb column "Num_Credit_Card" then number_field IntegerField 0 20
  else if String.eqb column "Interest_Rate" then number_field FloatField 0 50
  else if String.eqb column "Num_of_Loan" then number_field IntegerField 0 20
  else if String.eqb column "Delay_from_due_date"
  then number_field IntegerField 0 365
  else if String.eqb column "Num_of_Delayed_Payment"
  then number_field IntegerField 0 50
  else if String.eqb column "Credit_Utilization_Ratio"
  then number_field FloatField 0 100
  else if String.eqb column "Credit_History_Age" then number_field IntegerField 0 600
  else if String.eqb column "Outstanding_Debt" then number_field FloatField 0 10000000
  else if String.eqb column "Total_EMI_per_month"
  then number_field FloatField 0 100000
  else if String.eqb column "Amount_invested_monthly"
  then number_field FloatField 0 100000
  else if String.eqb column "Monthly_Balance"
  then number_field FloatField (- (100000)) 100000
  else if String.eqb column "Credit_Mix"
  then select_field [""; "Good"; "Standard"; "Bad"]%string
  else if String.eqb column "Payment_of_Min_Amount"
  then select_field [""; "Yes"; "No"]%string
  else if String.eqb column "Payment_Behaviour"
  then select_field payment_behaviour_choices
  else None.

(** The value of a cell as a number. *)
Definition number_of (v : pyval) : option Q :=
  match v with
  | VInt z => Some (inject_Z z)
  | VFloat q => Some q
  | _ => None
  end.

(** The truth value of the data of a field. *)
Definition py_truthy (v : pyval) : bool :=
  match v with
  | VInt z => negb (z =? 0)%Z
  | VFloat q => negb (Qeq_bool q 0)
  | VStr s => negb (String.eqb s "")
  | VNone => false
  end.

(** [s.strip()] is empty: [s] has white space only (the white space of
    ASCII; no choice of the form has a character outside ASCII). *)
Definition is_space (c : ascii) : bool :=
  let n := nat_of_ascii c in
  ((n =? 32) || ((9 <=? n) && (n <=? 13)) || ((28 <=? n) && (n <=? 31)))%nat.

Definition blank (s : string) : bool :=
  forallb is_space (list_ascii_of_string s).

(** One validator on the data of a field.  [DataRequired] asks for data
    that are true, and not blank when they are a str, so it refuses the
    number 0; [NumberRange] asks for a number within its bounds. *)
Definition validator_passes (v : validator) (data : pyval) : bool :=
  match v with
  | DataRequired =>
      match data with
      | VStr s => negb (blank s)
      | _ => py_truthy data
      end
  | NumberRange min max =>
      match number_of data with
      | Some x => Qle_bool min x && Qle_bool x max
      | None => false
      end
  end.

(** The field validates: the submitted text has become data of the kind
    of the field (an int, a float, one of the choices), and every
    validator passes. *)
Definition field_accepts (f : form_field) (data : pyval) : bool :=
  match kind f, data with
  | IntegerField, VInt _ => forallb (fun v => validator_passes v data) (validators f)
  | FloatField, (VInt _ | VFloat _) =>
      forallb (fun v => validator_passes v data) (validators f)
  | SelectField choices, VStr s =>
      existsb (String.eqb s) choices
      && forallb (fun v => validator_passes v data) (validators f)
  | _, _ => false
  end.

(** The cell is accepted by the field of its column. *)
Definition accepted (column : string) (cell : option pyval) : Prop :=
  exists f v, CreditScoreForm column = Some f /\ cell = Some v /\
              field_accepts f v = true.

(** The cell is a number within the bounds of the field of its column,
    and the field accepts it exactly when it is not 0. *)
Definition accepted_unless_zero (column : string) (cell : option pyval) : Prop :=
  exists f v x,
    CreditScoreForm column = Some f /\ cell = Some v /\ number_of v = Some x /\
    (forall min max, In (NumberRange min max) (validators f) ->
                     validator_passes (NumberRange min max) v = true) /\
    (field_accepts f v = true <-> ~ (x == 0)%Q).

(** ** config.py and [create_app] *)

(** The settings the configuration classes define. *)
Record config := {
  SECRET_KEY : string;
  DEBUG : bool;
  TESTING : bool
}.

(** [os.environ.get('SECRET_KEY') or 'dev-secret-key-change-in-production']:
    an unset or empty variable gives the fallback. *)
Definition secret_key (environ : gmap string string) : string :=
  match environ !! "SECRET_KEY"%string with
  | Some s => if String.eqb s "" then "dev-secret-key-change-in-production"%string
              else s
  | None => "dev-secret-key-change-in-production"%string
  end.

Definition Config (environ : gmap string string) : config :=
  {| SECRET_KEY := secret_key environ; DEBUG := false; TESTING := false |}.

Definition DevelopmentConfig (environ : gmap string string) : config :=
  {| SECRET_KEY := SECRET_KEY (Config environ);
     DEBUG := true;
     TESTING := TESTING (Config environ) |}.

Definition ProductionConfig (environ : gmap string string) : config :=
  {| SECRET_KEY := SECRET_KEY (Config environ);
     DEBUG := false;
     TESTING := TESTING (Config environ) |}.

Definition TestingConfig (environ : gmap string string) : config :=
  {| SECRET_KEY := SECRET_KEY (Config environ);
     DEBUG := DEBUG (Config environ);
     TESTING := true |}.

(** The configuration [create_app(config_name)] loads into the app. *)
Definition create_app (config_name : string) (environ : gmap string string)
  : config :=
  if String.eqb config_name "production" then ProductionConfig environ
  else DevelopmentConfig environ.


(** * Properties *)

Example record_columns_length : length record_columns = 28.
Proof. reflexivity. Qed.

Example toy_two_records :
  match generate_credit_score_data (R := Toy.runtime) 2 Toy.seeded with
  | inr (df, _) => columns df = record_columns /\ length (rows df) = 2
  | inl _ => False
  end.
Proof. vm_compute. split; reflexivity. Qed.

(** ** Comparisons and rounding on [Q] *)

Lemma Qlt_bool_true (x y : Q) : Qlt_bool x y = true <-> (x < y)%Q.
Proof.
  unfold Qlt_bool. rewrite negb_true_iff. split; intros H.
  - apply Qnot_le_lt. intros Hle. apply Qle_bool_iff in Hle. congruence.
  - destruct (Qle_bool y x) eqn:E; [|reflexivity].
    apply Qle_bool_iff in E. exfalso. exact (Qlt_not_le _ _ H E).
Qed.

Lemma Qlt_bool_false (x y : Q) : Qlt_bool x y = false <-> (y <= x)%Q.
Proof.
  unfold Qlt_bool. rewrite negb_false_iff. apply Qle_bool_iff.
Qed.

Lemma py_div_nonzero (x y : Q) : ~ (y == 0)%Q -> py_div x y = inr (x / y)%Q.
Proof.
  intros H. unfold py_div. destruct (Qeq_bool y 0) eqn:E; [|reflexivity].
  apply Qeq_bool_eq in E. contradiction.
Qed.

Lemma py_div_zero (x : Q) : py_div x 0 = inl ZeroDivisionError.
Proof. reflexivity. Qed.

Lemma round_half_even_lower (a : Z) (q : Q) :
  (inject_Z a <= q)%Q -> (a <= round_half_even q)%Z.
Proof.
  intros H. apply Qfloor_resp_le in H. rewrite Qfloor_Z in H.
  unfold round_half_even.
  destruct (Qlt_bool _ _); [lia|].
  destruct (Qlt_bool _ _); [lia|].
  destruct (Z.even _); lia.
Qed.

Lemma round_half_even_upper (b : Z) (q : Q) :
  (q <= inject_Z b)%Q -> (round_half_even q <= b)%Z.
Proof.
  intros H.
  assert (Hf : (Qfloor q <= b)%Z).
  { apply Qfloor_resp_le in H. now rewrite Qfloor_Z in H. }
  destruct (Z.eq_dec (Qfloor q) b) as [Heq|Hne].
  - assert (Hr : (q - inject_Z (Qfloor q) <= 0)%Q).
    { rewrite Heq. lra. }
    unfold round_half_even.
    destruct (Qlt_bool (1 # 2) _) eqn:E1.
    + apply Qlt_bool_true in E1. lra.
    + destruct (Qlt_bool _ (1 # 2)) eqn:E2; [lia|].
      apply Qlt_bool_false in E2. lra.
  - unfold round_half_even.
    destruct (Qlt_bool _ _); [lia|].
    destruct (Qlt_bool _ _); [lia|].
    destruct (Z.even _); lia.
Qed.

Lemma py_round2_range (lo hi : Z) (x : Q) :
  (inject_Z lo <= x <= inject_Z hi)%Q ->
  (inject_Z lo <= py_round2 x <= inject_Z hi)%Q.
Proof.
  intros [Hlo Hhi]. unfold py_round2.
  assert (H1 : (lo * 100 <= round_half_even (x * 100))%Z).
  { apply round_half_even_lower. rewrite inject_Z_mult.
    change (inject_Z 100) with 100%Q. nra. }
  assert (H2 : (round_half_even (x * 100) <= hi * 100)%Z).
  { apply round_half_even_upper. rewrite inject_Z_mult.
    change (inject_Z 100) with 100%Q. nra. }
  unfold Qle, inject_Z. cbn [Qnum Qden]. lia.
Qed.

(** ** Sums of weights *)

Lemma fold_Qplus_acc (l : list Q) (a : Q) :
  (fold_left Qplus l a == a + fold_left Qplus l 0)%Q.
Proof.
  revert a. induction l as [|x l IH]; intros a; cbn [fold_left].
  - ring.
  - rewrite (IH (a + x)%Q), (IH (0 + x)%Q). ring.
Qed.

Lemma fold_Qplus_scaled (l : list Q) (c : Q) :
  (fold_left Qplus (map (fun x => x / c) l) 0 == fold_left Qplus l 0 / c)%Q.
Proof.
  induction l as [|x l IH]; cbn [map fold_left].
  - unfold Qdiv. ring.
  - rewrite fold_Qplus_acc, IH, (fold_Qplus_acc l (0 + x)%Q).
    unfold Qdiv. ring.
Qed.

Lemma fold_Qplus_pos (l : list Q) :
  l <> [] -> Forall (fun x => 0 < x)%Q l -> (0 < fold_left Qplus l 0)%Q.
Proof.
  intros Hne Hall. destruct l as [|x l]; [congruence|].
  clear Hne. inversion Hall as [|? ? Hx Hl]; subst.
  cbn [fold_left]. rewrite fold_Qplus_acc.
  assert (H0 : (0 <= fold_left Qplus l 0)%Q).
  { clear Hx Hall. induction l as [|y l IH]; cbn [fold_left]; [lra|].
    inversion Hl; subst. rewrite fold_Qplus_acc.
    specialize (IH ltac:(assumption)). lra. }
  lra.
Qed.

(** ** Reasoning about monadic code *)

Lemma returns_ret {S A} (a : A) (s : S) (P : A -> S -> Prop) :
  P a s -> returns (ret a) s P.
Proof. intros H. exact H. Qed.

Lemma returns_bind {S A B} (m : M S A) (k : A -> M S B) (s : S)
  (Q : A -> S -> Prop) (P : B -> S -> Prop) :
  returns m s Q ->
  (forall a s', Q a s' -> returns (k a) s' P) ->
  returns (bind m k) s P.
Proof.
  unfold returns, bind. intros Hm Hk.
  destruct (m s) as [e|[a s']]; [contradiction|]. now apply Hk.
Qed.

Lemma returns_weaken {S A} (m : M S A) (s : S) (P Q : A -> S -> Prop) :
  returns m s P -> (forall a s', P a s' -> Q a s') -> returns m s Q.
Proof.
  unfold returns. intros Hm HPQ.
  destruct (m s) as [e|[a s']]; [contradiction|]. now apply HPQ.
Qed.

Lemma returns_lift {S A} (r : result A) (a : A) (s : S) (P : A -> S -> Prop) :
  r = inr a -> P a s -> returns (lift r) s P.
Proof. intros -> H. exact H. Qed.

Lemma returns_inv {S A} (m : M S A) (s : S) (P : A -> S -> Prop) :
  returns m s P <-> exists a s', m s = inr (a, s') /\ P a s'.
Proof.
  unfold returns. split.
  - destruct (m s) as [e|[a s']]; [contradiction|]. eauto.
  - intros (a & s' & -> & H). exact H.
Qed.

Lemma returns_via_np {R : Runtime} {A} (f : np_state R -> A * np_state R)
  (p : process R) (P : A -> process R -> Prop) :
  (forall s', P (fst (f (np_rs p)))
                {| np_rs := s'; py_rs := py_rs p; fk_rs := fk_rs p |}) ->
  returns (via_np f) p P.
Proof.
  intros H. unfold returns, via_np.
  specialize (H (snd (f (np_rs p)))).
  destruct (f (np_rs p)) as [a s']. exact H.
Qed.

Lemma returns_via_fk {R : Runtime} {A} (f : fk_state R -> A * fk_state R)
  (p : process R) (P : A -> process R -> Prop) :
  (forall a p', P a p') -> returns (via_fk f) p P.
Proof.
  intros H. unfold returns, via_fk.
  destruct (f (fk_rs p)) as [a s']. apply H.
Qed.

(** ** The draws under the laws of the runtime *)

Section Draws.
Context {R : Runtime} (HL : RuntimeLaws R).

Lemma returns_randint (low high : Z) (p : process R) :
  (low < high)%Z ->
  returns (np_randint low high) p (fun v _ => (low <= v < high)%Z).
Proof.
  intros H. unfold np_randint.
  destruct (Z.ltb_spec low high); [|lia].
  apply returns_via_np. intros _. now apply (randint_range R HL).
Qed.

Lemma returns_uniform (low high : Q) (p : process R) :
  (low <= high)%Q ->
  returns (np_uniform low high) p (fun v _ => (low <= v <= high)%Q).
Proof.
  intros H. unfold np_uniform.
  apply returns_via_np. intros _. now apply (uniform_range R HL).
Qed.

Lemma returns_uniform_any (low high : Q) (p : process R) :
  returns (np_uniform low high) p (fun _ _ => True).
Proof. unfold np_uniform. apply returns_via_np. intros _. exact I. Qed.

Lemma returns_lognormal (mean sigma : Q) (p : process R) :
  (0 <= sigma)%Q -> returns (np_lognormal mean sigma) p (fun _ _ => True).
Proof.
  intros H. unfold np_lognormal.
  apply Qlt_bool_false in H. rewrite H.
  apply returns_via_np. intros _. exact I.
Qed.

Lemma returns_poisson (lam : Q) (p : process R) :
  (0 <= lam)%Q -> returns (np_poisson lam) p (fun _ _ => True).
Proof.
  intros H. unfold np_poisson.
  apply Qlt_bool_false in H. rewrite H.
  apply returns_via_np. intros _. exact I.
Qed.

Lemma returns_normal (loc scale : Q) (p : process R) :
  (0 <= scale)%Q -> returns (np_normal loc scale) p (fun _ _ => True).
Proof.
  intros H. unfold np_normal.
  apply Qlt_bool_false in H. rewrite H.
  apply returns_via_np. intros _. exact I.
Qed.

Lemma returns_random (p : process R) :
  returns np_random p (fun _ _ => True).
Proof. unfold np_random. apply returns_via_np. intros _. exact I. Qed.

Lemma returns_choice {A} (a : list A) (pv : option (list Q)) (p : process R) :
  a <> [] ->
  match pv with
  | Some l => valid_p (length a) l = inr tt
  | None => True
  end ->
  returns (np_choice a pv) p (fun v _ => In v a).
Proof.
  intros Hne Hp. unfold np_choice.
  destruct (Nat.eqb_spec (length a) 0) as [H0|H0].
  { destruct a; [congruence|discriminate]. }
  eapply returns_bind with (Q := fun _ s' => True).
  - destruct pv as [l|]; [rewrite Hp|]; exact I.
  - intros _ s' _.
    eapply returns_bind
      with (Q := fun idx _ => (idx < length a)%nat).
    + apply returns_via_np. intros _. apply (index_range R HL). lia.
    + intros idx s'' Hidx.
      destruct (nth_error a idx) as [x|] eqn:E.
      * apply returns_ret. eapply nth_error_In. exact E.
      * apply nth_error_None in E. lia.
Qed.

Lemma valid_delay_probs : valid_p 60 (delay_probs (R := R)) = inr tt.
Proof.
  unfold valid_p, delay_probs.
  set (w := map (fun k => np_exp R (- inject_Z k * 0.1)%Q) range60).
  set (total := fold_left Qplus w 0%Q).
  assert (Hw : Forall (fun x => 0 < x)%Q w).
  { apply List.Forall_forall. intros x Hx. apply in_map_iff in Hx.
    destruct Hx as (k & <- & _). apply (exp_pos R HL). }
  assert (Hlen : length w = 60%nat).
  { unfold w. now rewrite length_map. }
  assert (Htotal : (0 < total)%Q).
  { apply fold_Qplus_pos; [|exact Hw].
    intros E. rewrite E in Hlen. discriminate. }
  rewrite length_map, Hlen. cbn [Nat.eqb negb].
  replace (existsb (fun x => Qlt_bool x 0) (map (fun x => (x / total)%Q) w))
    with false.
  2:{ symmetry. apply not_true_is_false. intros E.
      apply existsb_exists in E. destruct E as (y & Hy & Hneg).
      apply in_map_iff in Hy. destruct Hy as (x & <- & Hx).
      apply Qlt_bool_true in Hneg.
      rewrite List.Forall_forall in Hw. specialize (Hw x Hx).
      assert (0 <= x / total)%Q.
      { apply Qle_shift_div_l; [exact Htotal|lra]. }
      lra. }
  replace (Qlt_bool atol _) with false; [reflexivity|].
  symmetry. apply Qlt_bool_false.
  rewrite fold_Qplus_scaled. fold total.
  assert (E : (total / total - 1 == 0)%Q).
  { field. lra. }
  rewrite E. unfold atol. cbn. discriminate.
Qed.

End Draws.

(** ** The frame built from the records *)

Lemma index_of_nth (c : string) (cols : list string) (k : nat) :
  index_of c cols = Some k -> nth_error cols k = Some c.
Proof.
  revert k. induction cols as [|c' cols IH]; intros k; cbn [index_of].
  - discriminate.
  - destruct (String.eqb_spec c' c) as [->|Hne].
    + intros [= <-]. reflexivity.
    + destruct (index_of c cols) as [j|]; [|discriminate].
      intros [= <-]. cbn. now apply IH.
Qed.

Lemma index_of_In (c : string) (cols : list string) :
  In c cols -> exists k, index_of c cols = Some k.
Proof.
  induction cols as [|c' cols IH]; intros Hin; [contradiction|].
  cbn [index_of]. destruct (String.eqb_spec c' c) as [->|Hne]; [eauto|].
  destruct Hin as [->|Hin]; [congruence|].
  destruct (IH Hin) as [k ->]. eauto.
Qed.

Lemma cell_pd_DataFrame (data : list record) (i : nat) (r : record) (c : string) :
  nth_error data i = Some r ->
  In c (unique_keys data) ->
  cell (pd_DataFrame data) i c = dict_get c r.
Proof.
  intros Hr Hc. unfold cell, pd_DataFrame. cbn [columns rows].
  destruct (index_of_In _ _ Hc) as [k Hk]. rewrite Hk.
  rewrite nth_error_map, Hr. cbn [option_map].
  rewrite nth_error_map, (index_of_nth _ _ _ Hk). reflexivity.
Qed.

Lemma unique_keys_fold (data : list record) :
  Forall has_columns data ->
  fold_left (fun seen d => add_unseen seen (map fst d)) data record_columns
  = record_columns.
Proof.
  induction 1 as [|r data Hr _ IH]; [reflexivity|].
  cbn [fold_left]. rewrite Hr. exact IH.
Qed.

Lemma unique_keys_records (data : list record) :
  data <> [] -> Forall has_columns data -> unique_keys data = record_columns.
Proof.
  intros Hne Hall. destruct data as [|r data]; [congruence|].
  inversion Hall as [|? ? Hr Hrest]; subst.
  unfold unique_keys. cbn [fold_left]. rewrite Hr.
  now apply unique_keys_fold.
Qed.

Lemma rows_pd_DataFrame (data : list record) :
  length (rows (pd_DataFrame data)) = length data.
Proof. unfold pd_DataFrame. cbn [rows]. apply length_map. Qed.

Lemma row_width_pd_DataFrame (data : list record) (row : list (option pyval)) :
  In row (rows (pd_DataFrame data)) ->
  length row = length (columns (pd_DataFrame data)).
Proof.
  unfold pd_DataFrame. cbn [rows columns]. intros H.
  apply in_map_iff in H. destruct H as (d & <- & _). apply length_map.
Qed.

(** ** The loop *)

Section Loop.
Context {R : Runtime}.

Lemma returns_gen_loop (P : nat -> record -> Prop) :
  (forall i s, returns (gen_record (R := R) i) s (fun r _ => P i r)) ->
  forall count start data s,
    returns (gen_loop (R := R) count start data) s
      (fun out _ => exists new,
           out = data ++ new /\ length new = count /\
           forall k r, nth_error new k = Some r -> P (start + k)%nat r).
Proof.
  intros Hrec. induction count as [|count IH]; intros start data s.
  - apply returns_ret. exists []. rewrite app_nil_r.
    repeat split. intros [|k] r; discriminate.
  - cbn [gen_loop]. eapply returns_bind; [apply Hrec|].
    intros r s1 Hr. cbv beta.
    eapply returns_weaken; [apply IH|].
    intros out s2 (new & -> & Hlen & Hnew). exists (r :: new).
    rewrite <- app_assoc. repeat split.
    + cbn. now rewrite Hlen.
    + intros [|k] r'; cbn [nth_error].
      * intros [= <-]. now rewrite Nat.add_0_r.
      * intros Hk. replace (start + S k)%nat with (S start + k)%nat by lia.
        now apply Hnew.
Qed.

Lemma returns_generate (P : nat -> record -> Prop) :
  (forall i s, returns (gen_record (R := R) i) s (fun r _ => P i r)) ->
  forall n s,
    returns (generate_credit_score_data (R := R) n) s
      (fun df _ => exists data,
           df = pd_DataFrame data /\ length data = Z.to_nat n /\
           forall k r, nth_error data k = Some r -> P k r).
Proof.
  intros Hrec n s. unfold generate_credit_score_data.
  eapply returns_bind; [apply (returns_gen_loop P Hrec)|].
  intros out s1 (new & -> & Hlen & Hnew). cbv beta.
  apply returns_ret. exists new. repeat split; assumption.
Qed.

End Loop.

(** ** One record *)

Lemma credit_score_factors_value (p : profile) :
  credit_score_factors p =
  inr [spec_history p; spec_timeliness p; spec_debt p; spec_balance p;
       spec_delinquency p].
Proof.
  unfold credit_score_factors, debt_ratio_factor, balance_ratio_factor,
    spec_debt, spec_balance.
  change (py_div (inject_Z (credit_history_age p)) 300)
    with (@inr exn Q (inject_Z (credit_history_age p) / 300)%Q).
  change (py_div (inject_Z (num_delayed_payments p)) 10)
    with (@inr exn Q (inject_Z (num_delayed_payments p) / 10)%Q).
  cbn [rbind].
  destruct (Qlt_bool 0 (annual_income p)) eqn:Hi;
    destruct (Qlt_bool 0 (monthly_inhand_salary p)) eqn:Hs;
    try (apply Qlt_bool_true in Hi; rewrite (py_div_nonzero _ (annual_income p)) by lra);
    try (apply Qlt_bool_true in Hs; rewrite (py_div_nonzero _ (monthly_inhand_salary p)) by lra);
    reflexivity.
Qed.

Lemma in_range60 (d : Z) : In d range60 -> (0 <= d <= 59)%Z.
Proof.
  unfold range60. intros H. apply in_map_iff in H.
  destruct H as (k & <- & Hk). apply in_seq in Hk. lia.
Qed.

Section Records.
Context {R : Runtime} (HL : RuntimeLaws R).

Local Ltac draw :=
  eapply returns_bind;
  [ first
      [ apply (returns_randint HL); lia
      | apply (returns_uniform HL); lra
      | apply (returns_lognormal); lra
      | apply (returns_poisson); lra
      | apply (returns_normal); lra
      | apply (returns_random)
      | apply (returns_choice HL); [discriminate | first [exact I | reflexivity | apply (valid_delay_probs HL)]]
      ]
  | cbv beta; intros ? ? ? ].

Lemma returns_draw_profile (s : process R) :
  returns draw_profile s (fun p _ => profile_ok p).
Proof.
  unfold draw_profile.
  draw. draw. draw. draw. draw.
  eapply returns_bind with (Q := fun _ _ => True).
  { eapply returns_lift; [apply py_div_nonzero; discriminate|exact I]. }
  cbv beta; intros ? ? ?.
  draw. draw. draw. draw. draw. draw. draw. draw. draw. draw. draw.
  apply returns_ret. unfold profile_ok. cbn.
  repeat split; try assumption; try lia; try lra.
  all: match goal with H : (5 <= _ <= 25)%Q |- _ => destruct H; assumption end.
Qed.

Lemma returns_credit_score_numeric (p : profile) (s : process R) :
  returns (credit_score_numeric p) s (fun _ _ => True).
Proof.
  unfold credit_score_numeric.
  eapply returns_bind with (Q := fun _ _ => True).
  { eapply returns_lift; [apply credit_score_factors_value|exact I]. }
  cbv beta; intros ? ? ?.
  draw. apply returns_ret. exact I.
Qed.

Lemma returns_label_noise (c : string) (s : process R) :
  returns (label_noise c) s (fun c' _ => c' = c \/ In c' score_labels).
Proof.
  unfold label_noise. draw.
  destruct (Qlt_bool _ _).
  - eapply returns_weaken; [apply (returns_choice HL); [discriminate|exact I]|].
    cbv beta. intros; now right.
  - apply returns_ret. now left.
Qed.

Lemma categorize_label (x : Q) : In (categorize x) score_labels.
Proof.
  unfold categorize, score_labels.
  destruct (Qle_bool 70 x); [|destruct (Qle_bool 40 x)]; cbn; auto.
Qed.

Lemma returns_make_record (i : nat) (p : profile) (c : string) (s : process R) :
  profile_ok p -> In c score_labels ->
  returns (make_record i p c) s (fun r _ => record_ok i r).
Proof.
  intros (Hage & Hbank & Hcard & Hrate & Hdelay & Hhist) Hc.
  unfold make_record. draw.
  eapply returns_bind with (Q := fun _ _ => True);
    [apply returns_via_fk; intros; exact I|cbv beta; intros ? ? ?].
  eapply returns_bind with (Q := fun _ _ => True);
    [apply returns_via_fk; intros; exact I|cbv beta; intros ? ? ?].
  draw. draw. draw. draw. draw. draw.
  apply returns_ret. unfold record_ok. split; [reflexivity|].
  split; [split; reflexivity|]. split.
  - unfold field_ranges. repeat split.
    + exists (age p). split; [reflexivity|exact Hage].
    + exists (num_bank_accounts p). split; [reflexivity|].
      cbn in Hbank. lia.
    + exists (num_credit_cards p). split; [reflexivity|].
      cbn in Hcard. lia.
    + exists (py_round2 (interest_rate p)). split; [reflexivity|].
      apply (py_round2_range 5 25). exact Hrate.
    + exists (delay_from_due_date p). split; [reflexivity|].
      now apply in_range60.
    + exists (credit_history_age p). split; [reflexivity|exact Hhist].
  - exists c. split; [reflexivity|].
    cbn in Hc. intuition auto.
Qed.

Lemma returns_gen_record (i : nat) (s : process R) :
  returns (gen_record i) s (fun r _ => record_ok i r).
Proof.
  unfold gen_record.
  eapply returns_bind; [apply returns_draw_profile|].
  intros p s1 Hp. cbv beta.
  eapply returns_bind; [apply returns_credit_score_numeric|].
  intros x s2 _. cbv beta.
  eapply returns_bind; [apply returns_label_noise|].
  intros c s3 Hc. cbv beta.
  apply returns_make_record; [exact Hp|].
  destruct Hc as [->|Hc]; [apply categorize_label|exact Hc].
Qed.

(** Every call returns a frame built from records that are all well
    formed. *)
Lemma generate_records (n : Z) (s : process R) :
  exists data s',
    generate_credit_score_data n s = inr (pd_DataFrame data, s') /\
    length data = Z.to_nat n /\
    forall k r, nth_error data k = Some r -> record_ok k r.
Proof.
  pose proof (returns_generate record_ok returns_gen_record n s) as H.
  apply returns_inv in H. destruct H as (df & s' & E & data & -> & Hlen & Hall).
  exists data, s'. auto.
Qed.

End Records.

(** ** The executable runtime keeps the laws *)

Lemma toy_lcg_range (s : Z) : (0 <= Toy.lcg s < Toy.modulus)%Z.
Proof. unfold Toy.lcg. apply Z.mod_pos_bound. reflexivity. Qed.

Lemma toy_unit_draw_range (s : Z) :
  (0 <= fst (Toy.unit_draw s) <= 1)%Q.
Proof.
  unfold Toy.unit_draw. cbn [fst]. rewrite Qred_correct.
  pose proof (toy_lcg_range s) as H. unfold Toy.modulus in H.
  unfold Qle. cbn [Qnum Qden]. lia.
Qed.

Lemma toy_pick_range (u : Q) (p : list Q) (n : nat) :
  (0 < n)%nat -> (Nat.min (Toy.pick u p) (n - 1) < n)%nat.
Proof. intros H. apply Nat.min_lt_iff. right. lia. Qed.

Lemma toy_laws : RuntimeLaws Toy.runtime.
Proof.
  constructor; cbn.
  - intros lo hi s H. unfold Toy.randint. cbn [fst].
    pose proof (Z.mod_pos_bound (Toy.lcg s) (hi - lo) ltac:(lia)). lia.
  - intros lo hi s H.
    pose proof (toy_unit_draw_range s) as Hu.
    unfold Toy.uniform, Toy.unit_draw in *. cbn [fst] in *.
    set (u := Qred (Toy.lcg s # 2147483648)) in *.
    rewrite Qred_correct.
    assert (0 <= (hi - lo) * u)%Q by (apply Qmult_le_0_compat; lra).
    assert (0 <= (hi - lo) * (1 - u))%Q by (apply Qmult_le_0_compat; lra).
    split; lra.
  - intros n p s H. unfold Toy.index, Toy.unit_draw. destruct p as [pv|].
    + cbn [fst]. now apply toy_pick_range.
    + cbn [fst].
      pose proof (Z.mod_pos_bound (Toy.lcg s) (Z.of_nat n) ltac:(lia)). lia.
  - intros x. unfold Toy.exp. rewrite Qred_correct.
    apply Qpower_0_lt. reflexivity.
Qed.

(** ** From the records to the rows of the frame *)

Local Ltac use_field H :=
  rewrite <- H by (cbn; tauto).

Lemma field_ids_ext (i : nat) (get1 get2 : string -> option pyval) :
  (forall c, In c record_columns -> get1 c = get2 c) ->
  field_ids i get1 -> field_ids i get2.
Proof.
  intros H [H1 H2]. unfold field_ids. do 2 use_field H. now split.
Qed.

Lemma field_ranges_ext (get1 get2 : string -> option pyval) :
  (forall c, In c record_columns -> get1 c = get2 c) ->
  field_ranges get1 -> field_ranges get2.
Proof.
  intros H Hr. unfold field_ranges in *. do 6 use_field H. exact Hr.
Qed.

Lemma field_label_ext (get1 get2 : string -> option pyval) :
  (forall c, In c record_columns -> get1 c = get2 c) ->
  field_label get1 -> field_label get2.
Proof.
  intros H Hr. unfold field_label in *. use_field H. exact Hr.
Qed.

Section Frames.
Context {R : Runtime} (HL : RuntimeLaws R).

Lemma generate_frame (n : Z) (s : process R) :
  exists df s',
    generate_credit_score_data n s = inr (df, s') /\
    length (rows df) = Z.to_nat n /\
    columns df = (if (Z.to_nat n =? 0)%nat then [] else record_columns) /\
    (forall row, In row (rows df) -> length row = length (columns df)) /\
    forall i, (i < Z.to_nat n)%nat ->
      field_ids i (cell df i) /\ field_ranges (cell df i) /\
      field_label (cell df i).
Proof.
  destruct (generate_records HL n s) as (data & s' & E & Hlen & Hall).
  exists (pd_DataFrame data), s'. split; [exact E|].
  split; [now rewrite rows_pd_DataFrame|].
  assert (Hcols : Forall has_columns data).
  { apply List.Forall_forall. intros r Hr.
    apply In_nth_error in Hr. destruct Hr as [k Hk].
    now destruct (Hall k r Hk). }
  split; [|split].
  - rewrite <- Hlen. destruct data as [|r data]; [reflexivity|].
    cbn [length Nat.eqb]. change (columns (pd_DataFrame (r :: data)))
      with (unique_keys (r :: data)).
    now apply unique_keys_records.
  - apply row_width_pd_DataFrame.
  - intros i Hi. rewrite <- Hlen in Hi.
    destruct (nth_error data i) as [r|] eqn:Er.
    2:{ apply nth_error_None in Er. lia. }
    destruct (Hall i r Er) as (_ & Hid & Hrg & Hlb).
    assert (Hget : forall c, In c record_columns ->
                             dict_get c r = cell (pd_DataFrame data) i c).
    { intros c Hc. symmetry. apply cell_pd_DataFrame; [exact Er|].
      rewrite unique_keys_records; [exact Hc| |exact Hcols].
      intros ->. destruct i; discriminate. }
    split; [|split].
    + exact (field_ids_ext i _ _ Hget Hid).
    + exact (field_ranges_ext _ _ Hget Hrg).
    + exact (field_label_ext _ _ Hget Hlb).
Qed.

End Frames.


(** ** What a run of the loop body reads, and the states of the loop *)

Lemma ensures_ret {S A} (a : A) (s : S) (P : A -> S -> Prop) :
  P a s -> ensures (ret a) s P.
Proof. intros H. exact H. Qed.

Lemma ensures_bind {S A B} (m : M S A) (k : A -> M S B) (s : S)
  (Q : A -> S -> Prop) (P : B -> S -> Prop) :
  ensures m s Q ->
  (forall a s', Q a s' -> ensures (k a) s' P) ->
  ensures (bind m k) s P.
Proof.
  unfold ensures, bind. intros Hm Hk.
  destruct (m s) as [e|[a s']]; [exact I|]. now apply Hk.
Qed.

Lemma ensures_inv {S A} (m : M S A) (s s' : S) (a : A) (P : A -> S -> Prop) :
  ensures m s P -> m s = inr (a, s') -> P a s'.
Proof. unfold ensures. intros H E. now rewrite E in H. Qed.

Lemma ensures_lift {S A} (r : result A) (s : S) (P : A -> S -> Prop) :
  (forall a, r = inr a -> P a s) -> ensures (lift r) s P.
Proof.
  intros H. unfold ensures, lift. destruct r as [e|a]; [exact I|]. now apply H.
Qed.

Lemma ensures_via_np {R : Runtime} {A} (f : np_state R -> A * np_state R)
  (p : process R) :
  ensures (via_np f) p
    (fun a p' => a = fst (f (np_rs p)) /\ fk_rs p' = fk_rs p).
Proof.
  unfold ensures, via_np. destruct (f (np_rs p)) as [a s']. now split.
Qed.

Lemma ensures_via_fk {R : Runtime} {A} (f : fk_state R -> A * fk_state R)
  (p : process R) :
  ensures (via_fk f) p
    (fun a p' => a = fst (f (fk_rs p)) /\ fk_rs p' = snd (f (fk_rs p))).
Proof.
  unfold ensures, via_fk. destruct (f (fk_rs p)) as [a s']. now split.
Qed.

Section Reads.
Context {R : Runtime}.

Lemma keeps_randint (low high : Z) (p : process R) :
  ensures (np_randint low high) p
    (fun a p' => a = fst (draw_randint R low high (np_rs p)) /\
                 fk_rs p' = fk_rs p).
Proof.
  unfold np_randint. destruct (low <? high)%Z; [apply ensures_via_np|exact I].
Qed.

Lemma keeps_lognormal (mean sigma : Q) (p : process R) :
  ensures (np_lognormal mean sigma) p (fun _ p' => fk_rs p' = fk_rs p).
Proof.
  unfold np_lognormal. destruct (Qlt_bool sigma 0); [exact I|].
  pose proof (ensures_via_np (draw_lognormal R mean sigma) p) as H.
  unfold ensures in *. destruct (via_np _ p) as [e|[a p']]; [exact I|]. apply H.
Qed.

Lemma keeps_uniform (low high : Q) (p : process R) :
  ensures (np_uniform low high) p (fun _ p' => fk_rs p' = fk_rs p).
Proof.
  unfold np_uniform.
  pose proof (ensures_via_np (draw_uniform R low high) p) as H.
  unfold ensures in *. destruct (via_np _ p) as [e|[a p']]; [exact I|]. apply H.
Qed.

Lemma keeps_poisson (lam : Q) (p : process R) :
  ensures (np_poisson lam) p (fun _ p' => fk_rs p' = fk_rs p).
Proof.
  unfold np_poisson. destruct (Qlt_bool lam 0); [exact I|].
  pose proof (ensures_via_np (draw_poisson R lam) p) as H.
  unfold ensures in *. destruct (via_np _ p) as [e|[a p']]; [exact I|]. apply H.
Qed.

Lemma keeps_normal (loc scale : Q) (p : process R) :
  ensures (np_normal loc scale) p (fun _ p' => fk_rs p' = fk_rs p).
Proof.
  unfold np_normal. destruct (Qlt_bool scale 0); [exact I|].
  pose proof (ensures_via_np (draw_normal R loc scale) p) as H.
  unfold ensures in *. destruct (via_np _ p) as [e|[a p']]; [exact I|]. apply H.
Qed.

Lemma keeps_random (p : process R) :
  ensures np_random p (fun _ p' => fk_rs p' = fk_rs p).
Proof.
  unfold np_random.
  pose proof (ensures_via_np (draw_random R) p) as H.
  unfold ensures in *. destruct (via_np _ p) as [e|[a p']]; [exact I|]. apply H.
Qed.

Lemma keeps_choice {A} (a : list A) (pv : option (list Q)) (p : process R) :
  ensures (np_choice a pv) p (fun _ p' => fk_rs p' = fk_rs p).
Proof.
  unfold np_choice. destruct (length a =? 0)%nat; [exact I|].
  eapply ensures_bind with (Q := fun _ p' => fk_rs p' = fk_rs p).
  { apply ensures_lift. reflexivity. }
  intros _ p1 H1.
  eapply ensures_bind; [apply ensures_via_np|].
  cbv beta. intros idx p2 [_ H2].
  destruct (nth_error a idx); [|exact I].
  apply ensures_ret. congruence.
Qed.

Local Ltac keep :=
  eapply ensures_bind;
  [ first [ apply keeps_randint | apply keeps_lognormal | apply keeps_uniform
          | apply keeps_poisson | apply keeps_normal | apply keeps_random
          | apply keeps_choice ]
  | cbv beta; intros ? ? ?;
    repeat match goal with H : _ /\ _ |- _ => destruct H end ].




Lemma make_record_reads (i : nat) (p : profile) (c : string) (s : process R) :
  ensures (make_record i p c) s
    (fun r s' =>
       dict_get "Credit_Score" r = Some (VStr c) /\
       dict_get "Age" r = Some (VInt (age p)) /\
       dict_get "Name" r = Some (VStr (fst (fk_name R (fk_rs s)))) /\
       fk_rs s' = snd (fk_ssn R (snd (fk_name R (fk_rs s))))).
Proof.
  unfold make_record. keep.
  eapply ensures_bind; [apply ensures_via_fk|].
  cbv beta. intros name s1 [Hname H1].
  eapply ensures_bind; [apply ensures_via_fk|].
  cbv beta. intros ssn s2 [_ H2].
  keep. keep. keep. keep. keep. keep.
  apply ensures_ret. repeat split.
  - cbn. rewrite Hname. congruence.
  - congruence.
Qed.

(** The steps of the body of the loop behind one record. *)
Lemma gen_record_steps (i : nat) (s s' : process R) (r : record) :
  gen_record i s = inr (r, s') ->
  exists p s1 score s2 label s3,
    draw_profile s = inr (p, s1) /\
    credit_score_numeric p s1 = inr (score, s2) /\
    label_noise (categorize score) s2 = inr (label, s3) /\
    make_record i p label s3 = inr (r, s').
Proof.
  unfold gen_record, bind.
  destruct (draw_profile s) as [e|[p s1]] eqn:E1; [discriminate|].
  destruct (credit_score_numeric p s1) as [e|[score s2]] eqn:E2; [discriminate|].
  destruct (label_noise (categorize score) s2) as [e|[label s3]] eqn:E3;
    [discriminate|].
  intros E. exists p, s1, score, s2, label, s3. auto.
Qed.


End Reads.

Section Trace.
Context {R : Runtime} (HL : RuntimeLaws R).

(** The generator states between the iterations of the loop. *)
Lemma gen_loop_trace (count start : nat) (data : list record) (s : process R) :
  exists new s' (st : nat -> process R),
    gen_loop count start data s = inr (data ++ new, s') /\
    length new = count /\ st 0%nat = s /\ st count = s' /\
    forall k, (k < count)%nat ->
      exists r, nth_error new k = Some r /\
                gen_record (start + k) (st k) = inr (r, st (S k)) /\
                record_ok (start + k) r.
Proof.
  revert start data s. induction count as [|count IH]; intros start data s.
  - exists [], s, (fun _ => s). cbn [gen_loop]. rewrite app_nil_r.
    repeat split. intros k Hk. lia.
  - cbn [gen_loop]. unfold bind.
    pose proof (returns_gen_record HL start s) as Hr.
    apply returns_inv in Hr. destruct Hr as (r & s1 & E & Hok).
    rewrite E.
    destruct (IH (S start) (data ++ [r]) s1)
      as (new & s' & st & E' & Hlen & H0 & Hn & Hall).
    exists (r :: new), s', (fun k => match k with O => s | S k' => st k' end).
    rewrite E', <- app_assoc. split; [reflexivity|].
    split; [cbn; now rewrite Hlen|]. split; [reflexivity|].
    split; [exact Hn|].
    intros [|k] Hk.
    + exists r. rewrite Nat.add_0_r. cbn [nth_error]. rewrite H0.
      split; [reflexivity|]. split; [exact E|exact Hok].
    + destruct (Hall k ltac:(lia)) as (r' & Hr' & Er' & Hok').
      exists r'. replace (start + S k)%nat with (S start + k)%nat by lia.
      cbn [nth_error]. split; [exact Hr'|]. split; [exact Er'|exact Hok'].
Qed.

(** Every row of a generated frame is the record of one run of the body
    of the loop, from the state the run before it left. *)
Lemma generate_trace (n : Z) (s : process R) :
  exists df s' (st : nat -> process R),
    generate_credit_score_data n s = inr (df, s') /\
    st 0%nat = s /\ st (Z.to_nat n) = s' /\
    forall i, (i < Z.to_nat n)%nat ->
      exists r, gen_record i (st i) = inr (r, st (S i)) /\
                record_ok i r /\
                forall c, In c record_columns -> cell df i c = dict_get c r.
Proof.
  destruct (gen_loop_trace (Z.to_nat n) 0 [] s)
    as (data & s' & st & E & Hlen & H0 & Hn & Hall).
  cbn [app] in E.
  exists (pd_DataFrame data), s', st.
  split; [unfold generate_credit_score_data, bind; rewrite E; reflexivity|].
  split; [exact H0|]. split; [exact Hn|].
  assert (Hcols : Forall has_columns data).
  { apply List.Forall_forall. intros r Hr.
    apply In_nth_error in Hr. destruct Hr as [k Hk].
    assert (Hk' : (k < Z.to_nat n)%nat).
    { rewrite <- Hlen. apply nth_error_Some. congruence. }
    destruct (Hall k Hk') as (r' & Hr' & _ & Hok).
    rewrite Hk in Hr'. injection Hr' as <-. now destruct Hok. }
  intros i Hi. destruct (Hall i Hi) as (r & Hr & Er & Hok).
  exists r. split; [exact Er|]. split; [exact Hok|].
  intros c Hc. apply cell_pd_DataFrame; [exact Hr|].
  rewrite unique_keys_records; [exact Hc| |exact Hcols].
  intros ->. destruct i; discriminate.
Qed.

End Trace.

(** * The claims *)

(** ** C1: the shape of the generated table *)

Lemma generate_zero (R : Runtime) (s : process R) :
  generate_credit_score_data 0 s = inr ({| columns := []; rows := [] |}, s).
Proof. reflexivity. Qed.

(** C1 as stated does not hold: for [n_samples = 0] the loop body never
    runs, [pd.DataFrame] receives the empty list and the frame it returns
    has no rows and no columns, so its header is not the 28 fields. *)
Lemma generate_zero_lacks_columns :
  ~ (exists df s',
       generate_credit_score_data (R := Toy.runtime) 0 Toy.seeded = inr (df, s') /\
       length (rows df) = 0%nat /\
       columns df = record_columns).
Proof.
  intros (df & s' & E & _ & Hc). rewrite generate_zero in E.
  injection E as <- _. discriminate Hc.
Qed.

(** C1, amended: for every [n_samples >= 0] the call returns, without an
    exception, a frame with exactly [n_samples] rows, each row as wide as
    the header; the header is the 28 fields of the record in their order
    when [n_samples >= 1] and is empty when [n_samples = 0]. *)
Theorem generate_rows_and_columns (R : Runtime) (HL : RuntimeLaws R)
  (n_samples : Z) (s : process R) :
  (0 <= n_samples)%Z ->
  exists df s',
    generate_credit_score_data n_samples s = inr (df, s') /\
    Z.of_nat (length (rows df)) = n_samples /\
    columns df = (if (n_samples =? 0)%Z then [] else record_columns) /\
    forall row, In row (rows df) -> length row = length (columns df).
Proof.
  intros Hn.
  destruct (generate_frame HL n_samples s) as (df & s' & E & Hrows & Hcols & Hw & _).
  exists df, s'. split; [exact E|]. split; [lia|]. split; [|exact Hw].
  rewrite Hcols.
  destruct (Z.eqb_spec n_samples 0) as [->|Hne]; [reflexivity|].
  destruct (Nat.eqb_spec (Z.to_nat n_samples) 0); [lia|reflexivity].
Qed.

Lemma generate_rows_and_columns_witness :
  exists df s',
    generate_credit_score_data (R := Toy.runtime) 2 Toy.seeded = inr (df, s') /\
    Z.of_nat (length (rows df)) = 2%Z /\
    columns df = record_columns /\
    forall row, In row (rows df) -> length row = length (columns df).
Proof.
  apply (generate_rows_and_columns Toy.runtime toy_laws 2 Toy.seeded). lia.
Defined.

(** ** C2: the category of the score *)

Lemma label_noise_unfold (R : Runtime) (c : string) (s : process R) :
  label_noise c s =
  let s1 := {| np_rs := snd (draw_random R (np_rs s));
               py_rs := py_rs s; fk_rs := fk_rs s |} in
  if Qlt_bool (fst (draw_random R (np_rs s))) 0.1
  then np_choice score_labels None s1
  else inr (c, s1).
Proof.
  unfold label_noise, bind, np_random, via_np.
  destruct (draw_random R (np_rs s)) as [u np']. cbn [fst snd].
  destruct (Qlt_bool u 0.1); reflexivity.
Qed.

(** C2. The score is mapped to Good from 70, to Standard from 40 and to
    Poor below.  Every row of every generated frame is the record of one
    run of the body of the loop, started in the state the run before it
    left: the run draws a profile, computes the numeric score of that
    profile, maps that score to its label, keeps the label when the draw
    of [np.random.random()] is not below 0.1 and otherwise replaces it by
    a draw of [np.random.choice] without weights among Good, Standard and
    Poor, and builds the record from that profile and that label.  The
    Credit_Score cell of the row is that label, and it is one of Poor,
    Standard and Good. *)
Theorem credit_score_category (R : Runtime) (HL : RuntimeLaws R) :
  (forall x, (70 <= x)%Q -> categorize x = "Good"%string) /\
  (forall x, (40 <= x)%Q -> (x < 70)%Q -> categorize x = "Standard"%string) /\
  (forall x, (x < 40)%Q -> categorize x = "Poor"%string) /\
  (forall (n_samples : Z) (s : process R),
      exists df s' (st : nat -> process R),
        generate_credit_score_data n_samples s = inr (df, s') /\
        st 0%nat = s /\ st (Z.to_nat n_samples) = s' /\
        forall i, (i < Z.to_nat n_samples)%nat ->
          exists p s1 score s2 label s3 r,
            draw_profile (st i) = inr (p, s1) /\
            credit_score_numeric p s1 = inr (score, s2) /\
            label_noise (categorize score) s2 = inr (label, s3) /\
            make_record i p label s3 = inr (r, st (S i)) /\
            (forall c, In c record_columns -> cell df i c = dict_get c r) /\
            cell df i "Credit_Score" = Some (VStr label) /\
            (let u := fst (draw_random R (np_rs s2)) in
             let s2' := {| np_rs := snd (draw_random R (np_rs s2));
                           py_rs := py_rs s2; fk_rs := fk_rs s2 |} in
             ((0.1 <= u)%Q -> label = categorize score /\ s3 = s2') /\
             ((u < 0.1)%Q ->
              np_choice ["Good"; "Standard"; "Poor"]%string None s2'
              = inr (label, s3))) /\
            (label = "Poor" \/ label = "Standard" \/ label = "Good")%string).
Proof.
  split; [|split; [|split]].
  - intros x H. unfold categorize.
    apply Qle_bool_iff in H. now rewrite H.
  - intros x H40 H70. unfold categorize.
    replace (Qle_bool 70 x) with false.
    + apply Qle_bool_iff in H40. now rewrite H40.
    + symmetry. apply Qlt_bool_true in H70. unfold Qlt_bool in H70.
      now apply negb_true_iff in H70.
  - intros x H. unfold categorize.
    assert (H70 : Qle_bool 70 x = false).
    { apply not_true_is_false. intros E. apply Qle_bool_iff in E. lra. }
    assert (H40 : Qle_bool 40 x = false).
    { apply not_true_is_false. intros E. apply Qle_bool_iff in E. lra. }
    now rewrite H70, H40.
  - intros n_samples s.
    destruct (generate_trace HL n_samples s) as (df & s' & st & E & H0 & Hn & H).
    exists df, s', st. split; [exact E|]. split; [exact H0|]. split; [exact Hn|].
    intros i Hi. destruct (H i Hi) as (r & Er & Hok & Hcells).
    destruct (gen_record_steps i _ _ r Er)
      as (p & s1 & score & s2 & label & s3 & E1 & E2 & E3 & E4).
    exists p, s1, score, s2, label, s3, r.
    split; [exact E1|]. split; [exact E2|]. split; [exact E3|].
    split; [exact E4|]. split; [exact Hcells|].
    destruct (ensures_inv _ _ _ _ _ (make_record_reads i p label s3) E4)
      as (Hlabel & _).
    assert (Hcell : cell df i "Credit_Score" = Some (VStr label)).
    { rewrite Hcells; [exact Hlabel|]. cbn. tauto. }
    split; [exact Hcell|]. split.
    + cbv zeta. rewrite label_noise_unfold in E3. cbv zeta in E3. split.
      * intros Hu. apply Qlt_bool_false in Hu. rewrite Hu in E3.
        injection E3 as <- <-. split; reflexivity.
      * intros Hu. apply Qlt_bool_true in Hu. rewrite Hu in E3. exact E3.
    + destruct Hok as (_ & _ & _ & (c & Hc & Hin)).
      rewrite Hlabel in Hc. injection Hc as <-. exact Hin.
Qed.

Lemma credit_score_category_witness :
  (forall x, (x < 40)%Q -> categorize x = "Poor"%string) /\
  exists df s',
    generate_credit_score_data (R := Toy.runtime) 2 Toy.seeded = inr (df, s') /\
    forall i, (i < 2)%nat -> field_label (cell df i).
Proof.
  destruct (credit_score_category Toy.runtime toy_laws) as (_ & _ & H3 & H4).
  split; [exact H3|].
  destruct (H4 2%Z Toy.seeded) as (df & s' & st & E & _ & _ & H).
  exists df, s'. split; [exact E|]. intros i Hi.
  destruct (H i Hi) as (p & s1 & score & s2 & label & s3 & r & _ & _ & _ & _
                        & _ & Hcell & _ & Hin).
  exists label. split; [exact Hcell|exact Hin].
Defined.

(** ** C3: the numeric score *)

Lemma py_sum_five (a b c d e : Q) :
  (py_sum [a; b; c; d; e] == a + b + c + d + e)%Q.
Proof. unfold py_sum. cbn [fold_left]. ring. Qed.

(** C3. The body of the loop computes the numeric score from the drawn
    profile with [credit_score_numeric]; its value is the sum of the five
    sub-scores of the specification times 100, plus the value of the one
    draw of [np.random.normal(0, 10)], which is the only draw it makes. *)
Theorem credit_score_numeric_formula (R : Runtime) (p : profile) (s : process R) :
  (forall i, gen_record (R := R) i =
             bind draw_profile (fun p =>
             bind (credit_score_numeric p) (fun score =>
             bind (label_noise (categorize score)) (fun credit_score =>
             make_record i p credit_score)))) /\
  exists v,
    credit_score_numeric p s =
      inr (v, {| np_rs := snd (draw_normal R 0 10 (np_rs s));
                 py_rs := py_rs s; fk_rs := fk_rs s |}) /\
    (v == spec_score p (fst (draw_normal R 0 10 (np_rs s))))%Q /\
    (spec_score p (fst (draw_normal R 0 10 (np_rs s))) ==
     (inject_Z (credit_history_age p) / 300 * 0.3
      + (1 - inject_Z (delay_from_due_date p) / 60) * 0.25
      + (if Qlt_bool 0 (annual_income p)
         then (1 - outstanding_debt p / annual_income p) * 0.2 else 0)
      + (if Qlt_bool 0 (monthly_inhand_salary p)
         then monthly_balance p / monthly_inhand_salary p * 0.15 else 0)
      + (1 - inject_Z (num_delayed_payments p) / 10) * 0.1) * 100
     + fst (draw_normal R 0 10 (np_rs s)))%Q.
Proof.
  split; [reflexivity|].
  unfold credit_score_numeric, bind, lift.
  rewrite credit_score_factors_value.
  unfold np_normal, via_np. cbn [Qlt_bool Qle_bool negb].
  change (Qlt_bool 10 0) with false. cbv iota.
  cbv beta.
  destruct (draw_normal R 0 10 (np_rs s)) as [noise np']. cbn [fst snd].
  eexists. split; [reflexivity|]. split.
  - unfold spec_score. rewrite py_sum_five. reflexivity.
  - reflexivity.
Qed.

(** ** C4: the ranges of the fields *)

(** C4. In every row of every generated frame, Age is in [18, 80),
    Num_Bank_Accounts in 1..5, Num_Credit_Card in 0..5, Interest_Rate in
    [5, 25], Delay_from_due_date in 0..59 and Credit_History_Age in
    [6, 300). *)
Theorem generated_field_ranges (R : Runtime) (HL : RuntimeLaws R)
  (n_samples : Z) (s : process R) :
  exists df s',
    generate_credit_score_data n_samples s = inr (df, s') /\
    forall i, (i < Z.to_nat n_samples)%nat ->
      (exists a, cell df i "Age" = Some (VInt a) /\ (18 <= a < 80)%Z) /\
      (exists n, cell df i "Num_Bank_Accounts" = Some (VInt n) /\ (1 <= n <= 5)%Z) /\
      (exists n, cell df i "Num_Credit_Card" = Some (VInt n) /\ (0 <= n <= 5)%Z) /\
      (exists x, cell df i "Interest_Rate" = Some (VFloat x) /\ (5 <= x <= 25)%Q) /\
      (exists d, cell df i "Delay_from_due_date" = Some (VInt d) /\ (0 <= d <= 59)%Z) /\
      (exists h, cell df i "Credit_History_Age" = Some (VInt h) /\ (6 <= h < 300)%Z).
Proof.
  destruct (generate_frame HL n_samples s) as (df & s' & E & _ & _ & _ & H).
  exists df, s'. split; [exact E|]. intros i Hi.
  destruct (H i Hi) as (_ & Hr & _). exact Hr.
Qed.

Lemma generated_field_ranges_witness :
  exists df s',
    generate_credit_score_data (R := Toy.runtime) 2 Toy.seeded = inr (df, s') /\
    forall i, (i < 2)%nat ->
      (exists a, cell df i "Age" = Some (VInt a) /\ (18 <= a < 80)%Z) /\
      (exists n, cell df i "Num_Bank_Accounts" = Some (VInt n) /\ (1 <= n <= 5)%Z) /\
      (exists n, cell df i "Num_Credit_Card" = Some (VInt n) /\ (0 <= n <= 5)%Z) /\
      (exists x, cell df i "Interest_Rate" = Some (VFloat x) /\ (5 <= x <= 25)%Q) /\
      (exists d, cell df i "Delay_from_due_date" = Some (VInt d) /\ (0 <= d <= 59)%Z) /\
      (exists h, cell df i "Credit_History_Age" = Some (VInt h) /\ (6 <= h < 300)%Z).
Proof.
  exact (generated_field_ranges Toy.runtime toy_laws 2 Toy.seeded).
Defined.

(** ** C5: two runs with the same seed *)

Lemma run_generate_fresh (R : Runtime) (seed n_samples : Z)
  (fresh1 fresh2 : process R) :
  run_generate seed n_samples fresh1 = run_generate seed n_samples fresh2.
Proof. reflexivity. Qed.

(** C5. For every seed and every [n_samples], two runs that each start in
    a new process (whatever the generators of that process hold before
    the module seeds them) return the same frame: the run returns a frame
    [df], both runs return it, and so every cell of every row agrees; the
    two runs of the whole script on the same disk agree as well. *)
Theorem same_seed_same_output (R : Runtime) (HL : RuntimeLaws R)
  (seed n_samples : Z) (fresh1 fresh2 : process R) (fs : filesystem) :
  run_generate seed n_samples fresh1 = run_generate seed n_samples fresh2 /\
  run_script seed n_samples fresh1 fs = run_script seed n_samples fresh2 fs /\
  exists df1 df2 s1 s2,
    run_generate seed n_samples fresh1 = inr (df1, s1) /\
    run_generate seed n_samples fresh2 = inr (df2, s2) /\
    length (rows df1) = Z.to_nat n_samples /\
    columns df1 = columns df2 /\
    forall i c, cell df1 i c = cell df2 i c.
Proof.
  split; [reflexivity|]. split; [reflexivity|].
  destruct (generate_frame HL n_samples (seed_all seed fresh1))
    as (df & s' & E & Hrows & _).
  exists df, df, s', s'. split; [exact E|]. split; [exact E|].
  split; [exact Hrows|]. split; reflexivity.
Qed.

Lemma same_seed_same_output_witness :
  run_generate (R := Toy.runtime) 42 2 (Toy.fresh 7) =
  run_generate (R := Toy.runtime) 42 2 (Toy.fresh 1234).
Proof.
  exact (proj1 (same_seed_same_output Toy.runtime toy_laws 42 2
                  (Toy.fresh 7) (Toy.fresh 1234)
                  {| cwd_writable := true; entries := ∅ |})).
Defined.

(** ** C6: generation never raises *)

Lemma debt_ratio_factor_total (debt income : Q) :
  exists v, debt_ratio_factor debt income = inr v.
Proof.
  unfold debt_ratio_factor. destruct (Qlt_bool 0 income) eqn:E; [|eauto].
  apply Qlt_bool_true in E. rewrite py_div_nonzero by lra. cbn. eauto.
Qed.

Lemma balance_ratio_factor_total (balance salary : Q) :
  exists v, balance_ratio_factor balance salary = inr v.
Proof.
  unfold balance_ratio_factor. destruct (Qlt_bool 0 salary) eqn:E; [|eauto].
  apply Qlt_bool_true in E. rewrite py_div_nonzero by lra. cbn. eauto.
Qed.

(** C6. Every call of the generator and every run of the loop body returns
    a value: no draw and no division raises.  The two guarded sub-scores
    are 0 whenever the denominator is not strictly positive, also at the
    denominator 0 where the division itself raises, and they return a
    value for every denominator. *)
Theorem generation_never_raises (R : Runtime) (HL : RuntimeLaws R) :
  (forall (n_samples : Z) (s : process R),
      exists df s', generate_credit_score_data n_samples s = inr (df, s')) /\
  (forall (i : nat) (s : process R),
      exists r s', gen_record i s = inr (r, s')) /\
  (forall debt income : Q,
      ~ (0 < income)%Q -> debt_ratio_factor debt income = inr 0%Q) /\
  (forall balance salary : Q,
      ~ (0 < salary)%Q -> balance_ratio_factor balance salary = inr 0%Q) /\
  (forall debt income : Q, exists v, debt_ratio_factor debt income = inr v) /\
  (forall balance salary : Q,
      exists v, balance_ratio_factor balance salary = inr v) /\
  (forall x : Q, py_div x 0 = inl ZeroDivisionError).
Proof.
  split; [|split; [|split; [|split; [|split; [|split]]]]].
  - intros n_samples s.
    destruct (generate_frame HL n_samples s) as (df & s' & E & _).
    eauto.
  - intros i s. pose proof (returns_gen_record HL i s) as H.
    apply returns_inv in H. destruct H as (r & s' & E & _). eauto.
  - intros debt income H. unfold debt_ratio_factor.
    destruct (Qlt_bool 0 income) eqn:E; [|reflexivity].
    apply Qlt_bool_true in E. contradiction.
  - intros balance salary H. unfold balance_ratio_factor.
    destruct (Qlt_bool 0 salary) eqn:E; [|reflexivity].
    apply Qlt_bool_true in E. contradiction.
  - apply debt_ratio_factor_total.
  - apply balance_ratio_factor_total.
  - reflexivity.
Qed.

Lemma generation_never_raises_witness :
  (exists df s',
      generate_credit_score_data (R := Toy.runtime) 2 Toy.seeded = inr (df, s')) /\
  debt_ratio_factor 5 0 = inr 0%Q.
Proof.
  destruct (generation_never_raises Toy.runtime toy_laws) as (H1 & _ & H3 & _).
  split; [exact (H1 2%Z Toy.seeded)|].
  apply H3. intros H. discriminate H.
Defined.

(** ** C9: the identifiers *)

Example format_06x_255 : format_06x 255 = "0000ff"%string.
Proof. reflexivity. Qed.

Example format_08d_42 : format_08d 42 = "00000042"%string.
Proof. reflexivity. Qed.

Example zfill_wide : zfill 2 "1f4" = "1f4"%string.
Proof. reflexivity. Qed.

Lemma read_hex_zeros (k : nat) (s : string) :
  read_hex (String.append (string_of_list_ascii (repeat "0"%char k)) s) = read_hex s.
Proof.
  induction k as [|k IH]; [reflexivity|].
  unfold read_hex in *.
  change (String.append (string_of_list_ascii (repeat "0"%char (S k))) s)
    with (String "0" (String.append (string_of_list_ascii (repeat "0"%char k)) s)).
  cbn [HexadecimalString.NilEmpty.uint_of_string].
  destruct (HexadecimalString.NilEmpty.uint_of_string
              (String.append (string_of_list_ascii (repeat "0"%char k)) s)) as [d|];
    cbn [HexadecimalString.uint_of_char]; [|exact IH].
  change (Nat.of_hex_uint (Hexadecimal.D0 d)) with (Nat.of_hex_uint d).
  exact IH.
Qed.

Lemma read_dec_zeros (k : nat) (s : string) :
  read_dec (String.append (string_of_list_ascii (repeat "0"%char k)) s) = read_dec s.
Proof.
  induction k as [|k IH]; [reflexivity|].
  unfold read_dec in *.
  change (String.append (string_of_list_ascii (repeat "0"%char (S k))) s)
    with (String "0" (String.append (string_of_list_ascii (repeat "0"%char k)) s)).
  cbn [DecimalString.NilEmpty.uint_of_string].
  destruct (DecimalString.NilEmpty.uint_of_string
              (String.append (string_of_list_ascii (repeat "0"%char k)) s)) as [d|];
    cbn [DecimalString.uint_of_char]; [|exact IH].
  change (Nat.of_uint (Decimal.D0 d)) with (Nat.of_uint d).
  exact IH.
Qed.

Lemma read_hex_digits (n : nat) : read_hex (hex_digits n) = Some n.
Proof.
  unfold read_hex, hex_digits.
  pose proof (HexadecimalNat.Unsigned.of_to n) as H.
  destruct (Nat.to_hex_uint n) as [| | | | | | | | | | | | | | | | ] eqn:E;
    [cbn in *; congruence|..];
    unfold HexadecimalString.NilZero.string_of_uint;
    rewrite HexadecimalString.NilEmpty.usu; now rewrite H.
Qed.

Lemma read_dec_digits (n : nat) : read_dec (dec_digits n) = Some n.
Proof.
  unfold read_dec, dec_digits.
  pose proof (DecimalNat.Unsigned.of_to n) as H.
  destruct (Nat.to_uint n) as [| | | | | | | | | | ] eqn:E;
    [cbn in *; congruence|..];
    unfold DecimalString.NilZero.string_of_uint;
    rewrite DecimalString.NilEmpty.usu; now rewrite H.
Qed.

Lemma format_06x_inj (a b : nat) : format_06x a = format_06x b -> a = b.
Proof.
  intros H. apply (f_equal read_hex) in H. unfold format_06x, zfill in H.
  rewrite !read_hex_zeros, !read_hex_digits in H. congruence.
Qed.

Lemma format_08d_inj (a b : nat) : format_08d a = format_08d b -> a = b.
Proof.
  intros H. apply (f_equal read_dec) in H. unfold format_08d, zfill in H.
  rewrite !read_dec_zeros, !read_dec_digits in H. congruence.
Qed.

(** C9. The ID of row [i] is CUS_0x followed by [i + 1] in hexadecimal
    padded with zeros to six digits, its Customer_ID is CUS_ followed by
    [i + 1] in decimal padded to eight digits; both formats are injective,
    so two different rows of a generated frame never share an ID or a
    Customer_ID. *)
Theorem identifiers_distinct (R : Runtime) (HL : RuntimeLaws R)
  (n_samples : Z) (s : process R) :
  (forall a b, format_06x a = format_06x b -> a = b) /\
  (forall a b, format_08d a = format_08d b -> a = b) /\
  exists df s',
    generate_credit_score_data n_samples s = inr (df, s') /\
    (forall i, (i < Z.to_nat n_samples)%nat ->
       cell df i "ID" =
         Some (VStr (String.append "CUS_0x" (format_06x (i + 1)))) /\
       cell df i "Customer_ID" =
         Some (VStr (String.append "CUS_" (format_08d (i + 1))))) /\
    (forall i j, (i < Z.to_nat n_samples)%nat -> (j < Z.to_nat n_samples)%nat ->
       i <> j ->
       cell df i "ID" <> cell df j "ID" /\
       cell df i "Customer_ID" <> cell df j "Customer_ID").
Proof.
  split; [exact format_06x_inj|]. split; [exact format_08d_inj|].
  destruct (generate_frame HL n_samples s) as (df & s' & E & _ & _ & _ & H).
  exists df, s'. split; [exact E|]. split.
  - intros i Hi. destruct (H i Hi) as (Hid & _). exact Hid.
  - intros i j Hi Hj Hne.
    destruct (H i Hi) as ([Hi1 Hi2] & _).
    destruct (H j Hj) as ([Hj1 Hj2] & _).
    rewrite Hi1, Hi2, Hj1, Hj2. split; intros Heq.
    + injection Heq as Heq. apply format_06x_inj in Heq. lia.
    + injection Heq as Heq. apply format_08d_inj in Heq. lia.
Qed.

Lemma identifiers_distinct_witness :
  exists df s',
    generate_credit_score_data (R := Toy.runtime) 3 Toy.seeded = inr (df, s') /\
    cell df 0 "ID" <> cell df 2 "ID" /\
    cell df 0 "Customer_ID" <> cell df 2 "Customer_ID".
Proof.
  destruct (identifiers_distinct Toy.runtime toy_laws 3 Toy.seeded)
    as (_ & _ & df & s' & E & _ & H).
  exists df, s'. split; [exact E|].
  apply H; [cbn; lia|cbn; lia|discriminate].
Defined.

(** ** C10: the generator state is ambient *)




(** ** C7: the output directory and the errors of the disk *)

Lemma os_mkdir_is_dir (p : path) (fs fs' : filesystem) :
  os_mkdir p fs = inr fs' -> is_dir p fs' = true.
Proof.
  unfold os_mkdir. destruct (fs_lookup p fs) as [n|] eqn:E; [discriminate|].
  destruct (fs_lookup (parent p) fs) as [[[|]|]|]; try discriminate.
  intros [= <-]. destruct p as [|x p]; [discriminate E|].
  unfold is_dir, fs_lookup, fs_insert. cbn [entries].
  now rewrite lookup_insert_eq.
Qed.

Lemma mkdir_single_is_dir (exist_ok : bool) (p : path) (fs fs' : filesystem) :
  mkdir_single exist_ok p fs = inr fs' -> is_dir p fs' = true.
Proof.
  unfold mkdir_single. destruct (os_mkdir p fs) as [e|fs1] eqn:E.
  - destruct e; try discriminate;
      destruct (negb exist_ok || negb (is_dir p fs)) eqn:C; try discriminate;
      intros [= <-]; apply orb_false_iff in C; destruct C as [_ C];
      now apply negb_false_iff in C.
  - intros [= <-]. eapply os_mkdir_is_dir. exact E.
Qed.

Lemma mkdir_parents_is_dir (exist_ok : bool) (p : path) (fs fs' : filesystem) :
  mkdir_parents exist_ok p fs = inr fs' -> is_dir p fs' = true.
Proof.
  destruct p as [|x up]; cbn [mkdir_parents];
    destruct (os_mkdir _ fs) as [e|fs1] eqn:E.
  1,3: destruct e; try discriminate;
      try (destruct (negb exist_ok || negb (is_dir _ fs)) eqn:C; try discriminate;
           intros [= <-]; apply orb_false_iff in C; destruct C as [_ C];
           now apply negb_false_iff in C).
  - destruct (mkdir_parents true up fs) as [e|fs2]; [discriminate|].
    apply mkdir_single_is_dir.
  - intros [= <-]. eapply os_mkdir_is_dir. exact E.
  - intros [= <-]. eapply os_mkdir_is_dir. exact E.
Qed.

Lemma script_steps (R : Runtime) (n_samples : Z) (w : world R)
  (df : DataFrame) (p' : process R) :
  generate_credit_score_data n_samples (proc w) = inr (df, p') ->
  script n_samples w =
  match path_mkdir true true output_dir (disk w) with
  | inl e => inl e
  | inr fs1 =>
      match to_csv df output_path fs1 with
      | inl e => inl e
      | inr fs2 =>
          match df_getitem df "Credit_Score" with
          | inl e => inl e
          | inr _ => inr (df, {| proc := p'; disk := fs2 |})
          end
      end
  end.
Proof.
  intros E. unfold script, bind, on_proc, on_disk, lift, ret. rewrite E.
  cbn [proc disk].
  destruct (path_mkdir true true output_dir (disk w)) as [e|fs1]; [reflexivity|].
  cbn [proc disk].
  destruct (to_csv df output_path fs1) as [e|fs2]; [reflexivity|].
  destruct (df_getitem df "Credit_Score"); reflexivity.
Qed.

Lemma to_csv_writes (df : DataFrame) (p : path) (fs fs' : filesystem) :
  to_csv df p fs = inr fs' -> fs' = fs_insert p (File true df) fs.
Proof.
  unfold to_csv.
  destruct (fs_lookup (parent p) fs) as [[wr|? ?]|]; try discriminate.
  destruct (fs_lookup p fs) as [[?|[|] ?]|]; try discriminate.
  - now intros [= <-].
  - destruct wr; [|discriminate]. now intros [= <-].
Qed.

Lemma to_csv_raises (df : DataFrame) (p : path) (fs : filesystem) (e : exn) :
  is_dir (parent p) fs = true ->
  to_csv df p fs = inl e ->
  (e = IsADirectoryError /\ is_dir p fs = true) \/
  (e = PermissionError /\
   ((exists t, fs_lookup p fs = Some (File false t)) \/
    (fs_lookup p fs = None /\ fs_lookup (parent p) fs = Some (Dir false)))).
Proof.
  unfold to_csv, is_dir.
  destruct (fs_lookup (parent p) fs) as [[wr|? ?]|]; try discriminate.
  intros _.
  destruct (fs_lookup p fs) as [[?|[|] t]|]; try discriminate.
  - intros [= <-]. now left.
  - intros [= <-]. right. split; [reflexivity|]. left. eauto.
  - destruct wr; [discriminate|]. intros [= <-]. right. auto.
Qed.

Lemma path_mkdir_fresh (fs : filesystem) :
  cwd_writable fs = true ->
  fs_lookup ["data"%string] fs = None ->
  fs_lookup output_dir fs = None ->
  path_mkdir true true output_dir fs =
    inr (fs_insert output_dir (Dir true)
           (fs_insert ["data"%string] (Dir true) fs)).
Proof.
  intros Hw Hdata Hraw. cbn [fs_lookup output_dir] in Hdata, Hraw.
  unfold path_mkdir, output_dir. cbn [mkdir_parents].
  unfold os_mkdir at 1. cbn [fs_lookup parent tail].
  unfold output_dir, path in *. rewrite Hraw, Hdata.
  unfold os_mkdir at 1. cbn [fs_lookup parent tail].
  unfold path in *. rewrite Hdata, Hw.
  unfold mkdir_single, os_mkdir. cbn [fs_lookup parent tail fs_insert entries].
  unfold path in *.
  rewrite lookup_insert_ne by discriminate. rewrite Hraw.
  now rewrite lookup_insert_eq.
Qed.

Lemma path_mkdir_existing (fs : filesystem) :
  is_dir output_dir fs = true -> path_mkdir true true output_dir fs = inr fs.
Proof.
  intros Hdir. unfold path_mkdir, output_dir in *. cbn [mkdir_parents].
  unfold is_dir in Hdir. unfold os_mkdir.
  destruct (fs_lookup ["raw"%string; "data"%string] fs) as [[wr|? t]|] eqn:L;
    try discriminate.
  unfold is_dir. rewrite L. reflexivity.
Qed.

Lemma written_file (df : DataFrame) (fs : filesystem) :
  is_dir output_dir fs = true ->
  is_dir output_dir (fs_insert output_path (File true df) fs) = true /\
  fs_lookup output_path (fs_insert output_path (File true df) fs)
  = Some (File true df).
Proof.
  intros Hdir. split.
  - unfold is_dir, output_path, joinpath, output_dir in *.
    cbn [fs_lookup fs_insert entries] in *. unfold path in *.
    now rewrite lookup_insert_ne by discriminate.
  - unfold fs_lookup, output_path, joinpath, fs_insert. cbn [entries].
    now rewrite lookup_insert_eq.
Qed.

(** C7. A run of the script that returns has made the output directory
    (with its parents, an existing directory being accepted) and then
    written the table into the file under it: on the disk it leaves,
    [data/raw] is a directory and the file holds the frame; on a disk
    with a writable current directory and nothing at [data] this is what
    a run for at least one sample does.  An error of the directory step
    is the outcome of the script.  When the directory step has returned
    the write raises neither FileNotFoundError nor NotADirectoryError,
    the directory being there: it raises only when the path is a
    directory, when the file is there and may not be written, or when it
    is not there and the directory may not be written; that error too is
    the outcome of the script: nothing catches it and nothing is tried
    again. *)
Theorem output_directory_and_disk_errors (R : Runtime) (HL : RuntimeLaws R)
  (n_samples : Z) (w : world R) :
  exists df p',
    generate_credit_score_data n_samples (proc w) = inr (df, p') /\
    (forall df' w',
        script n_samples w = inr (df', w') ->
        df' = df /\ proc w' = p' /\
        exists fs1,
          path_mkdir true true output_dir (disk w) = inr fs1 /\
          is_dir output_dir fs1 = true /\
          to_csv df output_path fs1 = inr (disk w') /\
          disk w' = fs_insert output_path (File true df) fs1 /\
          is_dir output_dir (disk w') = true /\
          fs_lookup output_path (disk w') = Some (File true df)) /\
    ((1 <= n_samples)%Z ->
     cwd_writable (disk w) = true ->
     fs_lookup ["data"%string] (disk w) = None ->
     fs_lookup output_dir (disk w) = None ->
     fs_lookup output_path (disk w) = None ->
     script n_samples w
     = inr (df, {| proc := p';
                   disk := fs_insert output_path (File true df)
                             (fs_insert output_dir (Dir true)
                                (fs_insert ["data"%string] (Dir true) (disk w))) |})) /\
    (is_dir output_dir (disk w) = true ->
     path_mkdir true true output_dir (disk w) = inr (disk w)) /\
    (forall e, path_mkdir true true output_dir (disk w) = inl e ->
               script n_samples w = inl e) /\
    (forall fs1 e,
        path_mkdir true true output_dir (disk w) = inr fs1 ->
        to_csv df output_path fs1 = inl e ->
        script n_samples w = inl e /\
        e <> FileNotFoundError /\ e <> NotADirectoryError /\
        ((e = IsADirectoryError /\ is_dir output_path fs1 = true) \/
         (e = PermissionError /\
          ((exists t, fs_lookup output_path fs1 = Some (File false t)) \/
           (fs_lookup output_path fs1 = None /\
            fs_lookup output_dir fs1 = Some (Dir false)))))).
Proof.
  destruct (generate_frame HL n_samples (proc w))
    as (df & p' & E & _ & Hcols & _).
  exists df, p'. split; [exact E|].
  pose proof (script_steps R n_samples w df p' E) as Hs.
  split; [|split; [|split; [|split]]].
  - intros df' w' Hret. rewrite Hs in Hret.
    destruct (path_mkdir true true output_dir (disk w)) as [e|fs1] eqn:H1;
      [discriminate|].
    destruct (to_csv df output_path fs1) as [e|fs2] eqn:H2; [discriminate|].
    destruct (df_getitem df "Credit_Score") as [e|col]; [discriminate|].
    injection Hret as <- <-. split; [reflexivity|]. split; [reflexivity|].
    assert (Hdir : is_dir output_dir fs1 = true).
    { unfold path_mkdir in H1. eapply mkdir_parents_is_dir. exact H1. }
    pose proof (to_csv_writes _ _ _ _ H2) as ->.
    destruct (written_file df fs1 Hdir) as [Hd Hf].
    exists fs1. cbn [disk]. auto 10.
  - intros Hn Hw Hdata Hraw Hfile. rewrite Hs.
    rewrite (path_mkdir_fresh (disk w) Hw Hdata Hraw).
    set (fs1 := fs_insert output_dir (Dir true)
                  (fs_insert ["data"%string] (Dir true) (disk w))).
    assert (H2 : to_csv df output_path fs1
                 = inr (fs_insert output_path (File true df) fs1)).
    { unfold to_csv, fs1, output_path, joinpath, output_dir in *.
      cbn [parent tail fs_lookup fs_insert entries] in *. unfold path in *.
      rewrite lookup_insert_eq.
      rewrite !lookup_insert_ne by discriminate. rewrite Hfile. reflexivity. }
    rewrite H2. unfold df_getitem. rewrite Hcols.
    destruct (Nat.eqb_spec (Z.to_nat n_samples) 0); [lia|]. reflexivity.
  - apply path_mkdir_existing.
  - intros e He. rewrite Hs, He. reflexivity.
  - intros fs1 e H1 H2.
    assert (Hdir : is_dir output_dir fs1 = true).
    { unfold path_mkdir in H1. eapply mkdir_parents_is_dir. exact H1. }
    split; [rewrite Hs, H1, H2; reflexivity|].
    destruct (to_csv_raises df output_path fs1 e Hdir H2)
      as [[-> Hd]|[-> Hp]].
    + split; [discriminate|]. split; [discriminate|]. left. auto.
    + split; [discriminate|]. split; [discriminate|]. right. auto.
Qed.

Lemma output_directory_and_disk_errors_witness :
  exists df w',
    script (R := Toy.runtime) 1 Toy.world0 = inr (df, w') /\
    is_dir output_dir (disk w') = true /\
    fs_lookup output_path (disk w') = Some (File true df).
Proof.
  destruct (output_directory_and_disk_errors Toy.runtime toy_laws 1 Toy.world0)
    as (df & p' & _ & Hret & Hfresh & _).
  specialize (Hfresh ltac:(lia) eq_refl eq_refl eq_refl eq_refl).
  destruct (Hret _ _ Hfresh) as (_ & _ & fs1 & _ & _ & _ & _ & Hd & Hf).
  eexists df, _. split; [exact Hfresh|]. split; [exact Hd|exact Hf].
Defined.

(** ** C8: unseen categories in [prepare_input_data] *)

Lemma dict_get_set_eq (key : string) (v : pyval) (d : record) :
  dict_get key (dict_set key v d) = Some v.
Proof.
  unfold dict_set, dict_get.
  destruct (existsb (fun kv => String.eqb (fst kv) key) d) eqn:E.
  - induction d as [|[k x] d IH]; [discriminate|].
    cbn [existsb map find fst snd] in *. revert E.
    destruct (String.eqb k key) eqn:Hk; cbn [fst snd orb]; rewrite Hk.
    + reflexivity.
    + exact IH.
  - induction d as [|[k x] d IH].
    + cbn. now rewrite String.eqb_refl.
    + cbn [existsb app find fst snd] in *.
      apply orb_false_iff in E. destruct E as [E1 E2].
      rewrite E1. now apply IH.
Qed.

Lemma dict_get_set_ne (key key' : string) (v : pyval) (d : record) :
  key' <> key -> dict_get key' (dict_set key v d) = dict_get key' d.
Proof.
  intros Hne. unfold dict_set, dict_get.
  destruct (existsb (fun kv => String.eqb (fst kv) key) d).
  - induction d as [|[k x] d IH]; [reflexivity|].
    cbn [map find fst snd].
    destruct (String.eqb_spec k key) as [->|Hk]; cbn [fst snd].
    + apply not_eq_sym in Hne. apply String.eqb_neq in Hne. rewrite Hne.
      exact IH.
    + destruct (String.eqb k key'); [reflexivity|exact IH].
  - induction d as [|[k x] d IH].
    + cbn. apply not_eq_sym in Hne. apply String.eqb_neq in Hne.
      now rewrite Hne.
    + cbn [app find fst snd].
      destruct (String.eqb k key'); [reflexivity|exact IH].
Qed.

Lemma encode_column_unseen (pp : gmap string pyobject) (col : string)
  (input_df : record) (v : pyval) (encoder : pyobject)
  (f : list pyval -> result (list pyval)) (msg : string) :
  dict_get col input_df = Some v ->
  pp !! col = Some encoder ->
  transform encoder = Some f ->
  f [v] = inl (ValueError msg) ->
  encode_column pp col input_df = inr (dict_set col (VInt 0) input_df).
Proof.
  intros Hv Hp Ht Hf. unfold encode_column. rewrite Hv, Hp, Ht, Hf.
  reflexivity.
Qed.

Lemma encode_column_returns (pp : gmap string pyobject) (col : string)
  (input_df : record) :
  (forall o, pp !! col = Some o -> raises_only_ValueError o) ->
  exists input_df',
    encode_column pp col input_df = inr input_df' /\
    forall k, k <> col -> dict_get k input_df' = dict_get k input_df.
Proof.
  intros Hok. unfold encode_column.
  destruct (dict_get col input_df) as [v|]; [|eauto].
  destruct (pp !! col) as [encoder|] eqn:Hp; [|eauto].
  destruct (transform encoder) as [f|] eqn:Ht; [|eauto].
  destruct (f [v]) as [e|codes] eqn:Hf; cbn [rbind].
  - destruct (Hok encoder eq_refl f [v] e Ht Hf) as [msg ->].
    eexists. split; [reflexivity|]. intros k Hk. now apply dict_get_set_ne.
  - unfold assign_column. destruct codes as [|c [|c' codes]].
    + eexists. split; [reflexivity|]. intros k Hk. now apply dict_get_set_ne.
    + eexists. split; [reflexivity|]. intros k Hk. now apply dict_get_set_ne.
    + eexists. split; [reflexivity|]. intros k Hk. now apply dict_get_set_ne.
Qed.

Lemma encode_columns_unseen (pp : gmap string pyobject) (cols : list string)
  (col : string) (input_df : record) (v : pyval) (encoder : pyobject)
  (f : list pyval -> result (list pyval)) (msg : string) :
  List.NoDup cols -> In col cols ->
  (forall c o, pp !! c = Some o -> raises_only_ValueError o) ->
  dict_get col input_df = Some v ->
  pp !! col = Some encoder ->
  transform encoder = Some f ->
  f [v] = inl (ValueError msg) ->
  exists input_df',
    encode_columns pp cols input_df = inr input_df' /\
    dict_get col input_df' = Some (VInt 0).
Proof.
  intros Hnd Hin Hok Hv Hp Ht Hf. revert input_df Hv.
  induction cols as [|c cols IH]; intros input_df Hv; [contradiction|].
  apply List.NoDup_cons_iff in Hnd. destruct Hnd as [Hc Hnd].
  cbn [encode_columns]. destruct (String.eqb_spec c col) as [->|Hne].
  - rewrite (encode_column_unseen pp col input_df v encoder f msg Hv Hp Ht Hf).
    cbn [rbind]. clear IH Hin.
    assert (H0 : dict_get col (dict_set col (VInt 0) input_df) = Some (VInt 0))
      by apply dict_get_set_eq.
    revert H0. generalize (dict_set col (VInt 0) input_df). clear Hv.
    induction cols as [|c' cols IH]; intros d Hd.
    + cbn. eauto.
    + cbn [encode_columns].
      destruct (encode_column_returns pp c' d (Hok c')) as (d' & E & Hkeep).
      rewrite E. cbn [rbind].
      apply List.NoDup_cons_iff in Hnd. destruct Hnd as [_ Hnd].
      apply IH.
      * intros Hin. apply Hc. now right.
      * exact Hnd.
      * rewrite Hkeep; [exact Hd|]. intros ->. apply Hc. now left.
  - destruct Hin as [->|Hin]; [congruence|].
    destruct (encode_column_returns pp c input_df (Hok c)) as (d' & E & Hkeep).
    rewrite E. cbn [rbind]. apply IH; [exact Hnd|exact Hin|].
    rewrite Hkeep; [exact Hv|]. congruence.
Qed.

(** C8. In the loop over the categorical columns, when the column is in
    the frame, [preprocessors] holds an object for it that has
    [transform], and [transform] raises ValueError on the submitted
    value, the column is set to 0 and no exception leaves the loop body.
    When moreover no object of [preprocessors] raises anything but
    ValueError and there is no scaler, [prepare_input_data] logs nothing
    and returns the frame, with 0 in that column. *)
Theorem unseen_category_becomes_zero
  (float_of_string : string -> option Q) (int_of_string : string -> option Z)
  (pp : gmap string pyobject) (form_data : gmap string pyval)
  (input_df : record) (col : string) (v : pyval) (encoder : pyobject)
  (f : list pyval -> result (list pyval)) (msg : string) :
  In col categorical_columns ->
  input_data float_of_string int_of_string form_data = inr input_df ->
  dict_get col input_df = Some v ->
  pp !! col = Some encoder ->
  transform encoder = Some f ->
  f [v] = inl (ValueError msg) ->
  (forall d, dict_get col d = Some v ->
     encode_column pp col d = inr (dict_set col (VInt 0) d) /\
     dict_get col (dict_set col (VInt 0) d) = Some (VInt 0)) /\
  ((forall c o, pp !! c = Some o -> raises_only_ValueError o) ->
   pp !! "scaler"%string = None ->
   exists input_df',
     prepare_input_data float_of_string int_of_string (Some pp) form_data
       = ([], inr input_df') /\
     dict_get col input_df' = Some (VInt 0)).
Proof.
  intros Hin Hform Hv Hp Ht Hf. split.
  - intros d Hd. split; [|apply dict_get_set_eq].
    exact (encode_column_unseen pp col d v encoder f msg Hd Hp Ht Hf).
  - intros Hok Hscaler.
    assert (Hnd : List.NoDup categorical_columns).
    { unfold categorical_columns.
      repeat (constructor; [cbn; intuition discriminate|]). constructor. }
    destruct (encode_columns_unseen pp categorical_columns col input_df v
                encoder f msg Hnd Hin Hok Hv Hp Ht Hf) as (d & Hd & Hzero).
    exists d. split; [|exact Hzero].
    unfold prepare_input_data, prepare_body. rewrite Hform. cbn [rbind].
    assert (Hsize : size pp <> 0%nat).
    { apply (map_size_ne_0_lookup_2 pp col). rewrite Hp. eauto. }
    apply Nat.eqb_neq in Hsize. rewrite Hsize, Hd. cbn [rbind].
    unfold apply_scaler. rewrite Hscaler. reflexivity.
Qed.

Lemma unseen_category_becomes_zero_witness :
  exists input_df',
    prepare_input_data Toy.float_of_string Toy.int_of_string
      (Some Toy.preprocessors) Toy.form = ([], inr input_df') /\
    dict_get "Occupation" input_df' = Some (VInt 0).
Proof.
  destruct (input_data Toy.float_of_string Toy.int_of_string Toy.form)
    as [e|input_df] eqn:E; [vm_compute in E; discriminate E|].
  assert (Hv : dict_get "Occupation" input_df = Some (VStr "Astronaut")).
  { vm_compute in E. injection E as <-. reflexivity. }
  refine (proj2 (unseen_category_becomes_zero Toy.float_of_string
                   Toy.int_of_string Toy.preprocessors Toy.form input_df
                   "Occupation" (VStr "Astronaut") Toy.unseen_encoder
                   (fun _ => inl (ValueError "y contains previously unseen labels"))
                   "y contains previously unseen labels"
                   _ E Hv _ eq_refl eq_refl) _ _).
  - cbn. tauto.
  - reflexivity.
  - intros c o Hc. unfold Toy.preprocessors in Hc.
    apply lookup_singleton_Some in Hc. destruct Hc as [_ <-].
    intros g x e [= <-] [= <-]. eauto.
  - reflexivity.
Defined.

(** * Further properties of the generator *)

(** ** Rounding keeps the order *)

Lemma round_half_even_floor (q : Q) :
  (Qfloor q <= round_half_even q <= Qfloor q + 1)%Z.
Proof.
  unfold round_half_even.
  destruct (Qlt_bool _ _); [lia|].
  destruct (Qlt_bool _ _); [lia|].
  destruct (Z.even _); lia.
Qed.

Lemma round_half_even_mono (x y : Q) :
  (x <= y)%Q -> (round_half_even x <= round_half_even y)%Z.
Proof.
  intros Hxy. pose proof (Qfloor_resp_le _ _ Hxy) as Hf.
  pose proof (round_half_even_floor x) as Hx.
  pose proof (round_half_even_floor y) as Hy.
  destruct (Z.eq_dec (Qfloor x) (Qfloor y)) as [Heq|Hne]; [|lia].
  unfold round_half_even. rewrite <- Heq.
  assert (Hr : (x - inject_Z (Qfloor x) <= y - inject_Z (Qfloor x))%Q) by lra.
  destruct (Qlt_bool (1 # 2) (x - inject_Z (Qfloor x))) eqn:X1.
  - apply Qlt_bool_true in X1.
    assert (Y1 : Qlt_bool (1 # 2) (y - inject_Z (Qfloor x)) = true)
      by (apply Qlt_bool_true; lra).
    rewrite Y1. lia.
  - destruct (Qlt_bool (x - inject_Z (Qfloor x)) (1 # 2)) eqn:X2.
    + destruct (Qlt_bool (1 # 2) (y - inject_Z (Qfloor x))); [lia|].
      destruct (Qlt_bool (y - inject_Z (Qfloor x)) (1 # 2)); [lia|].
      destruct (Z.even (Qfloor x)); lia.
    + apply Qlt_bool_false in X1. apply Qlt_bool_false in X2.
      destruct (Qlt_bool (1 # 2) (y - inject_Z (Qfloor x))) eqn:Y1.
      * destruct (Z.even (Qfloor x)); lia.
      * apply Qlt_bool_false in Y1.
        assert (Y2 : Qlt_bool (y - inject_Z (Qfloor x)) (1 # 2) = false)
          by (apply Qlt_bool_false; lra).
        rewrite Y2. lia.
Qed.

Lemma py_round2_mono (x y : Q) : (x <= y)%Q -> (py_round2 x <= py_round2 y)%Q.
Proof.
  intros H. unfold py_round2.
  assert (Hz : (round_half_even (x * 100) <= round_half_even (y * 100))%Z).
  { apply round_half_even_mono. lra. }
  unfold Qle. cbn [Qnum Qden]. lia.
Qed.

Lemma py_round2_nonneg (x : Q) : (0 <= x)%Q -> (0 <= py_round2 x)%Q.
Proof.
  intros H. apply py_round2_mono in H.
  assert (E : (py_round2 0 == 0)%Q) by reflexivity.
  rewrite E in H. exact H.
Qed.

(** ** Records, once more, with the remaining fields *)

Lemma field_counts_ext (get1 get2 : string -> option pyval) :
  (forall c, In c record_columns -> get1 c = get2 c) ->
  field_counts get1 -> field_counts get2.
Proof.
  intros H Hr. unfold field_counts in *.
  do 4 (rewrite <- H by (cbn; tauto)). exact Hr.
Qed.

Lemma field_categories_ext (get1 get2 : string -> option pyval) :
  (forall c, In c record_columns -> get1 c = get2 c) ->
  field_categories get1 -> field_categories get2.
Proof.
  intros H Hr. unfold field_categories in *.
  do 6 (rewrite <- H by (cbn; tauto)). exact Hr.
Qed.

Lemma field_money_ext (get1 get2 : string -> option pyval) :
  (forall c, In c record_columns -> get1 c = get2 c) ->
  field_money get1 -> field_money get2.
Proof.
  intros H Hr. unfold field_money in *.
  do 7 (rewrite <- H by (cbn; tauto)). exact Hr.
Qed.

Section MoreRecords.
Context {R : Runtime} (HL : RuntimeLaws R).

Local Ltac draw :=
  eapply returns_bind;
  [ first
      [ apply (returns_randint HL); lia
      | apply (returns_uniform HL); lra
      | apply (returns_lognormal); lra
      | apply (returns_poisson); lra
      | apply (returns_normal); lra
      | apply (returns_random)
      | apply (returns_choice HL);
        [discriminate | first [exact I | reflexivity | apply (valid_delay_probs HL)]]
      ]
  | cbv beta; intros ? ? ? ].

Local Ltac draw_any :=
  eapply returns_bind with (Q := fun _ _ => True);
  [ first [ apply returns_via_fk; intros; exact I
          | eapply returns_lift; [apply py_div_nonzero; discriminate|exact I] ]
  | cbv beta; intros ? ? ? ].

Lemma returns_lognormal_pos (mean sigma : Q) (p : process R) :
  lognormal_positive R -> (0 <= sigma)%Q ->
  returns (np_lognormal mean sigma) p (fun v _ => (0 < v)%Q).
Proof.
  intros Hpos H. unfold np_lognormal.
  apply Qlt_bool_false in H. rewrite H.
  apply returns_via_np. intros _. apply Hpos.
Qed.

Lemma returns_poisson_nonneg (lam : Q) (p : process R) :
  poisson_nonnegative R -> (0 <= lam)%Q ->
  returns (np_poisson lam) p (fun v _ => (0 <= v)%Z).
Proof.
  intros Hpos H. unfold np_poisson.
  apply Qlt_bool_false in H. rewrite H.
  apply returns_via_np. intros _. apply Hpos.
Qed.

Lemma returns_draw_profile_categories (s : process R) :
  returns draw_profile s (fun p _ => profile_ok p /\ profile_categories_ok p).
Proof.
  unfold draw_profile.
  draw. draw. draw. draw. draw. draw_any.
  draw. draw. draw. draw. draw. draw. draw. draw. draw. draw. draw.
  apply returns_ret. unfold profile_ok, profile_categories_ok. cbn.
  repeat split; try assumption; try lia; try lra.
  all: match goal with H : (5 <= _ <= 25)%Q |- _ => destruct H; assumption end.
Qed.

Lemma returns_draw_profile_money (s : process R) :
  lognormal_positive R -> poisson_nonnegative R ->
  returns draw_profile s (fun p _ => profile_ok p /\ profile_money_ok p).
Proof.
  intros Hlog Hpois. unfold draw_profile.
  draw.
  eapply returns_bind; [apply (returns_lognormal_pos _ _ _ Hlog); lra|].
  cbv beta; intros income ? Hincome.
  draw. draw. draw.
  eapply returns_bind with (Q := fun v _ => (v == income / 12)%Q).
  { eapply returns_lift; [apply py_div_nonzero; discriminate|reflexivity]. }
  cbv beta; intros monthly ? Hmonthly.
  draw. draw. draw. draw.
  eapply returns_bind; [apply (returns_poisson_nonneg _ _ Hpois); lra|].
  cbv beta; intros late ? Hlate.
  draw. draw. draw. draw. draw. draw.
  apply returns_ret.
  assert (Hm : (0 < monthly)%Q).
  { rewrite Hmonthly. apply Qlt_shift_div_l; lra. }
  unfold profile_ok, profile_money_ok. cbn.
  repeat match goal with H : (_ <= _ <= _)%Q |- _ => destruct H end.
  match goal with
  | Hu : (0.8 <= ?u)%Q, Hv : (-0.5 <= ?v)%Q, Hv' : (?v <= 0.5)%Q |- _ =>
      assert (Hs : (0 < monthly * u)%Q) by (apply Qmult_lt_0_compat; lra);
      assert (Hlo : (0 <= monthly * u * (v + 0.5))%Q)
        by (apply Qmult_le_0_compat; lra);
      assert (Hhi : (0 <= monthly * u * (0.5 - v))%Q)
        by (apply Qmult_le_0_compat; lra)
  end.
  repeat split; try assumption; try lia; try lra; try nra.
Qed.

Lemma returns_make_record_more (i : nat) (p : profile) (c : string) (s : process R) :
  profile_categories_ok p ->
  returns (make_record i p c) s
    (fun r _ => has_columns r /\
                field_counts (fun k => dict_get k r) /\
                field_categories (fun k => dict_get k r)).
Proof.
  intros (Hloans & Hocc & Hmix & Hmin & Hbeh).
  unfold make_record. draw. draw_any. draw_any.
  draw. draw. draw. draw. draw. draw.
  apply returns_ret. split; [reflexivity|]. split.
  - unfold field_counts. repeat split.
    + exists (num_of_loans p). split; [reflexivity|]. cbn in Hloans. lia.
    + eexists. split; [reflexivity|]. lia.
    + eexists. split; [reflexivity|].
      apply (py_round2_range 0 100). assumption.
    + eexists. split; [reflexivity|]. lra.
  - unfold field_categories. repeat split; eexists; (split; [reflexivity|]);
      assumption.
Qed.

Lemma returns_make_record_money (i : nat) (p : profile) (c : string) (s : process R) :
  profile_money_ok p ->
  returns (make_record i p c) s
    (fun r _ => has_columns r /\ field_money (fun k => dict_get k r)).
Proof.
  intros (Hinc & Hsal & [Hd1 Hd2] & [Hb1 Hb2] & Hlate).
  unfold make_record. draw. draw_any. draw_any.
  draw. draw. draw. draw.
  eapply returns_bind; [apply (returns_uniform HL); lra|].
  cbv beta; intros u1 ? [Hu1 Hu1'].
  eapply returns_bind; [apply (returns_uniform HL); lra|].
  cbv beta; intros u2 ? [Hu2 Hu2'].
  apply returns_ret. split; [reflexivity|].
  unfold field_money. repeat split.
  - eexists. split; [reflexivity|]. apply py_round2_nonneg. lra.
  - eexists. split; [reflexivity|]. now apply py_round2_nonneg.
  - eexists. split; [reflexivity|]. exact Hlate.
  - do 4 eexists. do 4 (split; [reflexivity|]).
    repeat split.
    + apply py_round2_nonneg. nra.
    + apply py_round2_mono. nra.
    + apply py_round2_nonneg. nra.
    + apply py_round2_mono. nra.
    + apply py_round2_mono. nra.
Qed.

(** The rows of a generated frame keep what every record has. *)
Lemma generate_cells (P : nat -> (string -> option pyval) -> Prop) :
  (forall i g1 g2, (forall c, In c record_columns -> g1 c = g2 c) ->
                   P i g1 -> P i g2) ->
  (forall i s, returns (gen_record (R := R) i) s
                 (fun r _ => has_columns r /\ P i (fun c => dict_get c r))) ->
  forall (n : Z) (s : process R),
  exists df s',
    generate_credit_score_data n s = inr (df, s') /\
    forall i, (i < Z.to_nat n)%nat -> P i (cell df i).
Proof.
  intros Hext Hrec n s.
  pose proof (returns_generate _ Hrec n s) as H.
  apply returns_inv in H.
  destruct H as (df & s' & E & data & -> & Hlen & Hall).
  exists (pd_DataFrame data), s'. split; [exact E|].
  intros i Hi. rewrite <- Hlen in Hi.
  destruct (nth_error data i) as [r|] eqn:Er.
  2:{ apply nth_error_None in Er. lia. }
  destruct (Hall i r Er) as [_ HP].
  assert (Hcols : Forall has_columns data).
  { apply List.Forall_forall. intros r' Hr'.
    apply In_nth_error in Hr'. destruct Hr' as [k Hk].
    now destruct (Hall k r' Hk). }
  apply (Hext i (fun c => dict_get c r)); [|exact HP].
  intros c Hc. symmetry. apply cell_pd_DataFrame; [exact Er|].
  rewrite unique_keys_records; [exact Hc| |exact Hcols].
  intros ->. destruct i; discriminate.
Qed.

Lemma returns_gen_record_more (i : nat) (s : process R) :
  returns (gen_record i) s
    (fun r _ => has_columns r /\
                (field_counts (fun k => dict_get k r) /\
                 field_categories (fun k => dict_get k r))).
Proof.
  unfold gen_record.
  eapply returns_bind; [apply returns_draw_profile_categories|].
  intros p s1 [_ Hp]. cbv beta.
  eapply returns_bind; [apply returns_credit_score_numeric|].
  intros x s2 _. cbv beta.
  eapply returns_bind; [apply (returns_label_noise HL)|].
  intros c s3 _. cbv beta.
  now apply returns_make_record_more.
Qed.

Lemma returns_gen_record_money (i : nat) (s : process R) :
  lognormal_positive R -> poisson_nonnegative R ->
  returns (gen_record i) s
    (fun r _ => has_columns r /\ field_money (fun k => dict_get k r)).
Proof.
  intros Hlog Hpois. unfold gen_record.
  eapply returns_bind; [apply (returns_draw_profile_money _ Hlog Hpois)|].
  intros p s1 [_ Hp]. cbv beta.
  eapply returns_bind; [apply returns_credit_score_numeric|].
  intros x s2 _. cbv beta.
  eapply returns_bind; [apply (returns_label_noise HL)|].
  intros c s3 _. cbv beta.
  now apply returns_make_record_money.
Qed.

End MoreRecords.

Lemma toy_lognormal_positive : lognormal_positive Toy.runtime.
Proof.
  intros mean sigma s. cbn. unfold Toy.lognormal.
  destruct (Toy.normal mean sigma s) as [z s']. cbn [fst].
  unfold Toy.exp. rewrite Qred_correct. apply Qpower_0_lt. reflexivity.
Qed.

Lemma toy_poisson_nonnegative : poisson_nonnegative Toy.runtime.
Proof.
  intros lam s. cbn. unfold Toy.poisson. cbn [fst].
  apply Z.mod_pos_bound. reflexivity.
Qed.

(** ** X1: the weights of the delay *)



(** ** X2, X3, X4: the remaining fields of a generated row *)

(** X2. In every row of every generated frame Num_of_Loan is in 0..4,
    Num_Credit_Inquiries in 0..9, Credit_Utilization_Ratio in [0, 100]
    and Changed_Credit_Limit in [-50, 100]. *)
Theorem generated_count_ranges (R : Runtime) (HL : RuntimeLaws R)
  (n_samples : Z) (s : process R) :
  exists df s',
    generate_credit_score_data n_samples s = inr (df, s') /\
    forall i, (i < Z.to_nat n_samples)%nat -> field_counts (cell df i).
Proof.
  apply (generate_cells (fun _ get => field_counts get)).
  - intros _ g1 g2. apply field_counts_ext.
  - intros i s0. eapply returns_weaken; [apply (returns_gen_record_more HL)|].
    cbv beta. intros r _ (Hc & Hn & _). now split.
Qed.

Lemma generated_count_ranges_witness :
  exists df s',
    generate_credit_score_data (R := Toy.runtime) 2 Toy.seeded = inr (df, s') /\
    forall i, (i < 2)%nat -> field_counts (cell df i).
Proof.
  exact (generated_count_ranges Toy.runtime toy_laws 2 Toy.seeded).
Defined.

(** X3. In every row of every generated frame each categorical field
    holds a value of its list: Occupation, Credit_Mix,
    Payment_of_Min_Amount, Payment_Behaviour, Month and Type_of_Loan. *)
Theorem generated_categories (R : Runtime) (HL : RuntimeLaws R)
  (n_samples : Z) (s : process R) :
  exists df s',
    generate_credit_score_data n_samples s = inr (df, s') /\
    forall i, (i < Z.to_nat n_samples)%nat -> field_categories (cell df i).
Proof.
  apply (generate_cells (fun _ get => field_categories get)).
  - intros _ g1 g2. apply field_categories_ext.
  - intros i s0. eapply returns_weaken; [apply (returns_gen_record_more HL)|].
    cbv beta. intros r _ (Hc & _ & Hn). now split.
Qed.

Lemma generated_categories_witness :
  exists df s',
    generate_credit_score_data (R := Toy.runtime) 2 Toy.seeded = inr (df, s') /\
    forall i, (i < 2)%nat -> field_categories (cell df i).
Proof.
  exact (generated_categories Toy.runtime toy_laws 2 Toy.seeded).
Defined.

(** X4. When the log-normal draw is positive and the Poisson draw is not
    negative, every row of every generated frame has a non-negative
    Annual_Income, Outstanding_Debt and Num_of_Delayed_Payment, and its
    Total_EMI_per_month and Amount_invested_monthly lie between 0 and its
    Monthly_Inhand_Salary, which its Monthly_Balance does not exceed: the
    rounding to two decimals keeps the order of the amounts. *)
Theorem generated_amounts (R : Runtime) (HL : RuntimeLaws R)
  (n_samples : Z) (s : process R) :
  lognormal_positive R -> poisson_nonnegative R ->
  exists df s',
    generate_credit_score_data n_samples s = inr (df, s') /\
    forall i, (i < Z.to_nat n_samples)%nat -> field_money (cell df i).
Proof.
  intros Hlog Hpois.
  apply (generate_cells (fun _ get => field_money get)).
  - intros _ g1 g2. apply field_money_ext.
  - intros i s0. now apply (returns_gen_record_money HL).
Qed.

Lemma generated_amounts_witness :
  exists df s',
    generate_credit_score_data (R := Toy.runtime) 2 Toy.seeded = inr (df, s') /\
    forall i, (i < 2)%nat -> field_money (cell df i).
Proof.
  exact (generated_amounts Toy.runtime toy_laws 2 Toy.seeded
           toy_lognormal_positive toy_poisson_nonnegative).
Defined.

(** ** X5: the guards and the score before the noise *)

Lemma credit_score_numeric_run (R : Runtime) (p : profile) (s : process R) :
  credit_score_numeric p s =
  inr ((py_sum [spec_history p; spec_timeliness p; spec_debt p;
                spec_balance p; spec_delinquency p] * 100
        + fst (draw_normal R 0 10 (np_rs s)))%Q,
       {| np_rs := snd (draw_normal R 0 10 (np_rs s));
          py_rs := py_rs s; fk_rs := fk_rs s |}).
Proof.
  unfold credit_score_numeric, bind, lift.
  rewrite credit_score_factors_value.
  unfold np_normal, via_np. change (Qlt_bool 10 0) with false. cbv iota beta.
  destruct (draw_normal R 0 10 (np_rs s)) as [noise np']. reflexivity.
Qed.

Lemma score_before_noise_bound (p : profile) :
  profile_ok p -> profile_money_ok p ->
  (py_sum [spec_history p; spec_timeliness p; spec_debt p;
           spec_balance p; spec_delinquency p] * 100 < 92.5)%Q.
Proof.
  intros (_ & _ & _ & _ & Hdelay & Hhist)
         (Hinc & Hsal & [Hd1 Hd2] & [Hb1 Hb2] & Hlate).
  apply in_range60 in Hdelay. rewrite py_sum_five.
  unfold spec_history, spec_timeliness, spec_debt, spec_balance,
    spec_delinquency.
  assert (Ei : Qlt_bool 0 (annual_income p) = true) by now apply Qlt_bool_true.
  assert (Es : Qlt_bool 0 (monthly_inhand_salary p) = true)
    by now apply Qlt_bool_true.
  rewrite Ei, Es.
  assert (H1 : (inject_Z (credit_history_age p) <= 299)%Q).
  { change 299%Q with (inject_Z 299). rewrite <- Zle_Qle. lia. }
  assert (H2 : (0 <= inject_Z (delay_from_due_date p))%Q).
  { change 0%Q with (inject_Z 0). rewrite <- Zle_Qle. lia. }
  assert (H5 : (0 <= inject_Z (num_delayed_payments p))%Q).
  { change 0%Q with (inject_Z 0). rewrite <- Zle_Qle. lia. }
  assert (H3 : (0 <= outstanding_debt p / annual_income p)%Q).
  { apply Qle_shift_div_l; lra. }
  assert (H4 : (monthly_balance p / monthly_inhand_salary p <= 0.5)%Q).
  { apply Qle_shift_div_r; lra. }
  set (a := inject_Z (credit_history_age p)) in *.
  set (b := inject_Z (delay_from_due_date p)) in *.
  set (c := (outstanding_debt p / annual_income p)%Q) in *.
  set (d := (monthly_balance p / monthly_inhand_salary p)%Q) in *.
  set (e := inject_Z (num_delayed_payments p)) in *.
  unfold Qdiv.
  assert (E1 : (/ 300 == 1 # 300)%Q) by reflexivity.
  assert (E2 : (/ 60 == 1 # 60)%Q) by reflexivity.
  assert (E3 : (/ 10 == 1 # 10)%Q) by reflexivity.
  rewrite E1, E2, E3. lra.
Qed.

(** X5. When the log-normal draw is positive and the Poisson draw is not
    negative, every drawn profile has a positive income and a positive
    salary, so both guarded sub-scores take the branch with the division,
    and the score before the noise is added stays below 92.5. *)
Theorem generated_score_below_bound (R : Runtime) (HL : RuntimeLaws R)
  (s : process R) :
  lognormal_positive R -> poisson_nonnegative R ->
  exists p s1,
    draw_profile s = inr (p, s1) /\
    (0 < annual_income p)%Q /\ (0 < monthly_inhand_salary p)%Q /\
    debt_ratio_factor (outstanding_debt p) (annual_income p)
      = inr ((1 - outstanding_debt p / annual_income p) * 0.2)%Q /\
    balance_ratio_factor (monthly_balance p) (monthly_inhand_salary p)
      = inr (monthly_balance p / monthly_inhand_salary p * 0.15)%Q /\
    exists v s2,
      credit_score_numeric p s1 = inr (v, s2) /\
      (v - fst (draw_normal R 0 10 (np_rs s1)) < 92.5)%Q.
Proof.
  intros Hlog Hpois.
  pose proof (returns_draw_profile_money HL s Hlog Hpois) as H.
  apply returns_inv in H. destruct H as (p & s1 & E & Hok & Hmoney).
  exists p, s1. split; [exact E|].
  pose proof Hmoney as (Hinc & Hsal & _).
  split; [exact Hinc|]. split; [exact Hsal|]. split; [|split].
  - unfold debt_ratio_factor.
    replace (Qlt_bool 0 (annual_income p)) with true
      by (symmetry; now apply Qlt_bool_true).
    rewrite py_div_nonzero by lra. reflexivity.
  - unfold balance_ratio_factor.
    replace (Qlt_bool 0 (monthly_inhand_salary p)) with true
      by (symmetry; now apply Qlt_bool_true).
    rewrite py_div_nonzero by lra. reflexivity.
  - rewrite credit_score_numeric_run. do 2 eexists. split; [reflexivity|].
    pose proof (score_before_noise_bound p Hok Hmoney) as Hb. lra.
Qed.

Lemma generated_score_below_bound_witness :
  exists p s1,
    draw_profile (R := Toy.runtime) Toy.seeded = inr (p, s1) /\
    (0 < annual_income p)%Q /\
    exists v s2,
      credit_score_numeric p s1 = inr (v, s2) /\
      (v - fst (draw_normal Toy.runtime 0 10 (np_rs s1)) < 92.5)%Q.
Proof.
  destruct (generated_score_below_bound Toy.runtime toy_laws Toy.seeded
              toy_lognormal_positive toy_poisson_nonnegative)
    as (p & s1 & E & Hi & _ & _ & _ & H).
  exists p, s1. split; [exact E|]. split; [exact Hi|exact H].
Defined.

(** ** X6: the label follows the score *)

(** X6. A higher numeric score never gives a worse label: in the order
    Poor, Standard, Good the label of [categorize] is monotone. *)
Theorem categorize_monotone (x y : Q) :
  (x <= y)%Q -> (label_rank (categorize x) <= label_rank (categorize y))%nat.
Proof.
  intros H. unfold categorize.
  destruct (Qle_bool 70 x) eqn:X70.
  - apply Qle_bool_iff in X70.
    assert (Y70 : Qle_bool 70 y = true) by (apply Qle_bool_iff; lra).
    rewrite Y70. cbn. lia.
  - destruct (Qle_bool 40 x) eqn:X40.
    + apply Qle_bool_iff in X40.
      destruct (Qle_bool 70 y); [cbn; lia|].
      assert (Y40 : Qle_bool 40 y = true) by (apply Qle_bool_iff; lra).
      rewrite Y40. cbn. lia.
    + destruct (Qle_bool 70 y); [cbn; lia|].
      destruct (Qle_bool 40 y); cbn; lia.
Qed.

Lemma categorize_monotone_witness :
  (label_rank (categorize 39.5) <= label_rank (categorize 70))%nat.
Proof. apply categorize_monotone. unfold Qle. cbn. lia. Defined.

(** ** X7: a longer run extends a shorter one *)

Lemma gen_loop_data (R : Runtime) (count start : nat) (data : list record)
  (s : process R) :
  gen_loop count start data s =
  match gen_loop count start [] s with
  | inl e => inl e
  | inr (new, s') => inr (data ++ new, s')
  end.
Proof.
  revert start data s. induction count as [|count IH]; intros start data s.
  - cbn. unfold ret. now rewrite app_nil_r.
  - cbn [gen_loop]. unfold bind.
    destruct (gen_record start s) as [e|[r s1]]; [reflexivity|].
    rewrite (IH (S start) (data ++ [r]) s1), (IH (S start) ([] ++ [r]) s1).
    destruct (gen_loop count (S start) [] s1) as [e|[new s2]]; [reflexivity|].
    now rewrite <- app_assoc.
Qed.

Lemma gen_loop_split (R : Runtime) (a b start : nat) (data : list record)
  (s : process R) :
  gen_loop (a + b) start data s =
  match gen_loop a start data s with
  | inl e => inl e
  | inr (d, s1) => gen_loop b (start + a) d s1
  end.
Proof.
  revert start data s. induction a as [|a IH]; intros start data s.
  - cbn. unfold ret. now rewrite Nat.add_0_r.
  - cbn [Nat.add gen_loop]. unfold bind.
    destruct (gen_record start s) as [e|[r s1]]; [reflexivity|].
    rewrite IH. replace (S start + a)%nat with (start + S a)%nat by lia.
    reflexivity.
Qed.

(** X7. For 1 <= k <= n, from the same generator state, the frame of k
    samples has the columns of the frame of n samples and its rows are
    the first k rows of that frame: asking for more samples only appends
    rows. *)
Theorem generate_prefix (R : Runtime) (HL : RuntimeLaws R)
  (k n : Z) (s : process R) :
  (1 <= k <= n)%Z ->
  exists dfk sk dfn sn,
    generate_credit_score_data k s = inr (dfk, sk) /\
    generate_credit_score_data n s = inr (dfn, sn) /\
    columns dfk = columns dfn /\
    rows dfk = firstn (Z.to_nat k) (rows dfn).
Proof.
  intros Hkn.
  pose proof (returns_gen_loop record_ok (returns_gen_record HL)) as Hloop.
  pose proof (Hloop (Z.to_nat k) 0%nat [] s) as Hk.
  pose proof (Hloop (Z.to_nat n) 0%nat [] s) as Hn.
  apply returns_inv in Hk.
  destruct Hk as (d1 & s1 & Ek & new1 & E1 & Hl1 & Hok1).
  apply returns_inv in Hn.
  destruct Hn as (dn & sn & En & newn & E2 & Hln & Hokn).
  cbn [app] in E1, E2. subst new1 newn.
  replace (Z.to_nat n) with (Z.to_nat k + (Z.to_nat n - Z.to_nat k))%nat
    in En by lia.
  rewrite gen_loop_split, Ek, gen_loop_data in En.
  destruct (gen_loop (Z.to_nat n - Z.to_nat k) (0 + Z.to_nat k) [] s1)
    as [e|[new s2]] eqn:E3; [discriminate|].
  injection En as <- <-.
  assert (Hcols : forall d, d <> [] ->
            (forall j r, nth_error d j = Some r -> record_ok (0 + j) r) ->
            unique_keys d = record_columns).
  { intros d Hne Hall. apply unique_keys_records; [exact Hne|].
    apply List.Forall_forall. intros r Hr.
    apply In_nth_error in Hr. destruct Hr as [j Hj].
    now destruct (Hall j r Hj). }
  assert (Hne1 : d1 <> []).
  { intros ->. cbn in Hl1. lia. }
  assert (C1 : unique_keys d1 = record_columns) by now apply Hcols.
  assert (C2 : unique_keys (d1 ++ new) = record_columns).
  { apply Hcols; [|exact Hokn]. destruct d1; [congruence|discriminate]. }
  exists (pd_DataFrame d1), s1, (pd_DataFrame (d1 ++ new)), s2.
  unfold generate_credit_score_data, bind, ret.
  replace (Z.to_nat n) with (Z.to_nat k + (Z.to_nat n - Z.to_nat k))%nat
    at 1 by lia.
  rewrite gen_loop_split, Ek, gen_loop_data, E3.
  split; [reflexivity|]. split; [reflexivity|].
  unfold pd_DataFrame. cbn [columns rows]. rewrite C1, C2.
  split; [reflexivity|].
  rewrite map_app, firstn_app, length_map, Hl1, Nat.sub_diag.
  cbn [firstn]. rewrite app_nil_r.
  rewrite firstn_all2; [reflexivity|]. rewrite length_map. lia.
Qed.

Lemma generate_prefix_witness :
  exists dfk sk dfn sn,
    generate_credit_score_data (R := Toy.runtime) 1 Toy.seeded = inr (dfk, sk) /\
    generate_credit_score_data (R := Toy.runtime) 3 Toy.seeded = inr (dfn, sn) /\
    columns dfk = columns dfn /\
    rows dfk = firstn 1 (rows dfn).
Proof.
  apply (generate_prefix Toy.runtime toy_laws 1 3 Toy.seeded). lia.
Defined.

(** * Further properties of the script *)

(** ** X8: the run of [__main__] *)

Lemma generate_10000 (R : Runtime) (HL : RuntimeLaws R) (s : process R) :
  exists df s',
    generate_credit_score_data 10000 s = inr (df, s') /\
    Z.of_nat (length (rows df)) = 10000%Z /\
    columns df = record_columns.
Proof.
  destruct (generate_frame HL 10000 s) as (df & s' & E & Hrows & Hcols & _).
  exists df, s'. split; [exact E|]. split; [lia|].
  rewrite Hcols. destruct (Nat.eqb_spec (Z.to_nat 10000) 0); [lia|reflexivity].
Qed.

(** X8. The [__main__] block succeeds exactly through its two disk steps:
    the generation of the 10000 rows and the read of the Credit_Score
    column never raise, so whenever the directory step and the write
    return, the script returns and the file holds a table of 10000 rows
    under the 28 columns; on a disk with a writable current directory and
    no [data] entry this is what happens. *)
Theorem main_succeeds_with_the_disk (R : Runtime) (HL : RuntimeLaws R)
  (w : world R) :
  exists df p',
    generate_credit_score_data 10000 (proc w) = inr (df, p') /\
    Z.of_nat (length (rows df)) = 10000%Z /\
    columns df = record_columns /\
    (forall fs1 fs2,
        path_mkdir true true output_dir (disk w) = inr fs1 ->
        to_csv df output_path fs1 = inr fs2 ->
        main w = inr (df, {| proc := p'; disk := fs2 |}) /\
        fs_lookup output_path fs2 = Some (File true df)) /\
    (cwd_writable (disk w) = true ->
     fs_lookup ["data"%string] (disk w) = None ->
     fs_lookup output_dir (disk w) = None ->
     fs_lookup output_path (disk w) = None ->
     exists fs2,
       main w = inr (df, {| proc := p'; disk := fs2 |}) /\
       is_dir output_dir fs2 = true /\
       fs_lookup output_path fs2 = Some (File true df)).
Proof.
  destruct (generate_10000 R HL (proc w)) as (df & p' & E & Hrows & Hcols).
  exists df, p'. split; [exact E|]. split; [exact Hrows|]. split; [exact Hcols|].
  assert (Hget : exists col, df_getitem df "Credit_Score" = inr col).
  { unfold df_getitem. rewrite Hcols. cbn. eauto. }
  destruct Hget as [col Hget].
  assert (Hmain : forall fs1 fs2,
             path_mkdir true true output_dir (disk w) = inr fs1 ->
             to_csv df output_path fs1 = inr fs2 ->
             main w = inr (df, {| proc := p'; disk := fs2 |}) /\
             fs_lookup output_path fs2 = Some (File true df)).
  { intros fs1 fs2 H1 H2. split.
    - unfold main. rewrite (script_steps R 10000 w df p' E), H1, H2, Hget.
      reflexivity.
    - rewrite (to_csv_writes _ _ _ _ H2).
      unfold fs_lookup, output_path, joinpath, fs_insert.
      cbn [entries]. now rewrite lookup_insert_eq. }
  split; [exact Hmain|].
  intros Hw Hdata Hraw Hfile.
  set (fs1 := fs_insert output_dir (Dir true)
                (fs_insert ["data"%string] (Dir true) (disk w))).
  assert (H1 : path_mkdir true true output_dir (disk w) = inr fs1).
  { cbn [fs_lookup output_dir] in Hdata, Hraw.
    unfold path_mkdir, output_dir. cbn [mkdir_parents].
    unfold os_mkdir at 1. cbn [fs_lookup parent tail].
    unfold output_dir, path in *. rewrite Hraw, Hdata.
    unfold os_mkdir at 1. cbn [fs_lookup parent tail].
    unfold path in *. rewrite Hdata, Hw.
    unfold mkdir_single, os_mkdir. cbn [fs_lookup parent tail fs_insert entries].
    unfold path in *.
    rewrite lookup_insert_ne by discriminate. rewrite Hraw.
    now rewrite lookup_insert_eq. }
  assert (H2 : to_csv df output_path fs1
               = inr (fs_insert output_path (File true df) fs1)).
  { unfold to_csv, fs1, output_path, joinpath, output_dir in *.
    cbn [parent tail fs_lookup fs_insert entries] in *. unfold path in *.
    rewrite lookup_insert_eq.
    rewrite !lookup_insert_ne by discriminate. rewrite Hfile. reflexivity. }
  exists (fs_insert output_path (File true df) fs1).
  destruct (Hmain _ _ H1 H2) as [Hm Hf].
  split; [exact Hm|]. split; [|exact Hf].
  unfold is_dir, fs1, output_path, joinpath, output_dir.
  cbn [fs_lookup fs_insert entries]. unfold path.
  rewrite lookup_insert_ne by discriminate. now rewrite lookup_insert_eq.
Qed.

Lemma main_succeeds_with_the_disk_witness :
  exists df p' fs2,
    main (R := Toy.runtime) Toy.world0 = inr (df, {| proc := p'; disk := fs2 |}) /\
    Z.of_nat (length (rows df)) = 10000%Z /\
    fs_lookup output_path fs2 = Some (File true df).
Proof.
  destruct (main_succeeds_with_the_disk Toy.runtime toy_laws Toy.world0)
    as (df & p' & _ & Hrows & _ & _ & H).
  destruct (H eq_refl eq_refl eq_refl eq_refl) as (fs2 & Hm & _ & Hf).
  exists df, p', fs2. split; [exact Hm|]. split; [exact Hrows|exact Hf].
Defined.

(** ** X9, X10, X11: what the disk steps keep, refuse and repeat *)

Lemma fs_lookup_insert_ne (p q : path) (n : node) (fs : filesystem) :
  q <> p -> p <> [] -> fs_lookup q (fs_insert p n fs) = fs_lookup q fs.
Proof.
  intros Hne Hp. unfold fs_lookup, fs_insert. cbn [entries cwd_writable].
  destruct q as [|x q]; [reflexivity|]. unfold path in *.
  now rewrite lookup_insert_ne by congruence.
Qed.

Lemma os_mkdir_other (p q : path) (fs fs' : filesystem) :
  os_mkdir p fs = inr fs' -> q <> p -> fs_lookup q fs' = fs_lookup q fs.
Proof.
  unfold os_mkdir. destruct (fs_lookup p fs) as [n|] eqn:E; [discriminate|].
  destruct (fs_lookup (parent p) fs) as [[[|]|]|]; try discriminate.
  intros [= <-] Hne. apply fs_lookup_insert_ne; [exact Hne|].
  intros ->. discriminate E.
Qed.

Lemma mkdir_single_other (exist_ok : bool) (p q : path) (fs fs' : filesystem) :
  mkdir_single exist_ok p fs = inr fs' -> q <> p ->
  fs_lookup q fs' = fs_lookup q fs.
Proof.
  unfold mkdir_single. destruct (os_mkdir p fs) as [e|fs1] eqn:E.
  - destruct e; try discriminate;
      destruct (negb exist_ok || negb (is_dir p fs)); try discriminate;
      now intros [= <-].
  - intros [= <-]. now apply os_mkdir_other.
Qed.

Lemma mkdir_parents_other (exist_ok : bool) (p q : path) (fs fs' : filesystem) :
  mkdir_parents exist_ok p fs = inr fs' -> ~ is_suffix q p ->
  fs_lookup q fs' = fs_lookup q fs.
Proof.
  revert exist_ok fs fs'. induction p as [|x up IH]; intros exist_ok fs fs';
    cbn [mkdir_parents]; destruct (os_mkdir _ fs) as [e|fs1] eqn:E.
  1,3: destruct e; try discriminate;
      try (destruct (negb exist_ok || negb (is_dir _ fs)); try discriminate;
           now intros [= <-]).
  - destruct (mkdir_parents true up fs) as [e|fs2] eqn:E2; [discriminate|].
    intros H Hq. cbn [is_suffix] in Hq.
    rewrite (mkdir_single_other _ _ q _ _ H) by tauto.
    apply (IH true fs fs2 E2). tauto.
  - intros [= <-] Hq. apply (os_mkdir_other _ q _ _ E). cbn in Hq. tauto.
  - intros [= <-] Hq. apply (os_mkdir_other _ q _ _ E). cbn in Hq. tauto.
Qed.

Lemma os_mkdir_keeps (p q : path) (n : node) (fs fs' : filesystem) :
  os_mkdir p fs = inr fs' -> fs_lookup q fs = Some n -> fs_lookup q fs' = Some n.
Proof.
  intros H Hq. destruct (decide (q = p)) as [->|Hne].
  - unfold os_mkdir in H. rewrite Hq in H. discriminate.
  - now rewrite (os_mkdir_other _ _ _ _ H Hne).
Qed.

Lemma mkdir_single_keeps (exist_ok : bool) (p q : path) (n : node)
  (fs fs' : filesystem) :
  mkdir_single exist_ok p fs = inr fs' -> fs_lookup q fs = Some n ->
  fs_lookup q fs' = Some n.
Proof.
  unfold mkdir_single. destruct (os_mkdir p fs) as [e|fs1] eqn:E.
  - destruct e; try discriminate;
      destruct (negb exist_ok || negb (is_dir p fs)); try discriminate;
      now intros [= <-].
  - intros [= <-]. now apply (os_mkdir_keeps p).
Qed.

Lemma mkdir_parents_keeps (exist_ok : bool) (p q : path) (n : node)
  (fs fs' : filesystem) :
  mkdir_parents exist_ok p fs = inr fs' -> fs_lookup q fs = Some n ->
  fs_lookup q fs' = Some n.
Proof.
  revert exist_ok fs fs'. induction p as [|x up IH]; intros exist_ok fs fs';
    cbn [mkdir_parents]; destruct (os_mkdir _ fs) as [e|fs1] eqn:E.
  1,3: destruct e; try discriminate;
      try (destruct (negb exist_ok || negb (is_dir _ fs)); try discriminate;
           now intros [= <-]).
  - destruct (mkdir_parents true up fs) as [e|fs2] eqn:E2; [discriminate|].
    intros H Hq. apply (mkdir_single_keeps _ _ _ _ _ _ H).
    now apply (IH true fs fs2).
  - intros [= <-]. now apply (os_mkdir_keeps []).
  - intros [= <-]. now apply (os_mkdir_keeps (x :: up)).
Qed.

Lemma to_csv_other (df : DataFrame) (p q : path) (fs fs' : filesystem) :
  to_csv df p fs = inr fs' -> q <> p -> fs_lookup q fs' = fs_lookup q fs.
Proof.
  intros H Hne. rewrite (to_csv_writes _ _ _ _ H).
  apply fs_lookup_insert_ne; [exact Hne|].
  intros ->. unfold to_csv in H. cbn [parent tail fs_lookup] in H. discriminate H.
Qed.

Lemma script_returns_inv (R : Runtime) (HL : RuntimeLaws R) (n_samples : Z)
  (w w' : world R) (df : DataFrame) :
  script n_samples w = inr (df, w') ->
  exists fs1,
    path_mkdir true true output_dir (disk w) = inr fs1 /\
    to_csv df output_path fs1 = inr (disk w') /\
    (1 <= n_samples)%Z.
Proof.
  destruct (generate_frame HL n_samples (proc w))
    as (df0 & p' & E & _ & Hcols & _).
  rewrite (script_steps R n_samples w df0 p' E).
  destruct (path_mkdir true true output_dir (disk w)) as [e|fs1]; [discriminate|].
  destruct (to_csv df0 output_path fs1) as [e|fs2] eqn:E2; [discriminate|].
  destruct (df_getitem df0 "Credit_Score") as [e|col] eqn:E3; [discriminate|].
  intros [= <- <-]. exists fs1. split; [reflexivity|]. split; [exact E2|].
  unfold df_getitem in E3. rewrite Hcols in E3.
  destruct (Nat.eqb_spec (Z.to_nat n_samples) 0); [discriminate E3|lia].
Qed.

(** X9. A run of the script that returns has not removed or changed any
    entry of the disk other than the output file, and has created nothing
    outside [data], [data/raw] and the output file. *)
Theorem script_touches_only_its_paths (R : Runtime) (HL : RuntimeLaws R)
  (n_samples : Z) (w w' : world R) (df : DataFrame) :
  script n_samples w = inr (df, w') ->
  (forall q n, q <> output_path -> fs_lookup q (disk w) = Some n ->
               fs_lookup q (disk w') = Some n) /\
  (forall q, q <> output_path -> q <> output_dir -> q <> ["data"%string] ->
             fs_lookup q (disk w') = fs_lookup q (disk w)) /\
  fs_lookup output_path (disk w') = Some (File true df) /\
  is_dir output_dir (disk w') = true.
Proof.
  intros H. destruct (script_returns_inv R HL _ _ _ _ H) as (fs1 & H1 & H2 & _).
  unfold path_mkdir in H1.
  assert (Hdir : is_dir output_dir fs1 = true)
    by (eapply mkdir_parents_is_dir; exact H1).
  split; [|split; [|split]].
  - intros q n Hq Hn. rewrite (to_csv_other _ _ q _ _ H2 Hq).
    now apply (mkdir_parents_keeps _ _ _ _ _ _ H1).
  - intros q Hq1 Hq2 Hq3. rewrite (to_csv_other _ _ q _ _ H2 Hq1).
    destruct q as [|x q].
    + apply (mkdir_parents_keeps _ _ [] _ _ _ H1). reflexivity.
    + apply (mkdir_parents_other _ _ (x :: q) _ _ H1).
      unfold output_dir in *. cbn [is_suffix].
      intros [E|[E|[E|[]]]]; congruence.
  - rewrite (to_csv_writes _ _ _ _ H2).
    unfold fs_lookup, output_path, joinpath, fs_insert.
    cbn [entries]. now rewrite lookup_insert_eq.
  - unfold is_dir in *.
    rewrite (to_csv_other _ _ output_dir _ _ H2) by discriminate. exact Hdir.
Qed.

Lemma toy_script_returns :
  match script (R := Toy.runtime) 1 Toy.world0 with
  | inr _ => True
  | inl _ => False
  end.
Proof. vm_compute. exact I. Qed.

Lemma script_touches_only_its_paths_witness :
  exists df w',
    script (R := Toy.runtime) 1 Toy.world0 = inr (df, w') /\
    fs_lookup output_path (disk w') = Some (File true df) /\
    fs_lookup ["tmp"%string] (disk w') = fs_lookup ["tmp"%string] Toy.empty_disk.
Proof.
  pose proof toy_script_returns as H.
  destruct (script (R := Toy.runtime) 1 Toy.world0) as [e|[df w']] eqn:E;
    [contradiction|].
  exists df, w'. split; [reflexivity|].
  destruct (script_touches_only_its_paths Toy.runtime toy_laws 1 Toy.world0 w' df E)
    as (_ & H2 & H3 & _).
  split; [exact H3|]. apply H2; discriminate.
Defined.

(** X10. The directory step refuses three disks, and the script then ends
    with the same error before anything is generated onto the disk: a
    regular file named [data] gives NotADirectoryError, a regular file at
    [data/raw] gives FileExistsError (whatever the mode of either file),
    and a current directory that is not
    writable, with no [data] in it, gives PermissionError. *)
Theorem directory_step_errors (R : Runtime) (HL : RuntimeLaws R)
  (n_samples : Z) (w : world R) :
  (forall b t, fs_lookup ["data"%string] (disk w) = Some (File b t) ->
             fs_lookup output_dir (disk w) = None ->
             path_mkdir true true output_dir (disk w) = inl NotADirectoryError /\
             script n_samples w = inl NotADirectoryError) /\
  (forall b t, fs_lookup output_dir (disk w) = Some (File b t) ->
             path_mkdir true true output_dir (disk w) = inl FileExistsError /\
             script n_samples w = inl FileExistsError) /\
  (cwd_writable (disk w) = false ->
   fs_lookup ["data"%string] (disk w) = None ->
   fs_lookup output_dir (disk w) = None ->
   path_mkdir true true output_dir (disk w) = inl PermissionError /\
   script n_samples w = inl PermissionError).
Proof.
  destruct (generate_frame HL n_samples (proc w)) as (df & p' & E & _).
  assert (Hs : forall e, path_mkdir true true output_dir (disk w) = inl e ->
                         script n_samples w = inl e).
  { intros e He. now rewrite (script_steps R n_samples w df p' E), He. }
  split; [|split].
  - intros b t Hdata Hraw.
    assert (H : path_mkdir true true output_dir (disk w) = inl NotADirectoryError).
    { cbn [fs_lookup output_dir] in Hdata, Hraw.
      unfold path_mkdir, output_dir. cbn [mkdir_parents].
      unfold os_mkdir, is_dir. cbn [fs_lookup parent tail].
      unfold output_dir, path in *. rewrite Hraw, Hdata. reflexivity. }
    split; [exact H|now apply Hs].
  - intros b t Hraw.
    assert (H : path_mkdir true true output_dir (disk w) = inl FileExistsError).
    { cbn [fs_lookup output_dir] in Hraw.
      unfold path_mkdir, output_dir. cbn [mkdir_parents].
      unfold os_mkdir, is_dir. cbn [fs_lookup parent tail].
      unfold output_dir, path in *. rewrite Hraw. reflexivity. }
    split; [exact H|now apply Hs].
  - intros Hw Hdata Hraw.
    assert (H : path_mkdir true true output_dir (disk w) = inl PermissionError).
    { cbn [fs_lookup output_dir] in Hdata, Hraw.
      unfold path_mkdir, output_dir. cbn [mkdir_parents].
      unfold os_mkdir at 1. cbn [fs_lookup parent tail].
      unfold output_dir, path in *. rewrite Hraw, Hdata.
      unfold os_mkdir, is_dir. cbn [fs_lookup parent tail].
      unfold path in *. rewrite Hdata, Hw. reflexivity. }
    split; [exact H|now apply Hs].
Qed.

Lemma directory_step_errors_witness :
  script (R := Toy.runtime) 1
    {| proc := Toy.seeded;
       disk := {| cwd_writable := false; entries := ∅ |} |}
  = inl PermissionError.
Proof.
  destruct (directory_step_errors Toy.runtime toy_laws 1
              {| proc := Toy.seeded;
                 disk := {| cwd_writable := false; entries := ∅ |} |})
    as (_ & _ & H).
  exact (proj2 (H eq_refl eq_refl eq_refl)).
Defined.

(** X11. After a run of the script that returned, a second run on the
    disk it left finds the directory in place, changes nothing there and
    overwrites the file: it returns, and its disk is the first run's disk
    with the new table in the output file. *)
Theorem script_rerun_overwrites (R : Runtime) (HL : RuntimeLaws R)
  (n_samples : Z) (w w1 : world R) (df : DataFrame) (again : process R) :
  script n_samples w = inr (df, w1) ->
  exists df2 p2,
    generate_credit_score_data n_samples again = inr (df2, p2) /\
    path_mkdir true true output_dir (disk w1) = inr (disk w1) /\
    script n_samples {| proc := again; disk := disk w1 |}
      = inr (df2, {| proc := p2;
                     disk := fs_insert output_path (File true df2) (disk w1) |}).
Proof.
  intros H.
  destruct (script_returns_inv R HL _ _ _ _ H) as (fs1 & H1 & H2 & Hn).
  assert (Hdir : is_dir output_dir fs1 = true)
    by (eapply mkdir_parents_is_dir; exact H1).
  assert (Hdir1 : is_dir output_dir (disk w1) = true).
  { unfold is_dir in *.
    rewrite (to_csv_other _ _ output_dir _ _ H2) by discriminate. exact Hdir. }
  assert (Hfile : fs_lookup output_path (disk w1) = Some (File true df)).
  { rewrite (to_csv_writes _ _ _ _ H2).
    unfold fs_lookup, output_path, joinpath, fs_insert.
    cbn [entries]. now rewrite lookup_insert_eq. }
  destruct (generate_frame HL n_samples again)
    as (df2 & p2 & E2 & _ & Hcols & _).
  exists df2, p2. split; [exact E2|].
  assert (Hmk : path_mkdir true true output_dir (disk w1) = inr (disk w1)).
  { unfold path_mkdir, output_dir in *. cbn [mkdir_parents].
    unfold is_dir in Hdir1. unfold os_mkdir.
    destruct (fs_lookup ["raw"%string; "data"%string] (disk w1))
      as [[wr|? t]|] eqn:L; try discriminate.
    unfold is_dir. rewrite L. reflexivity. }
  split; [exact Hmk|].
  rewrite (script_steps R n_samples {| proc := again; disk := disk w1 |}
             df2 p2 E2). cbn [proc disk].
  rewrite Hmk. unfold to_csv at 1. rewrite Hfile.
  unfold is_dir in Hdir1. change (parent output_path) with output_dir.
  destruct (fs_lookup output_dir (disk w1)) as [[wr|? ?]|]; try discriminate.
  assert (Hget : exists col, df_getitem df2 "Credit_Score" = inr col).
  { unfold df_getitem. rewrite Hcols.
    destruct (Nat.eqb_spec (Z.to_nat n_samples) 0); [lia|]. cbn. eauto. }
  destruct Hget as [col ->]. reflexivity.
Qed.

Lemma script_rerun_overwrites_witness :
  exists df w1 df2 p2,
    script (R := Toy.runtime) 1 Toy.world0 = inr (df, w1) /\
    script 1 {| proc := proc w1; disk := disk w1 |}
      = inr (df2, {| proc := p2;
                     disk := fs_insert output_path (File true df2) (disk w1) |}).
Proof.
  pose proof toy_script_returns as H.
  destruct (script (R := Toy.runtime) 1 Toy.world0) as [e|[df w1]] eqn:E;
    [contradiction|].
  destruct (script_rerun_overwrites Toy.runtime toy_laws 1 Toy.world0 w1 df
              (proc w1) E) as (df2 & p2 & _ & _ & H2).
  exists df, w1, df2, p2. split; [reflexivity|exact H2].
Defined.

(** * Further properties of [prepare_input_data] *)

Lemma form_getitem_missing (form_data : gmap string pyval) (key : string) :
  form_data !! key = None -> form_getitem form_data key = inl (KeyError key).
Proof. intros H. unfold form_getitem. now rewrite H. Qed.

Lemma dict_set_keys (key : string) (v : pyval) (d : record) :
  In key (map fst d) -> map fst (dict_set key v d) = map fst d.
Proof.
  intros Hin. unfold dict_set.
  replace (existsb (fun kv => String.eqb (fst kv) key) d) with true.
  - rewrite map_map. apply map_ext. intros [k x]. cbn.
    now destruct (String.eqb k key).
  - symmetry. apply existsb_exists. apply in_map_iff in Hin.
    destruct Hin as ([k x] & Hk & Hin). exists (k, x). split; [exact Hin|].
    cbn in *. subst. apply String.eqb_refl.
Qed.

Lemma dict_get_In (key : string) (v : pyval) (d : record) :
  dict_get key d = Some v -> In key (map fst d).
Proof.
  unfold dict_get. destruct (find _ d) as [[k x]|] eqn:E; [|discriminate].
  intros _. apply find_some in E. destruct E as [Hin Hk]. cbn in Hk.
  apply String.eqb_eq in Hk. subst. apply in_map_iff. now exists (key, x).
Qed.

Lemma encode_column_keys (pp : gmap string pyobject) (col : string)
  (d d' : record) :
  encode_column pp col d = inr d' -> map fst d' = map fst d.
Proof.
  unfold encode_column.
  destruct (dict_get col d) as [v|] eqn:Hv; [|now intros [= <-]].
  apply dict_get_In in Hv.
  destruct (pp !! col) as [encoder|]; [|now intros [= <-]].
  destruct (transform encoder) as [f|]; [|now intros [= <-]].
  destruct (f [v]) as [e|codes]; cbn [rbind].
  - destruct e; try discriminate. intros [= <-]. now apply dict_set_keys.
  - unfold assign_column. destruct codes as [|c [|c' codes]];
      intros [= <-]; now apply dict_set_keys.
Qed.

Lemma encode_column_other (pp : gmap string pyobject) (col k : string)
  (d d' : record) :
  encode_column pp col d = inr d' -> k <> col -> dict_get k d' = dict_get k d.
Proof.
  unfold encode_column.
  destruct (dict_get col d) as [v|]; [|now intros [= <-]].
  destruct (pp !! col) as [encoder|]; [|now intros [= <-]].
  destruct (transform encoder) as [f|]; [|now intros [= <-]].
  destruct (f [v]) as [e|codes]; cbn [rbind].
  - destruct e; try discriminate. intros [= <-] Hk. now apply dict_get_set_ne.
  - unfold assign_column. destruct codes as [|c [|c' codes]];
      intros [= <-] Hk; now apply dict_get_set_ne.
Qed.

Lemma encode_columns_keys (pp : gmap string pyobject) (cols : list string)
  (d d' : record) :
  encode_columns pp cols d = inr d' -> map fst d' = map fst d.
Proof.
  revert d. induction cols as [|c cols IH]; intros d; cbn [encode_columns].
  - now intros [= <-].
  - destruct (encode_column pp c d) as [e|d1] eqn:E; [discriminate|].
    cbn [rbind]. intros H. rewrite (IH _ H). now apply (encode_column_keys pp c).
Qed.

Lemma encode_columns_other (pp : gmap string pyobject) (cols : list string)
  (k : string) (d d' : record) :
  encode_columns pp cols d = inr d' -> ~ In k cols ->
  dict_get k d' = dict_get k d.
Proof.
  revert d. induction cols as [|c cols IH]; intros d; cbn [encode_columns].
  - now intros [= <-].
  - destruct (encode_column pp c d) as [e|d1] eqn:E; [discriminate|].
    cbn [rbind]. intros H Hk. rewrite (IH _ H) by (cbn in Hk; tauto).
    apply (encode_column_other pp c); [exact E|]. cbn in Hk. intros ->. tauto.
Qed.

Lemma assign_columns_keys (cols : list string) (values : list pyval)
  (d d' : record) :
  (forall c, In c cols -> In c (map fst d)) ->
  assign_columns cols values d = inr d' -> map fst d' = map fst d.
Proof.
  revert values d. induction cols as [|c cols IH]; intros values d Hin;
    destruct values as [|v values]; cbn [assign_columns]; try discriminate.
  - now intros [= <-].
  - intros H.
    assert (Hc : map fst (dict_set c v d) = map fst d)
      by (apply dict_set_keys; apply Hin; now left).
    rewrite <- Hc. apply (IH values); [|exact H].
    intros c' Hc'. rewrite Hc. apply Hin. now right.
Qed.

Lemma apply_scaler_keys (pp : gmap string pyobject) (d d' : record) :
  apply_scaler pp d = inr d' -> map fst d' = map fst d.
Proof.
  unfold apply_scaler. destruct (pp !! "scaler"%string) as [scaler|];
    [|now intros [= <-]].
  destruct (transform scaler) as [f|]; [|discriminate].
  destruct (f _) as [e|scaled]; [discriminate|]. cbn [rbind].
  apply assign_columns_keys. intros c Hc.
  apply in_map_iff in Hc. destruct Hc as (kv & <- & Hkv).
  apply list_elem_of_In, list_elem_of_filter in Hkv.
  destruct Hkv as [_ Hkv]. apply list_elem_of_In in Hkv. now apply in_map.
Qed.

Section InputData.
Variable float_of_string : string -> option Q.
Variable int_of_string : string -> option Z.

Local Ltac step_fields :=
  repeat match goal with
         | |- context [rbind ?x _] =>
             let e := fresh "e" in
             let v := fresh "v" in
             destruct x as [e|v]; cbn [rbind]
         end.

Lemma input_data_columns (form_data : gmap string pyval) (d : record) :
  input_data float_of_string int_of_string form_data = inr d ->
  map fst d = input_columns.
Proof.
  unfold input_data.
  repeat match goal with
         | |- context [rbind ?x _] =>
             let e := fresh "e" in
             let v := fresh "v" in
             destruct x as [e|v]; cbn [rbind]; [discriminate|]
         end.
  now intros [= <-].
Qed.

Lemma input_data_missing (form_data : gmap string pyval) (key : string) :
  In key form_keys -> form_data !! key = None ->
  exists e, input_data float_of_string int_of_string form_data = inl e.
Proof.
  intros Hin Hkey. apply form_getitem_missing in Hkey.
  unfold input_data, float_field, int_field.
  cbn in Hin.
  repeat (destruct Hin as [<-|Hin];
          [rewrite Hkey; cbn [rbind]; step_fields; eauto|]).
  contradiction.
Qed.

End InputData.



(** ** X12: a missing key *)

(** X12. When the submitted data lack one of the 19 keys the function
    reads, it returns no frame: an exception is raised, and exactly one
    line is logged for it; when the missing key is [age], the first one
    read, the exception is KeyError for that key and the line ends with
    the key between quotes, as [str] of a KeyError gives it. *)
Theorem missing_form_key_raises
  (float_of_string : string -> option Q) (int_of_string : string -> option Z)
  (pp : option (gmap string pyobject)) (form_data : gmap string pyval)
  (key : string) :
  In key form_keys ->
  form_data !! key = None ->
  (exists e,
      prepare_input_data float_of_string int_of_string pp form_data
      = ([String.append "Error preparing input data: " (exn_str e)], inl e)) /\
  (key = "age"%string ->
   prepare_input_data float_of_string int_of_string pp form_data
   = (["Error preparing input data: 'age'"%string], inl (KeyError "age"))).
Proof.
  intros Hin Hkey. split.
  - destruct (input_data_missing float_of_string int_of_string form_data key
                Hin Hkey) as [e He].
    exists e. unfold prepare_input_data, prepare_body. now rewrite He.
  - intros ->. unfold prepare_input_data, prepare_body, input_data, float_field.
    now rewrite (form_getitem_missing _ _ Hkey).
Qed.

Lemma missing_form_key_raises_witness :
  prepare_input_data Toy.float_of_string Toy.int_of_string None
    (delete "age"%string Toy.form)
  = (["Error preparing input data: 'age'"%string], inl (KeyError "age")).
Proof.
  apply (missing_form_key_raises Toy.float_of_string Toy.int_of_string None
           (delete "age"%string Toy.form) "age").
  - cbn. tauto.
  - apply lookup_delete_eq.
  - reflexivity.
Defined.

(** ** X13: the columns of the prepared frame *)

(** X13. Whenever [prepare_input_data] returns a frame, whatever
    [preprocessors] holds, the frame has the same 19 columns in the same
    order, and nothing has been logged: encoding and scaling assign to
    existing columns only. *)
Theorem prepared_frame_columns
  (float_of_string : string -> option Q) (int_of_string : string -> option Z)
  (pp : option (gmap string pyobject)) (form_data : gmap string pyval)
  (log : list string) (d : record) :
  prepare_input_data float_of_string int_of_string pp form_data = (log, inr d) ->
  map fst d = input_columns /\ log = [].
Proof.
  unfold prepare_input_data.
  destruct (prepare_body _ _ pp form_data) as [e|d'] eqn:E; [discriminate|].
  intros [= <- <-]. split; [|reflexivity].
  unfold prepare_body in E.
  destruct (input_data _ _ form_data) as [e|d0] eqn:E0; [discriminate|].
  cbn [rbind] in E. apply input_data_columns in E0.
  destruct pp as [pp|]; [|now injection E as <-].
  destruct (size pp =? 0)%nat; [now injection E as <-|].
  destruct (encode_columns pp categorical_columns d0) as [e|d1] eqn:E1;
    [discriminate|].
  cbn [rbind] in E. apply encode_columns_keys in E1. apply apply_scaler_keys in E.
  congruence.
Qed.

Lemma toy_prepare_returns :
  match prepare_input_data Toy.float_of_string Toy.int_of_string
          (Some Toy.preprocessors) Toy.form with
  | (_, inr _) => True
  | (_, inl _) => False
  end.
Proof. vm_compute. exact I. Qed.

Lemma prepared_frame_columns_witness :
  exists log d,
    prepare_input_data Toy.float_of_string Toy.int_of_string
      (Some Toy.preprocessors) Toy.form = (log, inr d) /\
    map fst d = input_columns.
Proof.
  pose proof toy_prepare_returns as H.
  destruct (prepare_input_data Toy.float_of_string Toy.int_of_string
              (Some Toy.preprocessors) Toy.form) as [log [e|d]] eqn:E;
    [contradiction|].
  exists log, d. split; [reflexivity|].
  exact (proj1 (prepared_frame_columns _ _ _ _ _ _ E)).
Defined.

(** ** X14: an exception that is not ValueError *)



(** ** X15: the columns the encoding does not touch *)

(** X15. Without a scaler, every column that is not one of the four
    categorical columns reaches the model as it was converted from the
    form: the encoding loop changes no other column, whether an encoder
    succeeds or its ValueError is caught. *)
Theorem encoding_leaves_other_columns
  (float_of_string : string -> option Q) (int_of_string : string -> option Z)
  (pp : gmap string pyobject) (form_data : gmap string pyval)
  (log : list string) (input_df d : record) (k : string) :
  input_data float_of_string int_of_string form_data = inr input_df ->
  prepare_input_data float_of_string int_of_string (Some pp) form_data
    = (log, inr d) ->
  pp !! "scaler"%string = None ->
  ~ In k categorical_columns ->
  dict_get k d = dict_get k input_df.
Proof.
  intros Hform H Hscaler Hk. unfold prepare_input_data, prepare_body in H.
  rewrite Hform in H. cbn [rbind] in H.
  destruct (size pp =? 0)%nat; [now injection H as _ <-|].
  destruct (encode_columns pp categorical_columns input_df) as [e|d1] eqn:E1;
    [discriminate|].
  cbn [rbind] in H. unfold apply_scaler in H. rewrite Hscaler in H.
  injection H as _ <-. now apply (encode_columns_other pp categorical_columns).
Qed.

Lemma encoding_leaves_other_columns_witness :
  exists log input_df d,
    prepare_input_data Toy.float_of_string Toy.int_of_string
      (Some Toy.preprocessors) Toy.form = (log, inr d) /\
    dict_get "Annual_Income" d = dict_get "Annual_Income" input_df /\
    dict_get "Annual_Income" input_df = Some (VFloat 50000).
Proof.
  pose proof toy_prepare_returns as H.
  destruct (input_data Toy.float_of_string Toy.int_of_string Toy.form)
    as [e|input_df] eqn:E0; [vm_compute in E0; discriminate E0|].
  destruct (prepare_input_data Toy.float_of_string Toy.int_of_string
              (Some Toy.preprocessors) Toy.form) as [log [e|d]] eqn:E;
    [contradiction|].
  exists log, input_df, d. split; [reflexivity|]. split.
  - apply (encoding_leaves_other_columns Toy.float_of_string
             Toy.int_of_string Toy.preprocessors Toy.form log input_df d
             "Annual_Income" E0 E).
    + reflexivity.
    + cbn. intuition discriminate.
  - vm_compute in E0. injection E0 as <-. reflexivity.
Defined.

(** * Generated rows and the form of the web layer *)

Lemma returns_conj {S A} (m : M S A) (s : S) (P Q : A -> S -> Prop) :
  returns m s P -> returns m s Q -> returns m s (fun a s' => P a s' /\ Q a s').
Proof.
  unfold returns. destruct (m s) as [e|[a s']]; [contradiction|]. now split.
Qed.

Lemma accepted_choice (column : string) (choices : list string) (s : string) :
  CreditScoreForm column = select_field choices ->
  In s choices -> blank s = false ->
  accepted column (Some (VStr s)).
Proof.
  intros Hf Hin Hb. exists {| kind := SelectField choices; validators := [DataRequired] |}.
  exists (VStr s). split; [exact Hf|]. split; [reflexivity|].
  unfold field_accepts. cbn [kind validators forallb validator_passes].
  rewrite Hb. cbn [negb andb]. rewrite andb_true_r.
  apply existsb_exists. exists s. split; [exact Hin|apply String.eqb_refl].
Qed.

Lemma Qle_bool_Z (a b : Z) : (a <= b)%Z -> Qle_bool (inject_Z a) (inject_Z b) = true.
Proof. intros H. apply Qle_bool_iff. now rewrite <- Zle_Qle. Qed.

Lemma accepted_int (column : string) (lo hi z : Z) :
  CreditScoreForm column = number_field IntegerField (inject_Z lo) (inject_Z hi) ->
  (lo <= z <= hi)%Z -> z <> 0%Z ->
  accepted column (Some (VInt z)).
Proof.
  intros Hf Hz H0. eexists. exists (VInt z). split; [exact Hf|].
  split; [reflexivity|].
  unfold field_accepts.
  cbn [kind validators forallb validator_passes py_truthy number_of].
  rewrite !Qle_bool_Z by lia.
  destruct (Z.eqb_spec z 0); [contradiction|reflexivity].
Qed.

Lemma accepted_int_unless_zero (column : string) (lo hi z : Z) :
  CreditScoreForm column = number_field IntegerField (inject_Z lo) (inject_Z hi) ->
  (lo <= z <= hi)%Z ->
  accepted_unless_zero column (Some (VInt z)).
Proof.
  intros Hf Hz. eexists. exists (VInt z), (inject_Z z). split; [exact Hf|].
  split; [reflexivity|]. split; [reflexivity|]. split.
  - cbn [validators]. intros min max [H|[H|[]]]; [discriminate|].
    injection H as <- <-. cbn [validator_passes number_of].
    now rewrite !Qle_bool_Z by lia.
  - unfold field_accepts.
    cbn [kind validators forallb validator_passes py_truthy number_of].
    rewrite !Qle_bool_Z by lia. cbn [andb]. rewrite andb_true_r.
    destruct (Z.eqb_spec z 0) as [->|Hne]; cbn [negb].
    + split; [discriminate|]. intros H. exfalso. apply H. reflexivity.
    + split; [|reflexivity]. intros _ H.
      apply Hne. unfold Qeq in H. cbn in H. lia.
Qed.

(** X16. Every row of every generated frame, put to the fields of
    [CreditScoreForm]: its Occupation, Credit_Mix, Payment_of_Min_Amount
    and Payment_Behaviour are choices of the select fields other than
    the placeholder, and its Age, Num_Bank_Accounts, Interest_Rate and
    Credit_History_Age are numbers the fields accept.  Its
    Num_Credit_Card, Num_of_Loan, Delay_from_due_date and
    Credit_Utilization_Ratio are within the bounds of [NumberRange], but
    [DataRequired] comes first on these fields and refuses the value 0,
    which the generator draws: each of the four is accepted exactly when
    it is not 0. *)
Theorem generated_rows_and_form_validators (R : Runtime) (HL : RuntimeLaws R)
  (n_samples : Z) (s : process R) :
  exists df s',
    generate_credit_score_data n_samples s = inr (df, s') /\
    forall i, (i < Z.to_nat n_samples)%nat ->
      (forall c, In c ["Occupation"; "Credit_Mix"; "Payment_of_Min_Amount";
                       "Payment_Behaviour"; "Age"; "Num_Bank_Accounts";
                       "Interest_Rate"; "Credit_History_Age"]%string ->
                 accepted c (cell df i c)) /\
      (forall c, In c ["Num_Credit_Card"; "Num_of_Loan"; "Delay_from_due_date";
                       "Credit_Utilization_Ratio"]%string ->
                 accepted_unless_zero c (cell df i c)).
Proof.
  destruct (generate_cells (R := R)
              (fun _ get => field_ranges get /\ field_counts get /\
                            field_categories get)) with (n := n_samples) (s := s)
    as (df & s' & E & H).
  - intros _ g1 g2 Hg (H1 & H2 & H3). split; [|split].
    + now apply (field_ranges_ext g1).
    + now apply (field_counts_ext g1).
    + now apply (field_categories_ext g1).
  - intros i s0.
    eapply returns_weaken;
      [apply (returns_conj _ _ _ _ (returns_gen_record HL i s0)
                (returns_gen_record_more HL i s0))|].
    cbv beta. intros r _ [(Hc & _ & Hr & _) (_ & Hn & Hg)]. tauto.
  - exists df, s'. split; [exact E|]. intros i Hi.
    destruct (H i Hi) as (Hr & Hn & Hg).
    destruct Hg as ((o & Ho & Hoin) & (m & Hm & Hmin) & (p & Hp & Hpin)
                    & (b & Hb & Hbin) & _).
    destruct Hr as ((a & Ha & Hage) & (nb & Hnb & Hbank) & (nc & Hnc & Hcard)
                    & (x & Hx & Hrate) & (dl & Hdl & Hdelay)
                    & (h & Hh & Hhist)).
    destruct Hn as ((nl & Hnl & Hloan) & _ & (u & Hu & Hutil) & _).
    split.
    + intros c Hc. cbn in Hc.
      destruct Hc as [<-|[<-|[<-|[<-|[<-|[<-|[<-|[<-|[]]]]]]]]].
      * rewrite Ho. apply (accepted_choice _ occupation_choices); [reflexivity| |].
        -- cbn in Hoin |- *. tauto.
        -- cbn in Hoin.
           repeat (destruct Hoin as [<-|Hoin]; [reflexivity|]). contradiction.
      * rewrite Hm.
        apply (accepted_choice _ [""; "Good"; "Standard"; "Bad"]%string);
          [reflexivity| |].
        -- cbn in Hmin |- *. tauto.
        -- cbn in Hmin.
           repeat (destruct Hmin as [<-|Hmin]; [reflexivity|]). contradiction.
      * rewrite Hp.
        apply (accepted_choice _ [""; "Yes"; "No"]%string); [reflexivity| |].
        -- cbn in Hpin |- *. tauto.
        -- cbn in Hpin.
           repeat (destruct Hpin as [<-|Hpin]; [reflexivity|]). contradiction.
      * rewrite Hb.
        apply (accepted_choice _ payment_behaviour_choices); [reflexivity| |].
        -- cbn in Hbin |- *. tauto.
        -- cbn in Hbin.
           repeat (destruct Hbin as [<-|Hbin]; [reflexivity|]). contradiction.
      * rewrite Ha. apply (accepted_int _ 18 100); [reflexivity|lia|lia].
      * rewrite Hnb. apply (accepted_int _ 0 20); [reflexivity|lia|lia].
      * rewrite Hx. eexists. exists (VFloat x). split; [reflexivity|].
        split; [reflexivity|]. unfold field_accepts.
        cbn [kind validators forallb validator_passes py_truthy number_of].
        replace (Qeq_bool x 0) with false.
        2:{ symmetry. apply not_true_is_false. intros Hq.
            apply Qeq_bool_iff in Hq. lra. }
        replace (Qle_bool 0 x) with true by (symmetry; apply Qle_bool_iff; lra).
        replace (Qle_bool x 50) with true by (symmetry; apply Qle_bool_iff; lra).
        reflexivity.
      * rewrite Hh. apply (accepted_int _ 0 600); [reflexivity|lia|lia].
    + intros c Hc. cbn in Hc. destruct Hc as [<-|[<-|[<-|[<-|[]]]]].
      * rewrite Hnc. apply (accepted_int_unless_zero _ 0 20); [reflexivity|lia].
      * rewrite Hnl. apply (accepted_int_unless_zero _ 0 20); [reflexivity|lia].
      * rewrite Hdl. apply (accepted_int_unless_zero _ 0 365); [reflexivity|lia].
      * rewrite Hu. eexists. exists (VFloat u), u. split; [reflexivity|].
        split; [reflexivity|]. split; [reflexivity|].
        assert (H0 : Qle_bool 0 u = true) by (apply Qle_bool_iff; lra).
        assert (H100 : Qle_bool u 100 = true) by (apply Qle_bool_iff; lra).
        split.
        -- cbn [validators]. intros min max [Hv|[Hv|[]]]; [discriminate|].
           injection Hv as <- <-. cbn [validator_passes number_of].
           now rewrite H0, H100.
        -- unfold field_accepts.
           cbn [kind validators forallb validator_passes py_truthy number_of].
           rewrite H0, H100. cbn [andb]. rewrite andb_true_r.
           destruct (Qeq_bool u 0) eqn:Hq; cbn [negb].
           ++ apply Qeq_bool_iff in Hq. split; [discriminate|]. tauto.
           ++ split; [|reflexivity]. intros _ Hz.
              apply Qeq_bool_iff in Hz. congruence.
Qed.

Lemma toy_row_without_loans :
  match generate_credit_score_data (R := Toy.runtime) 3 Toy.seeded with
  | inr (df, _) => cell df 2 "Num_of_Loan" = Some (VInt 0)
  | inl _ => False
  end.
Proof. vm_compute. reflexivity. Qed.

Lemma generated_rows_and_form_validators_witness :
  exists df s',
    generate_credit_score_data (R := Toy.runtime) 3 Toy.seeded = inr (df, s') /\
    accepted "Occupation" (cell df 0 "Occupation") /\
    accepted "Age" (cell df 1 "Age") /\
    cell df 2 "Num_of_Loan" = Some (VInt 0) /\
    ~ accepted "Num_of_Loan" (cell df 2 "Num_of_Loan").
Proof.
  destruct (generated_rows_and_form_validators Toy.runtime toy_laws 3 Toy.seeded)
    as (df & s' & E & H).
  pose proof toy_row_without_loans as Hzero. rewrite E in Hzero.
  exists df, s'. split; [exact E|]. split; [|split; [|split]].
  - apply (H 0%nat); [cbn; lia|cbn; tauto].
  - apply (H 1%nat); [cbn; lia|cbn; tauto].
  - exact Hzero.
  - destruct (H 2%nat ltac:(cbn; lia)) as [_ H2].
    destruct (H2 "Num_of_Loan"%string ltac:(cbn; tauto))
      as (f & v & x & Hf & Hv & Hx & _ & Hiff).
    rewrite Hzero in Hv. injection Hv as <-. injection Hx as <-.
    intros (f' & v' & Hf' & Hv' & Hacc).
    rewrite Hzero in Hv'. injection Hv' as <-.
    rewrite Hf in Hf'. injection Hf' as <-.
    apply Hiff in Hacc. apply Hacc. reflexivity.
Defined.

(** * Properties of [make_prediction] *)

Lemma list_getitem_head {A} (x : A) (l : list A) : list_getitem (x :: l) 0 = inr x.
Proof.
  unfold list_getitem. cbn [length].
  change ((0 <? 0)%Z) with false. cbv iota zeta.
  change ((0 <? 0)%Z) with false.
  destruct (Z.leb_spec (Z.of_nat (S (length l))) 0); [lia|reflexivity].
Qed.

Lemma ndarray_getitem_head {A} (x : A) (l : list A) :
  ndarray_getitem (x :: l) 0 = inr x.
Proof. unfold ndarray_getitem. now rewrite list_getitem_head. Qed.

Lemma list_getitem_inside {A} (l : list A) (z : Z) :
  (0 <= z < Z.of_nat (length l))%Z ->
  exists x, nth_error l (Z.to_nat z) = Some x /\ list_getitem l z = inr x.
Proof.
  intros H. unfold list_getitem. cbv zeta.
  destruct (Z.ltb_spec z 0); [lia|].
  destruct (Z.ltb_spec z 0); [lia|].
  destruct (Z.leb_spec (Z.of_nat (length l)) z); [lia|].
  cbn [orb]. destruct (nth_error l (Z.to_nat z)) as [x|] eqn:E.
  - exists x. split; reflexivity.
  - apply nth_error_None in E. lia.
Qed.

Lemma list_getitem_from_end {A} (l : list A) (z : Z) :
  (- Z.of_nat (length l) <= z < 0)%Z ->
  exists x, nth_error l (Z.to_nat (Z.of_nat (length l) + z)) = Some x /\
            list_getitem l z = inr x.
Proof.
  intros H. unfold list_getitem. cbv zeta.
  destruct (Z.ltb_spec z 0); [|lia].
  destruct (Z.ltb_spec (z + Z.of_nat (length l)) 0); [lia|].
  destruct (Z.leb_spec (Z.of_nat (length l)) (z + Z.of_nat (length l))); [lia|].
  cbn [orb]. rewrite (Z.add_comm z).
  destruct (nth_error l _) as [x|] eqn:E.
  - exists x. split; reflexivity.
  - apply nth_error_None in E. lia.
Qed.

Lemma list_getitem_outside {A} (l : list A) (z : Z) :
  (z < - Z.of_nat (length l) \/ Z.of_nat (length l) <= z)%Z ->
  list_getitem l z = inl (IndexError "list index out of range").
Proof.
  intros H. unfold list_getitem. cbv zeta.
  destruct (Z.ltb_spec z 0).
  - destruct (Z.ltb_spec (z + Z.of_nat (length l)) 0); [reflexivity|lia].
  - destruct (Z.ltb_spec z 0); [lia|].
    destruct (Z.leb_spec (Z.of_nat (length l)) z); [reflexivity|lia].
Qed.

(** X17. With the classes named by the metadata and a model whose
    prediction is the integer [z], [make_prediction] indexes the classes
    as Python does: for 0 <= z < len it returns the class at z with code
    z; a negative z down to -len counts from the end (the code -1 gives
    the last class) and is returned as the code; any other z raises the
    IndexError of a list, which is logged with its text and raised
    again. *)
Theorem prediction_label_by_index
  (float_of_string : string -> option Q) (int_of_string : string -> option Z)
  (str_of_float : Q -> string)
  (m : pymodel) (md : metadata) (classes : list string) (now : string)
  (input_df : record) (z : Z) (others : list pyval) (probs : option record) :
  target_classes md = Some classes ->
  predict m input_df = inr (VInt z :: others) ->
  probabilities_of float_of_string m (Some md) input_df = inr probs ->
  ((0 <= z < Z.of_nat (length classes))%Z ->
   exists c,
     nth_error classes (Z.to_nat z) = Some c /\
     make_prediction float_of_string int_of_string str_of_float
       (Some m) (Some md) now input_df
     = ([], inr {| prediction := c; prediction_code := z;
                   probabilities := probs; timestamp := now |})) /\
  ((- Z.of_nat (length classes) <= z < 0)%Z ->
   exists c,
     nth_error classes (Z.to_nat (Z.of_nat (length classes) + z)) = Some c /\
     make_prediction float_of_string int_of_string str_of_float
       (Some m) (Some md) now input_df
     = ([], inr {| prediction := c; prediction_code := z;
                   probabilities := probs; timestamp := now |})) /\
  ((z < - Z.of_nat (length classes) \/ Z.of_nat (length classes) <= z)%Z ->
   make_prediction float_of_string int_of_string str_of_float
     (Some m) (Some md) now input_df
   = (["Error making prediction: list index out of range"%string],
      inl (IndexError "list index out of range"))).
Proof.
  intros Hmd Hpred Hprobs.
  assert (Hbody : prediction_body float_of_string int_of_string str_of_float
                    (Some m) (Some md) now input_df
                  = match list_getitem classes z with
                    | inl e => inl e
                    | inr c => inr {| prediction := c; prediction_code := z;
                                      probabilities := probs; timestamp := now |}
                    end).
  { unfold prediction_body. rewrite Hpred. cbn [rbind].
    rewrite ndarray_getitem_head. cbn [rbind]. rewrite Hprobs. cbn [rbind].
    unfold known_classes. rewrite Hmd. cbn [class_of].
    destruct (list_getitem classes z); reflexivity. }
  unfold make_prediction. rewrite Hbody. split; [|split].
  - intros Hz. destruct (list_getitem_inside classes z Hz) as (c & Hc & ->).
    exists c. split; [exact Hc|reflexivity].
  - intros Hz. destruct (list_getitem_from_end classes z Hz) as (c & Hc & ->).
    exists c. split; [exact Hc|reflexivity].
  - intros Hz. now rewrite (list_getitem_outside classes z Hz).
Qed.

Lemma prediction_label_by_index_witness :
  make_prediction Toy.float_of_string Toy.int_of_string (fun _ => ""%string)
    (Some {| predict := fun _ => inr [VInt (-1)]; predict_proba := None |})
    (Some default_metadata) "2024-01-01T00:00:00" []
  = ([], inr {| prediction := "Good"; prediction_code := (-1);
                probabilities := None;
                timestamp := "2024-01-01T00:00:00" |}).
Proof.
  destruct (prediction_label_by_index Toy.float_of_string Toy.int_of_string
              (fun _ => ""%string)
              {| predict := fun _ => inr [VInt (-1)]; predict_proba := None |}
              default_metadata ["Poor"; "Standard"; "Good"]%string
              "2024-01-01T00:00:00" [] (-1) [] None
              eq_refl eq_refl eq_refl) as (_ & H & _).
  destruct (H ltac:(cbn; lia)) as (c & Hc & E).
  cbn in Hc. injection Hc as <-. exact E.
Defined.

Lemma dict_set_fresh_keys (key : string) (v : pyval) (d : record) :
  ~ In key (map fst d) -> map fst (dict_set key v d) = map fst d ++ [key].
Proof.
  intros Hn. unfold dict_set.
  replace (existsb (fun kv => String.eqb (fst kv) key) d) with false.
  - now rewrite map_app.
  - symmetry. apply not_true_is_false. intros E.
    apply existsb_exists in E. destruct E as ([k x] & Hin & Hk).
    cbn in Hk. apply String.eqb_eq in Hk. subst.
    apply Hn. apply in_map_iff. now exists (key, x).
Qed.

Section Probabilities.
Variable float_of_string : string -> option Q.

Lemma zip_probabilities_other (classes : list string) (proba : list pyval)
  (acc d : record) (c : string) :
  zip_probabilities float_of_string classes proba acc = inr d ->
  ~ In c classes -> dict_get c d = dict_get c acc.
Proof.
  revert proba acc. induction classes as [|c' classes IH]; intros proba acc.
  - cbn. now intros [= <-].
  - destruct proba as [|p proba]; cbn [zip_probabilities].
    + now intros [= <-].
    + destruct (py_float float_of_string p) as [e|q]; [discriminate|].
      cbn [rbind]. intros H Hc. rewrite (IH _ _ H) by (cbn in Hc; tauto).
      apply dict_get_set_ne. cbn in Hc. intros ->. tauto.
Qed.

Lemma zip_probabilities_keys (classes : list string) (proba : list pyval)
  (acc d : record) :
  zip_probabilities float_of_string classes proba acc = inr d ->
  List.NoDup classes ->
  (forall c, In c classes -> ~ In c (map fst acc)) ->
  map fst d = map fst acc ++ firstn (length proba) classes.
Proof.
  revert proba acc. induction classes as [|c classes IH]; intros proba acc.
  - cbn. intros [= <-] _ _. now rewrite firstn_nil, app_nil_r.
  - destruct proba as [|p proba]; cbn [zip_probabilities].
    + intros [= <-] _ _. cbn. now rewrite app_nil_r.
    + destruct (py_float float_of_string p) as [e|q]; [discriminate|].
      cbn [rbind]. intros H Hnd Hfresh.
      apply List.NoDup_cons_iff in Hnd. destruct Hnd as [Hc Hnd].
      assert (Hk : map fst (dict_set c (VFloat q) acc) = map fst acc ++ [c]).
      { apply dict_set_fresh_keys. apply Hfresh. now left. }
      rewrite (IH _ _ H Hnd).
      * rewrite Hk, <- app_assoc. reflexivity.
      * intros c' Hc'. rewrite Hk. intros Hin. apply in_app_iff in Hin.
        destruct Hin as [Hin|[->|[]]].
        -- apply (Hfresh c'); [now right|exact Hin].
        -- contradiction.
Qed.

Lemma zip_probabilities_pairs (classes : list string) (proba : list pyval)
  (acc d : record) (i : nat) (c : string) (p : pyval) :
  zip_probabilities float_of_string classes proba acc = inr d ->
  List.NoDup classes ->
  nth_error classes i = Some c -> nth_error proba i = Some p ->
  exists q, py_float float_of_string p = inr q /\ dict_get c d = Some (VFloat q).
Proof.
  revert proba acc i. induction classes as [|c' classes IH]; intros proba acc i.
  - intros _ _ Hc. destruct i; discriminate.
  - destruct proba as [|p' proba]; cbn [zip_probabilities].
    + intros _ _ _ Hp. destruct i; discriminate.
    + destruct (py_float float_of_string p') as [e|q'] eqn:Ef; [discriminate|].
      cbn [rbind]. intros H Hnd Hc Hp.
      apply List.NoDup_cons_iff in Hnd. destruct Hnd as [Hc' Hnd].
      destruct i as [|i]; cbn [nth_error] in Hc, Hp.
      * injection Hc as <-. injection Hp as <-. exists q'. split; [exact Ef|].
        rewrite (zip_probabilities_other _ _ _ _ _ H Hc').
        apply dict_get_set_eq.
      * exact (IH _ _ _ H Hnd Hc Hp).
Qed.

End Probabilities.

(** X18. When the model has [predict_proba] and the metadata name
    distinct classes, the probabilities returned by [make_prediction]
    pair the i-th class with the float of the i-th probability of the
    first row, in the order of the classes; their number is the smaller
    of the two lengths, so classes beyond the model's outputs, or outputs
    beyond the classes, are dropped without an error. *)
Theorem probabilities_pair_classes
  (float_of_string : string -> option Q)
  (m : pymodel) (md : metadata) (classes : list string) (input_df : record)
  (proba_of : record -> result (list (list pyval)))
  (proba : list pyval) (others : list (list pyval)) (probs : option record) :
  predict_proba m = Some proba_of ->
  proba_of input_df = inr (proba :: others) ->
  target_classes md = Some classes ->
  List.NoDup classes ->
  probabilities_of float_of_string m (Some md) input_df = inr probs ->
  exists d,
    probs = Some d /\
    map fst d = firstn (length proba) classes /\
    length d = Nat.min (length proba) (length classes) /\
    forall i c p,
      nth_error classes i = Some c -> nth_error proba i = Some p ->
      exists q, py_float float_of_string p = inr q /\
                dict_get c d = Some (VFloat q).
Proof.
  intros Hpp Hrows Hmd Hnd. unfold probabilities_of.
  rewrite Hpp, Hrows. cbn [rbind]. rewrite ndarray_getitem_head. cbn [rbind].
  unfold known_classes. rewrite Hmd.
  destruct (zip_probabilities float_of_string classes proba []) as [e|d] eqn:E;
    [discriminate|].
  cbn [rbind]. intros [= <-]. exists d. split; [reflexivity|].
  assert (Hk : map fst d = firstn (length proba) classes).
  { apply (zip_probabilities_keys float_of_string classes proba [] d E Hnd).
    intros c _ []. }
  split; [exact Hk|]. split.
  - rewrite <- (length_map fst d), Hk. apply length_firstn.
  - intros i c p. now apply (zip_probabilities_pairs float_of_string _ _ [] d).
Qed.

Lemma probabilities_pair_classes_witness :
  exists d,
    probabilities_of Toy.float_of_string
      {| predict := fun _ => inr [VInt 1];
         predict_proba := Some (fun _ => inr [[VFloat 0.2; VFloat 0.8]]) |}
      (Some default_metadata) [] = inr (Some d) /\
    map fst d = ["Poor"; "Standard"]%string.
Proof.
  destruct (probabilities_pair_classes Toy.float_of_string
              {| predict := fun _ => inr [VInt 1];
                 predict_proba := Some (fun _ => inr [[VFloat 0.2; VFloat 0.8]]) |}
              default_metadata ["Poor"; "Standard"; "Good"]%string []
              (fun _ => inr [[VFloat 0.2; VFloat 0.8]])
              [VFloat 0.2; VFloat 0.8] []
              (Some [("Poor"%string, VFloat 0.2); ("Standard"%string, VFloat 0.8)])
              eq_refl eq_refl eq_refl) as (d & Hd & Hk & _).
  - repeat (constructor; [cbn; intuition discriminate|]). constructor.
  - reflexivity.
  - exists d. split; [now rewrite <- Hd|exact Hk].
Defined.

(** * Properties of [load_model_artifacts] *)



Lemma load_keeps_preprocessors (dummy : result pymodel) (store : model_store)
  (g : globals) :
  preprocessors_file store = Missing ->
  g_preprocessors (snd (load_model_artifacts dummy store g)) = g_preprocessors g.
Proof.
  intros H.
  unfold load_model_artifacts, run_steps, load_model, load_metadata,
    load_feature_info, load_preprocessors. rewrite H.
  destruct (final_model_file store) as [|[e|m]];
    destruct dummy as [e'|m'];
    destruct (model_metadata_file store) as [|[e2|md]];
    destruct (feature_info_file store) as [|[e3|v]];
    reflexivity.
Qed.

Section Startup.
Variable float_of_string : string -> option Q.
Variable int_of_string : string -> option Z.

Lemma input_data_categorical (form_data : gmap string pyval) (d : record) :
  input_data float_of_string int_of_string form_data = inr d ->
  dict_get "Occupation" d = form_data !! "occupation"%string /\
  dict_get "Credit_Mix" d = form_data !! "credit_mix"%string /\
  dict_get "Payment_of_Min_Amount" d = form_data !! "payment_of_min_amount"%string /\
  dict_get "Payment_Behaviour" d = form_data !! "payment_behaviour"%string.
Proof.
  unfold input_data.
  repeat match goal with
         | |- context [rbind ?x _] =>
             let e := fresh "e" in
             let v := fresh "v" in
             let E := fresh "E" in
             destruct x as [e|v] eqn:E; cbn [rbind]; [discriminate|]
         end.
  intros [= <-].
  repeat match goal with
         | E : form_getitem _ ?k = inr _ |- _ =>
             unfold form_getitem in E;
             destruct (form_data !! k); [|discriminate E];
             injection E as ->
         end.
  repeat split; reflexivity.
Qed.

(** X20. When the preprocessors file is absent, whatever happens to the
    other three artifacts, [preprocessors] is still None after
    [load_model_artifacts] has run at start-up, and every frame that
    [prepare_input_data] then returns carries the four categorical
    values exactly as they were submitted: no encoding takes place. *)
Theorem startup_without_preprocessors (dummy : result pymodel)
  (store : model_store) (form_data : gmap string pyval) :
  preprocessors_file store = Missing ->
  let g := snd (load_model_artifacts dummy store initial_globals) in
  g_preprocessors g = None /\
  forall log d,
    prepare_input_data float_of_string int_of_string (g_preprocessors g) form_data
      = (log, inr d) ->
    dict_get "Occupation" d = form_data !! "occupation"%string /\
    dict_get "Credit_Mix" d = form_data !! "credit_mix"%string /\
    dict_get "Payment_of_Min_Amount" d
      = form_data !! "payment_of_min_amount"%string /\
    dict_get "Payment_Behaviour" d = form_data !! "payment_behaviour"%string.
Proof.
  intros H g.
  assert (Hg : g_preprocessors g = None).
  { unfold g. now rewrite load_keeps_preprocessors. }
  split; [exact Hg|]. rewrite Hg. intros log d.
  unfold prepare_input_data, prepare_body.
  destruct (input_data float_of_string int_of_string form_data) as [e|d0] eqn:E;
    [discriminate|].
  cbn [rbind]. intros [= _ <-]. now apply input_data_categorical.
Qed.

End Startup.

Lemma startup_without_preprocessors_witness :
  exists log d,
    prepare_input_data Toy.float_of_string Toy.int_of_string
      (g_preprocessors
         (snd (load_model_artifacts (inl (OtherError "ImportError" "No module named 'sklearn'"))
                 {| final_model_file := Missing;
                    model_metadata_file := Missing;
                    feature_info_file := Missing;
                    preprocessors_file := Missing |} initial_globals)))
      Toy.form = (log, inr d) /\
    dict_get "Occupation" d = Some (VStr "Astronaut").
Proof.
  destruct (startup_without_preprocessors Toy.float_of_string
              Toy.int_of_string (inl (OtherError "ImportError" "No module named 'sklearn'"))
              {| final_model_file := Missing;
                 model_metadata_file := Missing;
                 feature_info_file := Missing;
                 preprocessors_file := Missing |} Toy.form eq_refl)
    as [_ H].
  destruct (prepare_input_data _ _ _ Toy.form) as [log [e|d]] eqn:E.
  - exfalso. vm_compute in E. discriminate E.
  - exists log, d. split; [reflexivity|].
    destruct (H log d eq_refl) as (Ho & _). rewrite Ho. reflexivity.
Defined.

(** * Properties of [api_predict] *)

Section Api.
Variable float_of_string : string -> option Q.
Variable int_of_string : string -> option Z.
Variable str_of_float : Q -> string.

Lemma prepare_json_log (pp : option (gmap string pyobject)) (data : json) :
  match prepare_json float_of_string int_of_string pp data with
  | (log, inl e) => log = [String.append "Error preparing input data: " (exn_str e)]
  | (log, inr _) => log = []
  end.
Proof.
  unfold prepare_json, prepare_input_data.
  destruct data as [| | | | | |fields]; try reflexivity.
  destruct (prepare_body _ _ pp fields); reflexivity.
Qed.

Lemma make_prediction_log (model : option pymodel) (md : option metadata)
  (now : string) (d : record) :
  match make_prediction float_of_string int_of_string str_of_float
          model md now d with
  | (log, inl e) => log = [String.append "Error making prediction: " (exn_str e)]
  | (log, inr _) => log = []
  end.
Proof.
  unfold make_prediction. destruct (prediction_body _ _ _ model md now d);
    reflexivity.
Qed.

(** X21. [api_predict] answers 400 exactly when the request body was
    read and is empty or false, 200 exactly when the body is non-empty
    and both the preparation and the prediction return (the body then
    carries that prediction and nothing is logged), and 500 in every
    other case; a 500 carries the text of the exception, and an
    exception of the preparation or of the prediction has then been
    logged twice, by the function that raised it and by the route. *)
Theorem api_predict_status (model : option pymodel) (md : option metadata)
  (pp : option (gmap string pyobject)) (now : string) (get_json : result json) :
  let answer := api_predict float_of_string int_of_string str_of_float
                  model md pp now get_json in
  let status := fst (snd answer) in
  (status = 200 \/ status = 400 \/ status = 500)%Z /\
  (status = 400%Z <->
   exists data, get_json = inr data /\ json_truthy data = false) /\
  (status = 200%Z <->
   exists data d r,
     get_json = inr data /\ json_truthy data = true /\
     snd (prepare_json float_of_string int_of_string pp data) = inr d /\
     snd (make_prediction float_of_string int_of_string str_of_float
            model md now d) = inr r /\
     answer = ([], (200%Z, Success r))) /\
  (status = 500%Z ->
   exists e,
     snd (snd answer) = Failure (exn_str e) /\
     List.last (fst answer) ""%string
       = String.append "API prediction error: " (exn_str e) /\
     (forall data, get_json = inr data -> length (fst answer) = 2%nat)).
Proof.
  intros answer status. subst status answer. unfold api_predict.
  destruct get_json as [e0|data].
  { cbn. split; [auto|]. split; [|split].
    - split; [discriminate|]. intros (data & H & _). discriminate.
    - split; [discriminate|]. intros (data & d & r & H & _). discriminate.
    - intros _. exists e0. repeat split. intros data H. discriminate. }
  destruct (json_truthy data) eqn:Ht; cbn [negb].
  2:{ cbn. split; [auto|]. split; [|split].
      - split; [|reflexivity]. intros _. exists data. auto.
      - split; [discriminate|].
        intros (data' & d & r & H & Ht' & _). injection H as <-. congruence.
      - discriminate. }
  pose proof (prepare_json_log pp data) as Hlog1.
  destruct (prepare_json float_of_string int_of_string pp data)
    as [log1 [e1|d]] eqn:Ep.
  { subst log1. cbn. split; [auto|]. split; [|split].
    - split; [discriminate|].
      intros (data' & H & Ht'). injection H as <-. congruence.
    - split; [discriminate|].
      intros (data' & d & r & H & _ & Hp & _). injection H as <-.
      rewrite Ep in Hp. discriminate.
    - intros _. exists e1. repeat split. }
  subst log1.
  pose proof (make_prediction_log model md now d) as Hlog2.
  destruct (make_prediction float_of_string int_of_string str_of_float
              model md now d) as [log2 [e2|r]] eqn:Em.
  { subst log2. cbn. split; [auto|]. split; [|split].
    - split; [discriminate|].
      intros (data' & H & Ht'). injection H as <-. congruence.
    - split; [discriminate|].
      intros (data' & d' & r & H & _ & Hp & Hm & _). injection H as <-.
      rewrite Ep in Hp. injection Hp as <-. rewrite Em in Hm. discriminate.
    - intros _. exists e2. repeat split. }
  subst log2. cbn. split; [auto|]. split; [|split].
  - split; [discriminate|].
    intros (data' & H & Ht'). injection H as <-. congruence.
  - split; [|reflexivity]. intros _. exists data, d, r.
    rewrite Ep, Em. auto.
  - discriminate.
Qed.

End Api.

Lemma api_predict_status_witness :
  fst (snd (api_predict Toy.float_of_string Toy.int_of_string
              (fun _ => ""%string) None (Some default_metadata) None
              "2024-01-01T00:00:00" (inr (JObject Toy.form)))) = 500%Z /\
  exists e,
    snd (snd (api_predict Toy.float_of_string Toy.int_of_string
                (fun _ => ""%string) None (Some default_metadata) None
                "2024-01-01T00:00:00" (inr (JObject Toy.form))))
    = Failure (exn_str e).
Proof.
  assert (H : fst (snd (api_predict Toy.float_of_string Toy.int_of_string
              (fun _ => ""%string) None (Some default_metadata) None
              "2024-01-01T00:00:00" (inr (JObject Toy.form)))) = 500%Z)
    by (vm_compute; reflexivity).
  split; [exact H|].
  destruct (api_predict_status Toy.float_of_string Toy.int_of_string
              (fun _ => ""%string) None (Some default_metadata) None
              "2024-01-01T00:00:00" (inr (JObject Toy.form)))
    as (_ & _ & _ & H500).
  destruct (H500 H) as (e & He & _). exists e. exact He.
Defined.

(** * [create_app] and the identifiers across calls *)

(** X22. Whatever name [create_app] is given, the app it configures never
    has TESTING set (the testing configuration is not reachable, also
    under the name [testing]), has DEBUG off exactly for the name
    [production] and on for every other name, and has a non-empty secret
    key: the variable of the environment when it is set and not empty,
    the development fallback otherwise. *)
Theorem create_app_settings (config_name : string)
  (environ : gmap string string) :
  TESTING (create_app config_name environ) = false /\
  create_app config_name environ <> TestingConfig environ /\
  (DEBUG (create_app config_name environ) = false <->
   config_name = "production"%string) /\
  SECRET_KEY (create_app config_name environ) <> ""%string /\
  (forall s, environ !! "SECRET_KEY"%string = Some s -> s <> ""%string ->
             SECRET_KEY (create_app config_name environ) = s) /\
  (environ !! "SECRET_KEY"%string = None \/
   environ !! "SECRET_KEY"%string = Some ""%string ->
   SECRET_KEY (create_app config_name environ)
   = "dev-secret-key-change-in-production"%string).
Proof.
  unfold create_app.
  assert (Hkey : secret_key environ <> ""%string).
  { unfold secret_key. destruct (environ !! "SECRET_KEY"%string) as [s|];
      [|discriminate].
    destruct (String.eqb_spec s ""); [discriminate|assumption]. }
  destruct (String.eqb_spec config_name "production") as [->|Hne]; cbn.
  - repeat split; try discriminate; try assumption; try reflexivity.
    + intros s Hs Hn. unfold secret_key. rewrite Hs.
      destruct (String.eqb_spec s ""); [contradiction|reflexivity].
    + intros [H|H]; unfold secret_key; rewrite H; reflexivity.
  - repeat split; try discriminate; try assumption; try contradiction.
    + intros s Hs Hn. unfold secret_key. rewrite Hs.
      destruct (String.eqb_spec s ""); [contradiction|reflexivity].
    + intros [H|H]; unfold secret_key; rewrite H; reflexivity.
Qed.

(** X23. The identifiers depend on the row index alone: two calls of the
    generator with the same [n_samples], from any two generator states,
    return frames with the same ID and the same Customer_ID in every
    row, so identifiers are distinct within a frame but repeat from one
    frame to the next. *)
Theorem identifiers_repeat_across_calls (R : Runtime) (HL : RuntimeLaws R)
  (n_samples : Z) (s1 s2 : process R) :
  exists df1 s1' df2 s2',
    generate_credit_score_data n_samples s1 = inr (df1, s1') /\
    generate_credit_score_data n_samples s2 = inr (df2, s2') /\
    forall i, (i < Z.to_nat n_samples)%nat ->
      cell df1 i "ID" = cell df2 i "ID" /\
      cell df1 i "Customer_ID" = cell df2 i "Customer_ID" /\
      cell df1 i "ID" <> None.
Proof.
  destruct (generate_frame HL n_samples s1) as (df1 & s1' & E1 & _ & _ & _ & H1).
  destruct (generate_frame HL n_samples s2) as (df2 & s2' & E2 & _ & _ & _ & H2).
  exists df1, s1', df2, s2'. split; [exact E1|]. split; [exact E2|].
  intros i Hi.
  destruct (H1 i Hi) as ([Ha Hb] & _). destruct (H2 i Hi) as ([Hc Hd] & _).
  rewrite Ha, Hb, Hc, Hd. repeat split. discriminate.
Qed.

Lemma identifiers_repeat_across_calls_witness :
  exists df1 s1' df2 s2',
    generate_credit_score_data (R := Toy.runtime) 2 Toy.seeded = inr (df1, s1') /\
    generate_credit_score_data (R := Toy.runtime) 2 (Toy.fresh 5) = inr (df2, s2') /\
    cell df1 1 "ID" = cell df2 1 "ID".
Proof.
  destruct (identifiers_repeat_across_calls Toy.runtime toy_laws 2
              Toy.seeded (Toy.fresh 5))
    as (df1 & s1' & df2 & s2' & E1 & E2 & H).
  exists df1, s1', df2, s2'. split; [exact E1|]. split; [exact E2|].
  apply (H 1%nat). cbn. lia.
Defined.
